(** * Product catalog management: store, barcode allocator, CSV import and
      export, the product table and its search, and the printing of
      labels, price tags and product lists

    A shallow embedding of [product_management.py].  The SQLite table
    [products] becomes a list of rows together with the AUTOINCREMENT
    counter, the Python conversions become total functions returning
    [option], exceptions become explicit outcomes, and the painter and the
    file system touched by the label printer become an event trace and a
    list of paths.  The widgets the functions read become the values they
    hold: the rows of a table, the boxes of a dialog, the text of a field.  Strings are sequences of characters; only ASCII
    characters are interpreted (spaces, digits, signs), every other
    character is opaque. *)

From Stdlib Require Import ZArith NArith List String Ascii Bool Lia.
From Stdlib Require Import DecimalString DecimalZ DecimalN DecimalPos.
From Stdlib Require HexadecimalString HexadecimalZ.
From Stdlib Require Import SpecFloat Sorted.
Import ListNotations.

Local Open Scope string_scope.
Local Open Scope Z_scope.

(** ** Python string primitives used by the source *)

Module PyStr.

(** [str.isspace] on the ASCII range: TAB..CR, FS..US and the blank. *)
Definition is_space (a : ascii) : bool :=
  let n := nat_of_ascii a in
  ((9 <=? n) && (n <=? 13) || (28 <=? n) && (n <=? 32))%nat.

Fixpoint lstrip (s : string) : string :=
  match s with
  | String a s' => if is_space a then lstrip s' else s
  | EmptyString => EmptyString
  end.

(** Drops the trailing blanks: a character is kept when something that is
    kept follows it, or when it is not a blank itself. *)
Fixpoint rstrip (s : string) : string :=
  match s with
  | EmptyString => EmptyString
  | String a s' =>
      match rstrip s' with
      | EmptyString => if is_space a then EmptyString else String a EmptyString
      | r => String a r
      end
  end.

(** [s.strip()] *)
Definition strip (s : string) : string := rstrip (lstrip s).

(** [s.replace(",", "")] *)
Fixpoint remove_commas (s : string) : string :=
  match s with
  | EmptyString => EmptyString
  | String a s' =>
      if Ascii.eqb a "," then remove_commas s' else String a (remove_commas s')
  end.

(** [bool(s)] for a string: the empty string is false. *)
Definition truthy (s : string) : bool :=
  match s with EmptyString => false | _ => true end.

(** [str(n)] for an integer. *)
Definition str_of_int (n : Z) : string := NilZero.string_of_int (Z.to_int n).

Fixpoint zeros (k : nat) : string :=
  match k with
  | O => EmptyString
  | S k' => String "0" (zeros k')
  end.

(** [s.zfill(width)]: zeros are inserted after a leading sign. *)
Definition zfill (width : nat) (s : string) : string :=
  let pad := (width - String.length s)%nat in
  match s with
  | String a s' =>
      if Ascii.eqb a "+" || Ascii.eqb a "-"
      then String a (zeros pad ++ s')
      else zeros pad ++ s
  | EmptyString => zeros pad
  end.

End PyStr.

(** ** Identifier allocator *)

(** [f"CB{str(last_id + 1).zfill(8)}"] *)
Definition allocate_barcode (last_id : Z) : string :=
  "CB" ++ PyStr.zfill 8 (PyStr.str_of_int (last_id + 1)).

(** ** Python floats: IEEE 754 binary64, round to nearest even *)

Module F64.

Definition float := spec_float.
Definition prec : Z := 53.
Definition emax : Z := 1024.

Definition mul : float -> float -> float := SFmul prec emax.
Definition add : float -> float -> float := SFadd prec emax.
Definition sub : float -> float -> float := SFsub prec emax.
(** IEEE division; Python's [/] first tests the divisor, see [py_div]. *)
Definition div : float -> float -> float := SFdiv prec emax.
Definition ltb : float -> float -> bool := SFltb.
Definition leb : float -> float -> bool := SFleb.
Definition eqb : float -> float -> bool := SFeqb.

(** [float(n)] for an integer [n] in the range of the format: exact below
    2^53 in magnitude, rounded to nearest above.  The integers converted in
    this program are the sides of a [QRect] (C ints) and lengths of strings,
    all far inside the range; beyond it Python raises OverflowError, which
    is not modelled. *)
Definition of_int (n : Z) : float := binary_normalize prec emax n 0 false.

Definition zero : float := S754_zero false.

Definition is_nan (x : float) : bool :=
  match x with S754_nan => true | _ => false end.

(** The float nearest to [m * 10 ^ e10], with the sign [neg]: what both a
    float literal of the source and [float(str)] denote. *)
Definition of_decimal (neg : bool) (m : N) (e10 : Z) : float :=
  match m with
  | N0 => S754_zero neg
  | Npos p =>
      if 0 <=? e10
      then binary_round prec emax neg (p * Z.to_pos (10 ^ e10)) 0
      else
        let '(q, e, l) :=
          SFdiv_core_binary prec emax (Zpos p) 0 (10 ^ (- e10)) 0 in
        binary_round_aux prec emax neg q e l
  end.

(** [x / y] in Python: a zero divisor raises ZeroDivisionError ([None]). *)
Definition py_div (x y : float) : option float :=
  if eqb y zero then None else Some (div x y).

End F64.

(** ** The conversions of the Python runtime

    [int(str)], [float(str)] and [datetime.strptime(..).strftime(..)] belong
    to the runtime, not to the program.  The program is embedded over any
    implementation of them ([None] stands for ValueError); [ascii_builtins]
    below is the one used to run it on concrete inputs. *)

Inductive date_format := DMY_slash (* "%d/%m/%Y" *) | YMD_dash (* "%Y-%m-%d" *).

Class PyBuiltins := {
  py_int : string -> option Z;
  py_float : string -> option F64.float;
  (** [datetime.strptime(s, fmt).strftime("%Y-%m-%d")] *)
  strptime_iso : date_format -> string -> option string
}.

Module PyConv.

Definition is_digit (a : ascii) : bool :=
  let n := nat_of_ascii a in ((48 <=? n) && (n <=? 57))%nat.

Definition digit_val (a : ascii) : N := N.of_nat (nat_of_ascii a - 48).

(** digitpart ::= digit (["_"] digit)*  -- returns the digits read and the
    rest of the input; an underscore is only consumed between two digits. *)
Fixpoint digitpart (after_digit : bool) (s : string) : list N * string :=
  match s with
  | EmptyString => ([], s)
  | String a s' =>
      if is_digit a then
        let (ds, r) := digitpart true s' in (digit_val a :: ds, r)
      else if Ascii.eqb a "_" && after_digit then
        match s' with
        | String b _ => if is_digit b then digitpart false s' else ([], s)
        | EmptyString => ([], s)
        end
      else ([], s)
  end.

Definition value (ds : list N) : N :=
  fold_left (fun acc d => 10 * acc + d)%N ds 0%N.

(** An optional sign: [true] is minus. *)
Definition sign (s : string) : bool * string :=
  match s with
  | String a s' =>
      if Ascii.eqb a "-" then (true, s')
      else if Ascii.eqb a "+" then (false, s') else (false, s)
  | EmptyString => (false, s)
  end.

(** [int(s)], base 10. *)
Definition int_of_string (s : string) : option Z :=
  let (neg, r) := sign (PyStr.strip s) in
  match digitpart false r with
  | ((_ :: _) as ds, EmptyString) =>
      let v := Z.of_N (value ds) in Some (if neg then - v else v)
  | _ => None
  end.

Definition lower (a : ascii) : ascii :=
  let n := nat_of_ascii a in
  if ((65 <=? n) && (n <=? 90))%nat then ascii_of_nat (n + 32) else a.

Fixpoint lowercase (s : string) : string :=
  match s with
  | EmptyString => EmptyString
  | String a s' => String (lower a) (lowercase s')
  end.

(** exponent ::= ("e" | "E") [sign] digitpart, up to the end of input. *)
Definition exponent (s : string) : option Z :=
  match s with
  | EmptyString => Some 0
  | String a s' =>
      if Ascii.eqb (lower a) "e" then
        let (neg, r) := sign s' in
        match digitpart false r with
        | ((_ :: _) as ds, EmptyString) =>
            let v := Z.of_N (value ds) in Some (if neg then - v else v)
        | _ => None
        end
      else None
  end.

(** [float(s)]: [sign] (number [exponent] | "inf" | "infinity" | "nan"),
    number ::= [digitpart] "." digitpart | digitpart ["."]. *)
Definition float_of_string (s : string) : option F64.float :=
  let (neg, r) := sign (PyStr.strip s) in
  let w := lowercase r in
  if String.eqb w "inf" || String.eqb w "infinity" then Some (S754_infinity neg)
  else if String.eqb w "nan" then Some S754_nan
  else
    let (ip, r1) := digitpart false r in
    let '(fp, r2) :=
      match r1 with
      | String a r1' => if Ascii.eqb a "." then digitpart false r1' else ([], r1)
      | EmptyString => ([], r1)
      end in
    match ip, fp with
    | [], [] => None
    | _, _ =>
        match exponent r2 with
        | Some e =>
            Some (F64.of_decimal neg (value (ip ++ fp)) (e - Z.of_nat (List.length fp)))
        | None => None
        end
    end.

(** *** Dates *)

Fixpoint split_on (c : ascii) (s : string) : list string :=
  match s with
  | EmptyString => [EmptyString]
  | String a s' =>
      if Ascii.eqb a c then EmptyString :: split_on c s'
      else
        match split_on c s' with
        | t :: ts => String a t :: ts
        | [] => [String a EmptyString]
        end
  end.

Definition digits_of (s : string) : option N :=
  let l := list_ascii_of_string s in
  if forallb is_digit l then Some (value (map digit_val l)) else None.

(** A field of one or two digits with a value in [lo, hi]; the day
    directive also takes a blank followed by one digit. *)
Definition field (blank_ok : bool) (lo hi : N) (s : string) : option N :=
  let s' :=
    match s with
    | String a (String b EmptyString) =>
        if blank_ok && Ascii.eqb a " " then String b EmptyString else s
    | _ => s
    end in
  match digits_of s' with
  | Some v =>
      if ((1 <=? String.length s')%nat && (String.length s' <=? 2)%nat
          && (lo <=? v)%N && (v <=? hi)%N)%bool
      then Some v else None
  | None => None
  end.

(** %Y: exactly four digits; year 0 is out of range. *)
Definition year_field (s : string) : option N :=
  match digits_of s with
  | Some v => if ((String.length s =? 4)%nat && (1 <=? v)%N)%bool then Some v else None
  | None => None
  end.

Definition is_leap (y : N) : bool :=
  ((y mod 4 =? 0) && (negb (y mod 100 =? 0) || (y mod 400 =? 0)))%N.

Definition days_in_month (y m : N) : N :=
  if (m =? 2)%N then (if is_leap y then 29 else 28)%N
  else if ((m =? 4) || (m =? 6) || (m =? 9) || (m =? 11))%N then 30%N
  else 31%N.

Definition pad (w : nat) (n : N) : string :=
  PyStr.zfill w (PyStr.str_of_int (Z.of_N n)).

(** The year is printed on four digits (for years below 1000 the C library
    decides the padding). *)
Definition iso (y m d : N) : string := pad 4 y ++ "-" ++ pad 2 m ++ "-" ++ pad 2 d.

Definition checked (y m d : option N) : option string :=
  match y, m, d with
  | Some y, Some m, Some d =>
      if (d <=? days_in_month y m)%N then Some (iso y m d) else None
  | _, _, _ => None
  end.

Definition strptime_strftime (fmt : date_format) (s : string) : option string :=
  match fmt with
  | DMY_slash =>
      match split_on "/" s with
      | [d; m; y] => checked (year_field y) (field false 1 12 m) (field true 1 31 d)
      | _ => None
      end
  | YMD_dash =>
      match split_on "-" s with
      | [y; m; d] => checked (year_field y) (field false 1 12 m) (field true 1 31 d)
      | _ => None
      end
  end.

End PyConv.

#[export] Instance ascii_builtins : PyBuiltins := {
  py_int := PyConv.int_of_string;
  py_float := PyConv.float_of_string;
  strptime_iso := PyConv.strptime_strftime
}.

(** ** Exceptions raised along the modelled paths *)

Inductive exception :=
| ValueError
| IndexError
| TypeError
| ZeroDivisionError
| OverflowError
| StopIteration
| IntegrityError
| BarcodeError.

(** ** The catalog store: the [products] table of the SQLite database *)

Module Store.

(** A row of [products]; [image_path] is NULL ([None]) for imported rows. *)
Record product := mk_product {
  id : Z;
  name : string;
  quantity : Z;
  purchase_price : F64.float;
  sale_price : F64.float;
  expiry_date : string;
  barcode : string;
  image_path : option string;
  supplier_name : string;
  supplier_phone : string
}.

(** The table in insertion order, and [sqlite_sequence]: the largest id
    ever assigned ([id INTEGER PRIMARY KEY AUTOINCREMENT]). *)
Record database := mk_database {
  rows : list product;
  seq : Z
}.

Definition empty : database := {| rows := []; seq := 0 |}.

(** The values bound to the placeholders of an INSERT or UPDATE. *)
Record bindings := mk_bindings {
  b_name : string;
  b_quantity : Z;
  b_purchase_price : F64.float;
  b_sale_price : F64.float;
  b_expiry_date : string;
  b_barcode : string;
  b_image_path : option string;
  b_supplier_name : string;
  b_supplier_phone : string
}.

(** [cursor.execute] either succeeds or raises: [sqlite3.IntegrityError] for
    a violated constraint, [OverflowError] when an integer parameter does
    not fit 64 bits (the statement is then not run at all). *)
Inductive result := Ok (db : database) | Err (e : exception).

(** [SELECT MAX(id) FROM products]: NULL on the empty table. *)
Definition select_max_id (db : database) : option Z :=
  match rows db with
  | [] => None
  | r :: rs => Some (fold_left (fun m x => Z.max m (id x)) rs (id r))
  end.

(** [... .fetchone()[0] or 0] *)
Definition max_id (db : database) : Z :=
  match select_max_id db with
  | Some m => if m =? 0 then 0 else m
  | None => 0
  end.

Definition has_barcode (bc : string) (db : database) : bool :=
  existsb (fun r => String.eqb (barcode r) bc) (rows db).

(** [SELECT ... WHERE barcode=?] followed by [fetchone()]. *)
Definition get (bc : string) (db : database) : option product :=
  find (fun r => String.eqb (barcode r) bc) (rows db).

(** An integer is bound as a 64-bit value. *)
Definition fits_int64 (n : Z) : bool :=
  (- 2 ^ 63 <=? n) && (n <? 2 ^ 63).

(** A NaN is bound as NULL and the price columns are NOT NULL;
    [CHECK(purchase_price >= 0)], [CHECK(sale_price >= 0)]. *)
Definition price_ok (p : F64.float) : bool :=
  negb (F64.is_nan p) && F64.leb F64.zero p.

Definition row_of (i : Z) (b : bindings) : product :=
  {| id := i; name := b_name b; quantity := b_quantity b;
     purchase_price := b_purchase_price b; sale_price := b_sale_price b;
     expiry_date := b_expiry_date b; barcode := b_barcode b;
     image_path := b_image_path b; supplier_name := b_supplier_name b;
     supplier_phone := b_supplier_phone b |}.

(** The id AUTOINCREMENT gives to the next row: one more than the largest
    id the table has ever held. *)
Definition next_id (db : database) : Z := Z.max (seq db) (max_id db) + 1.

(** [INSERT INTO products (...) VALUES (...)] *)
Definition insert (b : bindings) (db : database) : result :=
  if negb (fits_int64 (b_quantity b)) then Err OverflowError
  else if negb (price_ok (b_purchase_price b) && price_ok (b_sale_price b))
  then Err IntegrityError
  else if has_barcode (b_barcode b) db then Err IntegrityError
  else
    let i := next_id db in
    Ok {| rows := rows db ++ [row_of i b]; seq := i |}.

(** [UPDATE products SET ... WHERE barcode=old]: every column but [id] is
    overwritten in the matching row; when no row matches nothing is
    checked and nothing changes.  The barcode stays UNIQUE: the new one
    may not be held by another row. *)
Definition update (old : string) (b : bindings) (db : database) : result :=
  if negb (fits_int64 (b_quantity b)) then Err OverflowError
  else
    match filter (fun r => String.eqb (barcode r) old) (rows db) with
    | [] => Ok db
    | [_] =>
        if negb (price_ok (b_purchase_price b) && price_ok (b_sale_price b))
        then Err IntegrityError
        else if existsb (fun r => negb (String.eqb (barcode r) old)
                                  && String.eqb (barcode r) (b_barcode b)) (rows db)
        then Err IntegrityError
        else
          Ok {| rows := map (fun r => if String.eqb (barcode r) old
                                      then row_of (id r) b else r) (rows db);
                seq := seq db |}
    | _ :: _ :: _ => Err IntegrityError
    end.

(** [DELETE FROM products WHERE barcode=?] *)
Definition delete (bc : string) (db : database) : database :=
  {| rows := filter (fun r => negb (String.eqb (barcode r) bc)) (rows db);
     seq := seq db |}.

End Store.

(** ** The product form and [save_product] *)

(** A [QDate] of the date editor. *)
Record QDate := mk_date { year : Z; month : Z; day : Z }.

Definition date_ltb (a b : QDate) : bool :=
  (year a <? year b)
  || (year a =? year b) && ((month a <? month b)
                            || (month a =? month b) && (day a <? day b)).

(** [date.toString("yyyy-MM-dd")] *)
Definition date_to_string (d : QDate) : string :=
  PyStr.zfill 4 (PyStr.str_of_int (year d)) ++ "-"
  ++ PyStr.zfill 2 (PyStr.str_of_int (month d)) ++ "-"
  ++ PyStr.zfill 2 (PyStr.str_of_int (day d)).

(** The texts of the dialog's fields when Save is pressed. *)
Record form := mk_form {
  f_name : string;
  f_qty : string;
  f_purchase : string;
  f_sale : string;
  f_expiry : QDate;
  f_barcode : string;
  f_supplier_name : string;
  f_supplier_phone : string
}.

(** How [save_product] ends: one of the warnings, the success message, the
    "barcode already used" warning, or an exception nobody catches. *)
Inductive save_result :=
| MissingFields
| NegativeQuantity
| PurchaseNotPositive
| SaleNotPositive
| SaleBelowPurchase
| ExpiryInPast
| NumericError
| Saved
| BarcodeInUse
| SaveRaised (e : exception).

Section Application.

Context {builtins : PyBuiltins}.

(** The first half of [save_product]: the fields are read and checked, and
    a barcode is allocated when the field is blank.  The result is either
    the warning shown to the user or the values handed to the store.
    [today] is [QDate.currentDate()] and [image_path] is [self.image_path]. *)
Definition read_form (today : QDate) (image_path : string) (f : form)
    (db : Store.database) : save_result + Store.bindings :=
  let n := PyStr.strip (f_name f) in
  let q := PyStr.strip (f_qty f) in
  let p := PyStr.strip (f_purchase f) in
  let s := PyStr.strip (f_sale f) in
  let exp := date_to_string (f_expiry f) in
  let bc := PyStr.strip (f_barcode f) in
  let sup_name := PyStr.strip (f_supplier_name f) in
  let sup_phone := PyStr.strip (f_supplier_phone f) in
  if negb (PyStr.truthy n && PyStr.truthy q && PyStr.truthy p && PyStr.truthy s)
  then inl MissingFields
  else
    match py_int (PyStr.remove_commas q),
          py_float (PyStr.remove_commas p),
          py_float (PyStr.remove_commas s) with
    | Some q_val, Some p_val, Some s_val =>
        if q_val <? 0 then inl NegativeQuantity
        else if F64.leb p_val F64.zero then inl PurchaseNotPositive
        else if F64.leb s_val F64.zero then inl SaleNotPositive
        else if F64.ltb s_val p_val then inl SaleBelowPurchase
        else if date_ltb (f_expiry f) today then inl ExpiryInPast
        else
          let bc := if PyStr.truthy bc then bc
                    else allocate_barcode (Store.max_id db) in
          inr {| Store.b_name := n; Store.b_quantity := q_val;
                 Store.b_purchase_price := p_val; Store.b_sale_price := s_val;
                 Store.b_expiry_date := exp; Store.b_barcode := bc;
                 Store.b_image_path := Some image_path;
                 Store.b_supplier_name := sup_name;
                 Store.b_supplier_phone := sup_phone |}
    | _, _, _ => inl NumericError
    end.

(** [save_product]: [record] is [record[5]], the barcode the edited product
    had when the dialog was opened ([None] when a product is added): an
    edit is an UPDATE keyed by it, an addition is an INSERT.  An
    IntegrityError gives the "barcode already used" warning; an
    OverflowError is not caught. *)
Definition save_product (today : QDate) (image_path : string) (f : form)
    (record : option string) (db : Store.database) : Store.database * save_result :=
  match read_form today image_path f db with
  | inl warning => (db, warning)
  | inr b =>
      match (match record with
             | Some old => Store.update old b db
             | None => Store.insert b db
             end) with
      | Store.Ok db' => (db', Saved)
      | Store.Err IntegrityError => (db, BarcodeInUse)
      | Store.Err e => (db, SaveRaised e)
      end
  end.

End Application.

(** [edit_product] for the selected row, whose barcode cell reads [bc]: the
    record is fetched by that barcode and the dialog is opened on it, its
    sixth field being the [record[5]] that [save_product] receives; [None]
    is the warning that the product is not in the database, after which no
    dialog is opened. *)
Definition edit_product (bc : string) (db : Store.database) : option Store.product :=
  Store.get bc db.

(** ** [delete_product] *)

(** What the host decides: whether [os.remove] of a path succeeds, whether
    the barcode writer manages to render and save a symbol, and whether
    [QImage] can decode the file it is given. *)
Class Host := {
  remove_ok : string -> bool;
  render_ok : string -> bool;
  decode_ok : string -> bool
}.

(** The database seen through the connection, and the files on disk. *)
Record world := mk_world {
  db : Store.database;
  files : list string
}.

Definition path_exists (p : string) (w : world) : bool :=
  existsb (String.eqb p) (files w).

(** [os.remove(p)]: [None] when it raises. *)
Definition os_remove {host : Host} (p : string) (fs : list string) : option (list string) :=
  if remove_ok p && existsb (String.eqb p) fs
  then Some (filter (fun x => negb (String.eqb p x)) fs)
  else None.

Inductive delete_result :=
| DeleteDeclined
| Deleted
| DeleteRaised (e : exception).

(** [delete_product] for the selected row, whose barcode cell reads [bc];
    [yes] is the answer to the confirmation box.  The product image is
    removed on a best-effort basis; a row that is no longer there makes
    [fetchone()] return [None], whose subscript raises TypeError. *)
Definition delete_product {host : Host} (bc : string) (yes : bool) (w : world)
  : world * delete_result :=
  if yes then
    match Store.get bc (db w) with
    | None => (w, DeleteRaised TypeError)
    | Some r =>
        let fs :=
          match Store.image_path r with
          | Some p =>
              if PyStr.truthy p && path_exists p w then
                match os_remove p (files w) with
                | Some fs' => fs'
                | None => files w
                end
              else files w
          | None => files w
          end in
        ({| db := Store.delete bc (db w); files := fs |}, Deleted)
    end
  else (w, DeleteDeclined).

(** ** [import_from_csv] *)

(** The positions of the columns, found by header name; an optional column
    that is absent is [None] (the source's [-1]). *)
Record columns := mk_columns {
  name_col : nat;
  qty_col : nat;
  purchase_col : nat;
  sale_col : nat;
  expiry_col : option nat;
  barcode_col : option nat;
  supplier_name_col : option nat;
  supplier_phone_col : option nat
}.

(** [headers.index(h)]: [None] is ValueError. *)
Fixpoint index (h : string) (headers : list string) : option nat :=
  match headers with
  | [] => None
  | x :: xs => if String.eqb x h then Some O else option_map S (index h xs)
  end.

Definition resolve_columns (headers : list string) : option columns :=
  match index "name" headers, index "quantity" headers,
        index "purchase_price" headers, index "sale_price" headers with
  | Some n, Some q, Some p, Some s =>
      Some {| name_col := n; qty_col := q; purchase_col := p; sale_col := s;
              expiry_col := index "expiry_date" headers;
              barcode_col := index "barcode" headers;
              supplier_name_col := index "supplier_name" headers;
              supplier_phone_col := index "supplier_phone" headers |}
  | _, _, _, _ => None
  end.

(** [row[c].strip() if c != -1 and len(row) > c else ""] *)
Definition optional_field (row : list string) (c : option nat) : string :=
  match c with
  | Some i =>
      match nth_error row i with
      | Some v => PyStr.strip v
      | None => ""
      end
  | None => ""
  end.

(** What happens to one data row. *)
Inductive row_result :=
| RowInserted (db' : Store.database)
| RowSkipped
| RowRaised (e : exception).

(** How the import ends: the format warning, the summary message with the
    two counters, or the "error during import" box of the outer handler. *)
Inductive import_result :=
| FormatError
| Imported (imported_count error_count : Z)
| ImportFailed (e : exception).

Section CsvImport.

Context {builtins : PyBuiltins}.

(** The expiry date is tried as DD/MM/YYYY, then as YYYY-MM-DD, and is
    dropped when neither reads it. *)
Definition coerce_expiry (expiry : string) : string :=
  if PyStr.truthy expiry then
    match strptime_iso DMY_slash expiry with
    | Some d => d
    | None =>
        match strptime_iso YMD_dash expiry with
        | Some d => d
        | None => ""
        end
    end
  else "".

(** The body of the row loop.  IndexError, ValueError and
    sqlite3.IntegrityError are caught by the row's own handler and count as
    a skipped row; any other exception leaves the loop. *)
Definition import_row (c : columns) (row : list string) (db : Store.database)
  : row_result :=
  if (List.length row <? 4)%nat then RowSkipped
  else
    match nth_error row (name_col c), nth_error row (qty_col c),
          nth_error row (purchase_col c), nth_error row (sale_col c) with
    | Some name, Some qty, Some purchase, Some sale =>
        let name := PyStr.strip name in
        let qty := PyStr.strip qty in
        let purchase := PyStr.strip purchase in
        let sale := PyStr.strip sale in
        let expiry := optional_field row (expiry_col c) in
        let barcode_value := optional_field row (barcode_col c) in
        let supplier_name := optional_field row (supplier_name_col c) in
        let supplier_phone := optional_field row (supplier_phone_col c) in
        if negb (PyStr.truthy name && PyStr.truthy qty
                 && PyStr.truthy purchase && PyStr.truthy sale)
        then RowSkipped
        else
          match py_int (PyStr.remove_commas qty),
                py_float (PyStr.remove_commas purchase),
                py_float (PyStr.remove_commas sale) with
          | Some q_val, Some p_val, Some s_val =>
              if (q_val <? 0) || F64.leb p_val F64.zero || F64.leb s_val F64.zero
              then RowSkipped
              else
                let expiry_date := coerce_expiry expiry in
                let barcode_value :=
                  if PyStr.truthy barcode_value then barcode_value
                  else allocate_barcode (Store.max_id db) in
                match Store.insert
                        {| Store.b_name := name; Store.b_quantity := q_val;
                           Store.b_purchase_price := p_val;
                           Store.b_sale_price := s_val;
                           Store.b_expiry_date := expiry_date;
                           Store.b_barcode := barcode_value;
                           Store.b_image_path := None;
                           Store.b_supplier_name := supplier_name;
                           Store.b_supplier_phone := supplier_phone |} db with
                | Store.Ok db' => RowInserted db'
                | Store.Err IntegrityError => RowSkipped
                | Store.Err e => RowRaised e
                end
          | _, _, _ => RowSkipped
          end
    | _, _, _, _ => RowSkipped
    end.

(** The row loop with its two counters. *)
Fixpoint import_rows (c : columns) (body : list (list string))
    (db : Store.database) (imported_count error_count : Z)
  : Store.database * import_result :=
  match body with
  | [] => (db, Imported imported_count error_count)
  | row :: rest =>
      match import_row c row db with
      | RowInserted db' => import_rows c rest db' (imported_count + 1) error_count
      | RowSkipped => import_rows c rest db imported_count (error_count + 1)
      | RowRaised e => (db, ImportFailed e)
      end
  end.

(** [import_from_csv] on the rows [csv.reader] yields; the first one is the
    header ([next(reader)] on an empty file raises StopIteration, which the
    outer handler reports).  The database returned is the one seen through
    the connection. *)
Definition import_from_csv (file : list (list string)) (db : Store.database)
  : Store.database * import_result :=
  match file with
  | [] => (db, ImportFailed StopIteration)
  | headers :: body =>
      match resolve_columns headers with
      | None => (db, FormatError)
      | Some c => import_rows c body db 0 0
      end
  end.

End CsvImport.

(** ** Barcode labels: the rasterised path of [print_selected_barcodes]

    This is the part of [print_selected_barcodes] that runs once direct
    ESC/POS printing has raised: every copy is painted on a page of a
    [QPrinter] whose paper has the size of the chosen label. *)

(** The entry of the paper-size box, told apart by the word it contains. *)
Inductive paper := Small | Medium | Large.

(** The writer options that differ between the sizes, and the two font sizes
    ([font_size], [text_distance], the colours and [write_text] are the same
    for all three). *)
Record profile := mk_profile {
  module_width : F64.float;
  module_height : Z;
  quiet_zone : Z;
  name_font_size : Z;
  price_font_size : Z
}.

Definition profile_of (p : paper) : profile :=
  match p with
  | Small =>
      {| module_width := F64.of_decimal false 25 (-2); module_height := 8;
         quiet_zone := 3; name_font_size := 8; price_font_size := 10 |}
  | Medium =>
      {| module_width := F64.of_decimal false 3 (-1); module_height := 12;
         quiet_zone := 4; name_font_size := 10; price_font_size := 12 |}
  | Large =>
      {| module_width := F64.of_decimal false 35 (-2); module_height := 16;
         quiet_zone := 5; name_font_size := 12; price_font_size := 14 |}
  end.

(** [printer.pageRect()]: a rectangle with integer sides, in device units. *)
Record QRect := mk_rect { width : Z; height : Z }.

Record QRectF := mk_rectf {
  rect_x : F64.float;
  rect_y : F64.float;
  rect_w : F64.float;
  rect_h : F64.float
}.

(** The texts drawn: the product name, and the price line
    [f"Prix : {product_price:,.2f} DA"] kept as the number it formats. *)
Inductive label_text :=
| NameText (s : string)
| PriceText (v : F64.float).

(** What the painter and the printer are asked to do, in order. *)
Inductive paint_event :=
| DrawImage (target : QRectF) (path : string)
| SetFont (point_size : Z) (bold : bool)
| DrawText (rect : QRectF) (text : label_text)
| NewPage.

(** The rectangle the barcode image is drawn into, as the loop body computes
    it from the page rectangle, the writer options and [len(barcode_value)];
    [None] is the ZeroDivisionError of the quotient. *)
Definition target_rect (o : profile) (page : QRect) (len : nat) : option QRectF :=
  let img_width := F64.mul (F64.of_int (width page)) (F64.of_decimal false 9 (-1)) in
  match F64.py_div (F64.of_int (module_height o))
                   (F64.mul (module_width o) (F64.of_int (Z.of_nat len))) with
  | None => None
  | Some ratio =>
      let img_height := F64.mul img_width ratio in
      let barcode_x :=
        F64.div (F64.sub (F64.of_int (width page)) img_width) (F64.of_int 2) in
      let barcode_y :=
        F64.mul (F64.of_int (height page)) (F64.of_decimal false 1 (-1)) in
      Some {| rect_x := barcode_x; rect_y := barcode_y;
              rect_w := img_width; rect_h := img_height |}
  end.

(** The file the barcode image is written to: the name built by the source,
    to which the image writer appends its own extension. *)
Definition temp_path (barcode_value : string) : string :=
  ("barcodes/temp_barcode_" ++ barcode_value ++ ".png") ++ ".png".

Definition create_file (p : string) (fs : list string) : list string :=
  if existsb (String.eqb p) fs then fs else p :: fs.

(** The outcome of a piece of the job: the world it leaves, what was painted,
    and the exception that ended it, if any. *)
Definition painted : Type := world * list paint_event * option exception.

Section Labels.

Context {host : Host}.

Variable size : paper.
Variable show_price : bool.
Variable page : QRect.

(** [(barcode_value, copies) != barcodes_to_print[-1]] *)
Definition differs (a b : string * Z) : bool :=
  negb (String.eqb (fst a) (fst b) && (snd a =? snd b)).

(** The body of the inner loop, for copy number [k] of the item
    [(barcode_value, copies)]; [final] is [barcodes_to_print[-1]]. *)
Definition render_copy (final : string * Z) (barcode_value : string)
    (copies : Z) (k : Z) (w : world) : painted :=
  let product_data := Store.get barcode_value (db w) in
  let product_name :=
    match product_data with Some r => Store.name r | None => "" end in
  let product_price :=
    match product_data with Some r => Store.sale_price r | None => F64.zero end in
  let o := profile_of size in
  if negb (render_ok barcode_value) then (w, [], Some BarcodeError)
  else
    let saved_path := temp_path barcode_value in
    let w1 := {| db := db w; files := create_file saved_path (files w) |} in
    if negb (decode_ok saved_path) then (w1, [], Some ValueError)
    else
      match target_rect o page (String.length barcode_value) with
      | None => (w1, [], Some ZeroDivisionError)
      | Some target =>
          let below (gap : Z) :=
            {| rect_x := F64.of_int 10;
               rect_y := F64.add (F64.add (rect_y target) (rect_h target))
                                 (F64.of_int gap);
               rect_w := F64.of_int (width page - 20);
               rect_h := F64.of_int 30 |} in
          let label :=
            ([DrawImage target saved_path;
             SetFont (name_font_size o) true;
             DrawText (below 5) (NameText product_name)]
            ++ (if show_price
                then [SetFont (price_font_size o) true;
                      DrawText (below 25) (PriceText product_price)]
                else [])
            ++ (if (k <? copies - 1) || differs (barcode_value, copies) final
                then [NewPage] else []))%list in
          let fs :=
            match os_remove saved_path (files w1) with
            | Some fs' => fs'
            | None => files w1
            end in
          ({| db := db w1; files := fs |}, label, None)
      end.

(** [for _ in range(copies)]: the copies left to print are [ks]. *)
Fixpoint render_copies (final : string * Z) (barcode_value : string)
    (copies : Z) (ks : list Z) (w : world) : painted :=
  match ks with
  | [] => (w, [], None)
  | k :: ks' =>
      match render_copy final barcode_value copies k w with
      | (w1, ev, Some e) => (w1, ev, Some e)
      | (w1, ev, None) =>
          let '(w2, ev', r) := render_copies final barcode_value copies ks' w1 in
          (w2, (ev ++ ev')%list, r)
      end
  end.

(** [range(n)] *)
Definition range (n : Z) : list Z := map Z.of_nat (seq 0 (Z.to_nat n)).

(** [for barcode_value, copies in barcodes_to_print] *)
Fixpoint render_items (final : string * Z) (items : list (string * Z))
    (w : world) : painted :=
  match items with
  | [] => (w, [], None)
  | (barcode_value, copies) :: rest =>
      match render_copies final barcode_value copies (range copies) w with
      | (w1, ev, Some e) => (w1, ev, Some e)
      | (w1, ev, None) =>
          let '(w2, ev', r) := render_items final rest w1 in
          (w2, (ev ++ ev')%list, r)
      end
  end.

(** The job, from the point where the print dialog was accepted and the
    painter started: the selection is not empty when this point is reached,
    so [barcodes_to_print[-1]] exists.  An exception raised by a copy ends the
    job; it is reported and the painter is closed. *)
Definition print_labels (barcodes_to_print : list (string * Z)) (w : world)
  : painted :=
  match barcodes_to_print with
  | [] => (w, [], None)
  | first :: _ => render_items (last barcodes_to_print first) barcodes_to_print w
  end.

End Labels.

(** The pages of a job: the painter starts on the first one. *)
Definition page_advances (ev : list paint_event) : nat :=
  List.length (filter (fun e => match e with NewPage => true | _ => false end) ev).

(** ** Numbers to text and back: the formatting the source asks of Python *)

Module PyFmt.

(** A hexadecimal digit, in either case. *)
Definition hex_val (a : ascii) : option N :=
  let n := nat_of_ascii a in
  if ((48 <=? n) && (n <=? 57))%nat then Some (N.of_nat (n - 48))
  else if ((97 <=? n) && (n <=? 102))%nat then Some (N.of_nat (n - 87))
  else if ((65 <=? n) && (n <=? 70))%nat then Some (N.of_nat (n - 55))
  else None.

Definition is_hex (a : ascii) : bool :=
  match hex_val a with Some _ => true | None => false end.

(** digitpart ::= hexdigit (["_"] hexdigit)*, as [PyConv.digitpart]. *)
Fixpoint hexpart (after_digit : bool) (s : string) : list N * string :=
  match s with
  | EmptyString => ([], s)
  | String a s' =>
      match hex_val a with
      | Some v => let (ds, r) := hexpart true s' in (v :: ds, r)
      | None =>
          if Ascii.eqb a "_" && after_digit then
            match s' with
            | String b _ => if is_hex b then hexpart false s' else ([], s)
            | EmptyString => ([], s)
            end
          else ([], s)
      end
  end.

Definition value16 (ds : list N) : N :=
  fold_left (fun acc d => 16 * acc + d)%N ds 0%N.

(** The base prefix "0x" or "0X", after which one underscore may stand. *)
Definition skip_prefix (s : string) : string :=
  match s with
  | String a (String b r) =>
      if Ascii.eqb a "0" && (Ascii.eqb b "x" || Ascii.eqb b "X") then
        match r with
        | String c r' => if Ascii.eqb c "_" then r' else r
        | EmptyString => r
        end
      else s
  | _ => s
  end.

(** [int(s, 16)]; [None] is ValueError. *)
Definition int_of_hex (s : string) : option Z :=
  let (neg, r) := PyConv.sign (PyStr.strip s) in
  match hexpart false (skip_prefix r) with
  | ((_ :: _) as ds, EmptyString) =>
      let v := Z.of_N (value16 ds) in Some (if neg then - v else v)
  | _ => None
  end.

(** [f"{n:02x}"]: lower-case digits, zeros inserted after the sign. *)
Definition format_02x (n : Z) : string :=
  PyStr.zfill 2 (HexadecimalString.NilZero.string_of_int (Z.to_hex_int n)).

(** [int(x)] for a float: the fraction is dropped; an infinity raises
    OverflowError and a NaN ValueError. *)
Definition int_of_float (x : F64.float) : exception + Z :=
  match x with
  | S754_zero _ => inr 0
  | S754_finite s m e =>
      let v := if 0 <=? e then Zpos m * 2 ^ e else Zpos m / 2 ^ (- e) in
      inr (if s then - v else v)
  | S754_infinity _ => inl OverflowError
  | S754_nan => inl ValueError
  end.

(** The digits of a number with a comma before every group of three,
    counted from the right; [k] digits are left before the next comma. *)
Fixpoint group (k : nat) (s : string) : string :=
  match s with
  | EmptyString => EmptyString
  | String a s' =>
      match k with
      | O => String "," (String a (group 2 s'))
      | S k' => String a (group k' s')
      end
  end.

Definition grouped (digits : string) : string :=
  group ((String.length digits - 1) mod 3 + 1)%nat digits.

(** [f"{n:,}"] for an integer. *)
Definition format_int (n : Z) : string :=
  (if n <? 0 then "-" else "") ++ grouped (PyStr.str_of_int (Z.abs n)).

(** The hundredths nearest to [m * 2 ^ e], ties to the even one: the
    decimal conversion of a float is correctly rounded. *)
Definition hundredths (m : positive) (e : Z) : Z :=
  if 0 <=? e then Zpos m * 2 ^ e * 100
  else
    let num := Zpos m * 100 in
    let den := 2 ^ (- e) in
    let q := num / den in
    let r := num mod den in
    if (den <? 2 * r) || ((den =? 2 * r) && Z.odd q) then q + 1 else q.

(** [f"{x:,.2f}"] for a float. *)
Definition format_float (x : F64.float) : string :=
  match x with
  | S754_nan => "nan"
  | S754_infinity s => if s then "-inf" else "inf"
  | S754_zero s => if s then "-0.00" else "0.00"
  | S754_finite s m e =>
      let h := hundredths m e in
      (if s then "-" else "")
      ++ grouped (PyStr.str_of_int (h / 100)) ++ "."
      ++ PyStr.zfill 2 (PyStr.str_of_int (h mod 100))
  end.

(** *** [repr] of a float: the shortest digits that read back *)

(** [m * 2 ^ e / 10 ^ k] as a fraction of two positive integers. *)
Definition scaled (m : positive) (e k : Z) : Z * Z :=
  (Zpos m * (if 0 <=? e then 2 ^ e else 1) * (if k <? 0 then 10 ^ (- k) else 1),
   (if 0 <=? e then 1 else 2 ^ (- e)) * (if k <? 0 then 1 else 10 ^ k)).

(** The decimal exponent of [m * 2 ^ e]: the [k] with
    [10 ^ k <= m * 2 ^ e < 10 ^ (k + 1)], looked for around an estimate. *)
Definition decimal_exponent (m : positive) (e : Z) : Z :=
  let est := (Z.log2 (Zpos m) + e) * 1233 / 4096 in
  let leading k := let (num, den) := scaled m e k in num / den in
  match filter (fun k => (1 <=? leading k) && (leading k <=? 9))
               [est - 2; est - 1; est; est + 1; est + 2] with
  | k :: _ => k
  | [] => est
  end.

(** The digits of [m * 2 ^ e] at a precision of [p] digits: the [p]-digit
    decimal below and the one above, the one nearer to the float being
    taken among those that read back as the float ([None] when neither
    does).  The result is a number of units of [10 ^ s]. *)
Definition digits_at (m : positive) (e : Z) (p : Z) : option (Z * Z) :=
  let s := decimal_exponent m e - p + 1 in
  let (num, den) := scaled m e s in
  let lo := num / den in
  let r := num mod den in
  let x := S754_finite false m e in
  let back (v : Z) := F64.eqb (F64.of_decimal false (Z.to_N v) s) x in
  if r =? 0 then Some (lo, s)
  else
    match back lo, back (lo + 1) with
    | true, true =>
        if (2 * r <? den) || ((2 * r =? den) && Z.even lo)
        then Some (lo, s) else Some (lo + 1, s)
    | true, false => Some (lo, s)
    | false, true => Some (lo + 1, s)
    | false, false => None
    end.

(** The shortest digits: the first precision, from 1 to 17, at which the
    digits read back. *)
Fixpoint shortest (m : positive) (e : Z) (p : Z) (fuel : nat) : Z * Z :=
  match fuel with
  | O =>
      let s := decimal_exponent m e - 16 in
      let (num, den) := scaled m e s in (num / den, s)
  | S fuel' =>
      match digits_at m e p with
      | Some r => r
      | None => shortest m e (p + 1) fuel'
      end
  end.

(** Trailing zeros go to the exponent. *)
Fixpoint strip_zeros (fuel : nat) (v s : Z) : Z * Z :=
  match fuel with
  | O => (v, s)
  | S fuel' => if (v mod 10 =? 0) && negb (v =? 0)
               then strip_zeros fuel' (v / 10) (s + 1) else (v, s)
  end.

(** [repr(x)], which is also [str(x)]: the digits are written with a point
    when the decimal point falls within them or at most 3 zeros before and
    16 digits in all, and with an exponent of at least two digits
    otherwise. *)
Definition repr (x : F64.float) : string :=
  match x with
  | S754_nan => "nan"
  | S754_infinity s => if s then "-inf" else "inf"
  | S754_zero s => if s then "-0.0" else "0.0"
  | S754_finite sg m e =>
      let (v0, s0) := shortest m e 1 17 in
      let (v, s) := strip_zeros 17 v0 s0 in
      let ds := PyStr.str_of_int v in
      let n := Z.of_nat (String.length ds) in
      let decpt := n + s in
      (if sg then "-" else "")
      ++ (if (-4 <? decpt) && (decpt <=? 16) then
            if decpt <=? 0 then "0." ++ PyStr.zeros (Z.to_nat (- decpt)) ++ ds
            else if n <=? decpt then ds ++ PyStr.zeros (Z.to_nat (decpt - n)) ++ ".0"
            else substring 0 (Z.to_nat decpt) ds ++ "."
                 ++ substring (Z.to_nat decpt) (Z.to_nat (n - decpt)) ds
          else
            let e10 := decpt - 1 in
            substring 0 1 ds
            ++ (if 1 <? n then "." ++ substring 1 (Z.to_nat (n - 1)) ds else "")
            ++ "e" ++ (if e10 <? 0 then "-" else "+")
            ++ PyStr.zfill 2 (PyStr.str_of_int (Z.abs e10)))
  end.

End PyFmt.

(** ** [darken_color] *)

(** [hex_color.lstrip('#')] *)
Fixpoint lstrip_hash (s : string) : string :=
  match s with
  | String a s' => if Ascii.eqb a "#" then lstrip_hash s' else s
  | EmptyString => EmptyString
  end.

(** The default of the parameter [factor]: the literal [0.8]. *)
Definition default_factor : F64.float := F64.of_decimal false 8 (-1).

(** [max(0, int(c * factor))] *)
Definition darken_channel (factor : F64.float) (c : Z) : exception + Z :=
  match PyFmt.int_of_float (F64.mul (F64.of_int c) factor) with
  | inr v => inr (Z.max 0 v)
  | inl e => inl e
  end.

(** [darken_color]: the three channels are read from the first six
    characters after the leading hashes, two by two, each is scaled and
    printed back on two hexadecimal digits.  The exceptions are those of
    [int]: nothing in the function catches them. *)
Definition darken_color (hex_color : string) (factor : F64.float)
  : exception + string :=
  let hex_color := lstrip_hash hex_color in
  match PyFmt.int_of_hex (substring 0 2 hex_color),
        PyFmt.int_of_hex (substring 2 2 hex_color),
        PyFmt.int_of_hex (substring 4 2 hex_color) with
  | Some r, Some g, Some b =>
      match darken_channel factor r with
      | inl e => inl e
      | inr r' =>
          match darken_channel factor g with
          | inl e => inl e
          | inr g' =>
              match darken_channel factor b with
              | inl e => inl e
              | inr b' =>
                  inr ("#" ++ PyFmt.format_02x r' ++ PyFmt.format_02x g'
                           ++ PyFmt.format_02x b')
              end
          end
      end
  | _, _, _ => inl ValueError
  end.


(** ** The product table: [load_products] and [search_products] *)

(** A row of the table widget: the texts of its seven cells.  The image
    cell shows one of two fixed texts, "available" when the product has an
    image path that exists on disk. *)
Record table_row := mk_table_row {
  cell_name : string;
  cell_quantity : string;
  cell_purchase : string;
  cell_sale : string;
  cell_expiry : string;
  cell_barcode : string;
  cell_image : bool
}.

(** [f"{float(val):,.2f}" if val else "0.00"] *)
Definition price_cell (val : F64.float) : string :=
  if F64.eqb val F64.zero then "0.00" else PyFmt.format_float val.

(** The cells [load_products] and [search_products] fill for one record. *)
Definition display (w : world) (r : Store.product) : table_row :=
  {| cell_name := Store.name r;
     cell_quantity := PyFmt.format_int (Store.quantity r);
     cell_purchase := price_cell (Store.purchase_price r);
     cell_sale := price_cell (Store.sale_price r);
     cell_expiry := Store.expiry_date r;
     cell_barcode := Store.barcode r;
     cell_image :=
       match Store.image_path r with
       | Some p => PyStr.truthy p && path_exists p w
       | None => false
       end |}.

(** [load_products]: one table row per record, in the order of the table
    [products]. *)
Definition load_products (w : world) : list table_row :=
  map (display w) (Store.rows (db w)).

(** *** The LIKE operator of the engine *)

(** The limits the SQLite library is built with: SQLITE_MAX_LIKE_PATTERN_LENGTH
    and SQLITE_MAX_VARIABLE_NUMBER.  A statement that exceeds one of them
    raises [sqlite3.OperationalError]. *)
Class Limits := {
  like_pattern_length : N;
  variable_number : N
}.

Module Sql.

(** The engine reads a text up to its first NUL character. *)
Fixpoint c_string (s : string) : string :=
  match s with
  | EmptyString => EmptyString
  | String a s' =>
      if Ascii.eqb a "000" then EmptyString else String a (c_string s')
  end.

(** [text LIKE pattern] with no ESCAPE clause: [%] stands for any sequence
    of characters, [_] for any one character, and any other character for
    itself, upper and lower case of the ASCII letters being the same. *)
Fixpoint like_from (p : string) (s : string) {struct p} : bool :=
  match p with
  | EmptyString => match s with EmptyString => true | _ => false end
  | String c p' =>
      if Ascii.eqb c "%" then
        (fix any (s : string) : bool :=
           like_from p' s
           || match s with
              | EmptyString => false
              | String _ s' => any s'
              end) s
      else
        match s with
        | EmptyString => false
        | String d s' =>
            (Ascii.eqb c "_" || Ascii.eqb (PyConv.lower c) (PyConv.lower d))
            && like_from p' s'
        end
  end.

Definition like (pattern text : string) : bool :=
  like_from (c_string pattern) (c_string text).

End Sql.

Section Search.

Context {limits : Limits}.

(** [search_products]: a blank search text reloads the whole table;
    otherwise the rows whose name or barcode is LIKE [%term%] are shown.
    [None] is the error box of [sqlite3.Error], the table being left as it
    was. *)
Definition search_products (text : string) (w : world) : option (list table_row) :=
  let term := PyStr.strip text in
  if negb (PyStr.truthy term) then Some (load_products w)
  else
    let like := "%" ++ term ++ "%" in
    if (like_pattern_length <? N.of_nat (String.length like))%N then None
    else
      Some (map (display w)
              (filter (fun r => Sql.like like (Store.name r)
                                || Sql.like like (Store.barcode r))
                      (Store.rows (db w)))).

End Search.

(** ** [print_price] *)

(** What is painted on a price tag. *)
Inductive tag_event :=
| TagFont (point_size : Z) (bold : bool)
| TagText (rect : QRectF) (text : string).

Inductive price_outcome :=
| PriceNoSelection
| PriceNotPrinted
| PriceBeginFailed
| PricePrinted (ev : list tag_event).

(** [print_price]: [selected] is the current row of the table, [None] when
    no row is selected; [accepted] is the answer to the print dialog and
    [begin_ok] that of [painter.begin]. *)
Definition print_price (selected : option table_row) (accepted begin_ok : bool)
    (page : QRect) : price_outcome :=
  match selected with
  | None => PriceNoSelection
  | Some t =>
      let price := cell_sale t in
      let name := cell_name t in
      if negb accepted then PriceNotPrinted
      else if negb begin_ok then PriceBeginFailed
      else
        let split :=
          F64.mul (F64.of_int (height page)) (F64.of_decimal false 7 (-1)) in
        PricePrinted
          [TagFont 16 true;
           TagText {| rect_x := F64.of_int 0; rect_y := F64.of_int 0;
                      rect_w := F64.of_int (width page); rect_h := split |}
                   (price ++ " DA");
           TagFont 12 false;
           TagText {| rect_x := F64.of_int 0; rect_y := split;
                      rect_w := F64.of_int (width page);
                      rect_h := F64.of_int 30 |}
                   name]
  end.

(** ** Printing the product list *)

(** [needle in hay] for two strings. *)
Fixpoint starts_with (needle hay : string) : bool :=
  match needle, hay with
  | EmptyString, _ => true
  | String a n', String b h' => Ascii.eqb a b && starts_with n' h'
  | String _ _, EmptyString => false
  end.

Fixpoint contains (needle hay : string) : bool :=
  starts_with needle hay
  || match hay with
     | EmptyString => false
     | String _ h' => contains needle h'
     end.

(** A check box of the selection dialog, with the id of its product. *)
Record checkbox := mk_checkbox {
  cb_id : Z;
  cb_text : string;
  cb_checked : bool;
  cb_visible : bool
}.

(** [print_products_list]: one checked box per product, labelled
    [f"{id} - {name}"]. *)
Definition print_products_list (d : Store.database) : list checkbox :=
  map (fun r => {| cb_id := Store.id r;
                   cb_text := PyStr.str_of_int (Store.id r) ++ " - " ++ Store.name r;
                   cb_checked := true;
                   cb_visible := true |})
      (Store.rows d).

(** [filter_print_products]: a box is visible when its lower-cased label
    contains the lower-cased search text. *)
Definition filter_print_products (text : string) (boxes : list checkbox)
  : list checkbox :=
  let search_term := PyConv.lowercase text in
  map (fun c => {| cb_id := cb_id c; cb_text := cb_text c;
                   cb_checked := cb_checked c;
                   cb_visible := contains search_term (PyConv.lowercase (cb_text c)) |})
      boxes.

(** The document handed to the printer: per page a title, the date, a
    table, and a page break after every page but the last. *)
Inductive list_block :=
| ListTitle
| ListDate
| ListTable (rows : list (list string))
| ListPageBreak.

(** An exception of Python, or [sqlite3.Error]. *)
Inductive failure :=
| Raised (e : exception)
| DatabaseError.

Inductive list_outcome :=
| ListFailed (f : failure)
| ListNothingSelected
| ListNotPrinted
| ListPrinted (doc : list list_block).

(** The cells of a product's line in the printed table. *)
Definition list_cells (r : Store.product) : list string :=
  [Store.name r;
   PyFmt.format_int (Store.quantity r);
   PyFmt.format_float (Store.purchase_price r);
   PyFmt.format_float (Store.sale_price r);
   if PyStr.truthy (Store.expiry_date r) then Store.expiry_date r else "-";
   Store.barcode r;
   if PyStr.truthy (Store.supplier_name r) then Store.supplier_name r else "-"].

(** [range(0, stop, step)] for [stop >= 0]; [None] is the ValueError of a
    zero step. *)
Definition range_step (stop step : Z) : option (list Z) :=
  if step =? 0 then None
  else if step <? 0 then Some []
  else Some (map (fun k => Z.of_nat k * step)
                 (seq 0 (Z.to_nat ((stop + step - 1) / step)))).

(** [l[i:i+n]] for [i >= 0] and [n >= 0]. *)
Definition slice {A : Type} (i n : Z) (l : list A) : list A :=
  firstn (Z.to_nat n) (skipn (Z.to_nat i) l).

(** The body of the page loop for the page that starts at index [i]. *)
Definition list_page (per_page : Z) (products : list Store.product) (i : Z)
  : list list_block :=
  ([ListTitle; ListDate; ListTable (map list_cells (slice i per_page products))]
   ++ (if i + per_page <? Z.of_nat (List.length products)
       then [ListPageBreak] else []))%list.

Section ProductList.

Context {builtins : PyBuiltins} {limits : Limits}.

(** [print_selected_products]: [text] is the content of the "products per
    page" field and [accepted] the answer to the print dialog.  Every
    exception ends in the error box. *)
Definition print_selected_products (text : string) (boxes : list checkbox)
    (accepted : bool) (d : Store.database) : list_outcome :=
  match py_int text with
  | None => ListFailed (Raised ValueError)
  | Some per_page =>
      let selected_ids := map cb_id (filter cb_checked boxes) in
      match selected_ids with
      | [] => ListNothingSelected
      | _ :: _ =>
          if (variable_number <? N.of_nat (List.length selected_ids))%N
          then ListFailed DatabaseError
          else
            let products :=
              filter (fun r => existsb (Z.eqb (Store.id r)) selected_ids)
                     (Store.rows d) in
            if accepted then
              match range_step (Z.of_nat (List.length products)) per_page with
              | None => ListFailed (Raised ValueError)
              | Some starts =>
                  ListPrinted (flat_map (list_page per_page products) starts)
              end
            else ListNotPrinted
      end
  end.

End ProductList.

(** ** The barcode dialog and the whole of [print_selected_barcodes] *)

(** A row of the dialog's table: the product, its check box and the spin
    box of the number of copies. *)
Record print_row := mk_print_row {
  pr_name : string;
  pr_barcode : string;
  pr_checked : bool;
  pr_copies : Z
}.

(** [print_barcode]: every product is listed once, checked, with one copy. *)
Definition print_barcode (d : Store.database) : list print_row :=
  map (fun r => {| pr_name := Store.name r; pr_barcode := Store.barcode r;
                   pr_checked := true; pr_copies := 1 |})
      (Store.rows d).

(** [toggle_all_products]: [Qt.Checked] is 2. *)
Definition toggle_all_products (state : Z) (t : list print_row) : list print_row :=
  map (fun r => {| pr_name := pr_name r; pr_barcode := pr_barcode r;
                   pr_checked := (state =? 2); pr_copies := pr_copies r |}) t.

(** The start of [print_selected_barcodes]: the checked rows, as pairs of a
    barcode and a number of copies. *)
Definition barcodes_to_print (t : list print_row) : list (string * Z) :=
  map (fun r => (pr_barcode r, pr_copies r)) (filter pr_checked t).

(** What is sent to the ESC/POS printer. *)
Inductive esc_command :=
| EscSize (width height : Z)
| EscFont (font_b : bool) (size : Z)
| EscName (product_name : string)
| EscPrice (product_price : F64.float)
| EscBarcode (code : string) (height : Z)
| EscFeed
| EscCut.

(** What the USB printer decides: whether it is found at all, and how many
    commands it takes before one raises ([None]: it takes them all). *)
Class Device := {
  usb_found : bool;
  usb_accepts : option nat
}.

(** The magnification and the barcode height of a label size. *)
Definition direct_scale (size : paper) : Z * Z :=
  match size with
  | Small => (1, 40)
  | Medium => (2, 60)
  | Large => (3, 80)
  end.

(** The commands of one copy on the direct path. *)
Definition direct_copy (size : paper) (show_price : bool) (d : Store.database)
    (barcode_value : string) : list esc_command :=
  let product_data := Store.get barcode_value d in
  let product_name :=
    match product_data with Some r => Store.name r | None => "" end in
  let product_price :=
    match product_data with Some r => Store.sale_price r | None => F64.zero end in
  let '(k, barcode_height) := direct_scale size in
  ([EscSize k k; EscFont false k; EscName product_name]
   ++ (if show_price then [EscFont true k; EscPrice product_price] else [])
   ++ [EscBarcode barcode_value barcode_height; EscFeed])%list.

(** Everything the direct path sends when nothing fails. *)
Definition direct_job (size : paper) (show_price : bool) (d : Store.database)
    (job : list (string * Z)) : list esc_command :=
  (flat_map (fun item => flat_map (fun _ => direct_copy size show_price d (fst item))
                                  (range (snd item))) job
   ++ [EscCut])%list.

(** How the fallback ends. *)
Inductive fallback_outcome :=
| FallbackNotPrinted
| FallbackBeginFailed
| FallbackPainted (p : painted).

Inductive barcodes_outcome :=
| BarcodesNothingSelected
| BarcodesDirect (sent : list esc_command)
| BarcodesFallback (sent : list esc_command) (f : fallback_outcome).

Section Barcodes.

Context {host : Host} {device : Device}.

(** The direct attempt: the commands the printer took, and whether the
    attempt ran to its end. *)
Definition print_direct (size : paper) (show_price : bool) (d : Store.database)
    (job : list (string * Z)) : list esc_command * bool :=
  if usb_found then
    let commands := direct_job size show_price d job in
    match usb_accepts with
    | None => (commands, true)
    | Some n =>
        if (List.length commands <=? n)%nat then (commands, true)
        else (firstn n commands, false)
    end
  else ([], false).

(** [print_selected_barcodes] on the dialog's table: the selection is
    printed on the ESC/POS printer, and on a page printer when that attempt
    raises.  [accepted] is the answer to the print dialog and [begin_ok]
    that of [painter.begin]. *)
Definition print_selected_barcodes (size : paper) (show_price : bool)
    (page : QRect) (t : list print_row) (accepted begin_ok : bool) (w : world)
  : world * barcodes_outcome :=
  let job := barcodes_to_print t in
  match job with
  | [] => (w, BarcodesNothingSelected)
  | _ :: _ =>
      match print_direct size show_price (db w) job with
      | (sent, true) => (w, BarcodesDirect sent)
      | (sent, false) =>
          if negb accepted then (w, BarcodesFallback sent FallbackNotPrinted)
          else if negb begin_ok then (w, BarcodesFallback sent FallbackBeginFailed)
          else
            let p := print_labels size show_price page job w in
            (fst (fst p), BarcodesFallback sent (FallbackPainted p))
      end
  end.

End Barcodes.

(** ** [export_to_csv] *)

(** [str(x)] of a float belongs to the runtime, as the conversions of
    [PyBuiltins] do; [ascii_repr] below is the implementation used to run
    the export on concrete inputs. *)
Class PyRepr := {
  py_repr : F64.float -> string
}.

#[export] Instance ascii_repr : PyRepr := {
  py_repr := PyFmt.repr
}.

(** The header row written first. *)
Definition export_header : list string :=
  ["name"; "quantity"; "purchase_price"; "sale_price";
   "expiry_date"; "barcode"; "supplier_name"; "supplier_phone"].

Section CsvExport.

Context {repr : PyRepr}.

(** The fields [csv.writer] writes for a record: a text as it is, a number
    through [str]. *)
Definition export_line (r : Store.product) : list string :=
  [Store.name r;
   PyStr.str_of_int (Store.quantity r);
   py_repr (Store.purchase_price r);
   py_repr (Store.sale_price r);
   Store.expiry_date r;
   Store.barcode r;
   Store.supplier_name r;
   Store.supplier_phone r].

(** [export_to_csv]: the rows written to the file, as [csv.reader] reads
    them back, and the count shown in the message. *)
Definition export_to_csv (d : Store.database) : list (list string) * Z :=
  (export_header :: map export_line (Store.rows d),
   Z.of_nat (List.length (Store.rows d))).

End CsvExport.

(** ** [product_dialog] *)

(** A field of [QDate.fromString]: exactly [w] digits. *)
Definition qdate_field (w : nat) (s : string) : option N :=
  match PyConv.digits_of s with
  | Some v => if (String.length s =? w)%nat then Some v else None
  | None => None
  end.

(** [QDate.fromString(s, "yyyy-MM-dd")]: four, two and two digits between
    dashes, for a day that exists; [None] is the invalid date. *)
Definition qdate_from_string (s : string) : option QDate :=
  match PyConv.split_on "-" s with
  | [y; m; d] =>
      match qdate_field 4 y, qdate_field 2 m, qdate_field 2 d with
      | Some y, Some m, Some d =>
          if ((1 <=? y) && (1 <=? m) && (m <=? 12) && (1 <=? d)
              && (d <=? PyConv.days_in_month y m))%N
          then Some {| year := Z.of_N y; month := Z.of_N m; day := Z.of_N d |}
          else None
      | _, _, _ => None
      end
  | _ => None
  end.

(** The first day a date editor holds; its last one, the end of the year
    9999, is beyond every date of four digits. *)
Definition editor_minimum : QDate := {| year := 1752; month := 9; day := 14 |}.

(** The longest text a line edit holds: the default of [maxLength]. *)
Definition max_length : nat := N.to_nat 32767.

(** [QLineEdit(s)]: the text the field holds is [s] cut at [max_length]
    characters. *)
Definition line_edit (s : string) : string := substring 0 max_length s.

Section Dialog.

Context {repr : PyRepr}.

(** [product_dialog]: the fields as the dialog opens, and [self.image_path];
    [today] is [QDate.currentDate()] at that moment.  A new product starts
    from an empty form, an edited one from its record: the texts as they
    are, the numbers through [str], the expiry date read back from its
    text, today's date standing in for an empty one.  The result is [None]
    when the date editor is given a date it does not hold, an invalid one
    or one before its minimum: what it shows then is left out.  The
    validators of the number fields bear on what is typed, not on the text
    a field opens with.  The supplier columns hold texts, as in every row
    that [save_product] and [import_from_csv] write. *)
Definition product_dialog (today : QDate) (record : option Store.product)
  : option (form * string) :=
  let name := line_edit match record with Some r => Store.name r | None => "" end in
  let qty :=
    line_edit match record with
              | Some r => PyStr.str_of_int (Store.quantity r)
              | None => "0"
              end in
  let purchase :=
    line_edit match record with
              | Some r => py_repr (Store.purchase_price r)
              | None => ""
              end in
  let sale :=
    line_edit match record with
              | Some r => py_repr (Store.sale_price r)
              | None => ""
              end in
  let expiry :=
    match record with
    | Some r =>
        if PyStr.truthy (Store.expiry_date r) then
          match qdate_from_string (Store.expiry_date r) with
          | Some q => if date_ltb q editor_minimum then None else Some q
          | None => None
          end
        else Some today
    | None => Some today
    end in
  let barcode_edit :=
    line_edit match record with Some r => Store.barcode r | None => "" end in
  let supplier_name :=
    line_edit match record with Some r => Store.supplier_name r | None => "" end in
  let supplier_phone :=
    line_edit match record with Some r => Store.supplier_phone r | None => "" end in
  let image_path :=
    match record with
    | Some r =>
        match Store.image_path r with
        | Some p => if PyStr.truthy p then p else ""
        | None => ""
        end
    | None => ""
    end in
  match expiry with
  | Some q =>
      Some ({| f_name := name; f_qty := qty; f_purchase := purchase; f_sale := sale;
               f_expiry := q; f_barcode := barcode_edit;
               f_supplier_name := supplier_name;
               f_supplier_phone := supplier_phone |}, image_path)
  | None => None
  end.

End Dialog.

(** * Vocabulary of the properties *)

(** Reads a string of digits back as a number. *)
Definition digits_value (s : string) : option N :=
  option_map N.of_uint (NilEmpty.uint_of_string s).

(** The rows carry ids between 1 and the AUTOINCREMENT counter, and every
    barcode is one the allocator issued from a smaller id. *)
Definition auto_allocated (d : Store.database) : Prop :=
  0 <= Store.seq d
  /\ Forall (fun r => exists k, 0 <= k < Store.id r /\ Store.id r <= Store.seq d
                               /\ Store.barcode r = allocate_barcode k)
            (Store.rows d).

(** The rows an UPDATE keyed by [old] selects, and what it makes of a row. *)
Definition matches (old : string) (r : Store.product) : bool :=
  String.eqb (Store.barcode r) old.

Definition overwrite (old : string) (b : Store.bindings) (r : Store.product)
  : Store.product :=
  if String.eqb (Store.barcode r) old then Store.row_of (Store.id r) b else r.

(** The headers the import cannot do without. *)
Definition required_headers : list string :=
  ["name"; "quantity"; "purchase_price"; "sale_price"].

(** The summary with one more skipped row. *)
Definition one_more_skipped (r : Store.database * import_result)
  : Store.database * import_result :=
  match r with
  | (d, Imported i e) => (d, Imported i (e + 1))
  | other => other
  end.

Section Vocabulary.

Context {builtins : PyBuiltins}.

(** The states of the store reached from the never-used catalog by adding
    products with a blank barcode field, importing rows without a barcode
    and deleting products. *)
Inductive reachable : Store.database -> Prop :=
| reach_fresh : reachable Store.empty
| reach_add today image_path f d d' :
    reachable d ->
    PyStr.strip (f_barcode f) = "" ->
    save_product today image_path f None d = (d', Saved) ->
    reachable d'
| reach_import c row d d' :
    reachable d ->
    optional_field row (barcode_col c) = "" ->
    import_row c row d = RowInserted d' ->
    reachable d'
| reach_delete (host : Host) bc w w' :
    reachable (db w) ->
    delete_product bc true w = (w', Deleted) ->
    reachable (db w').

Variable c : columns.

(** The ways a row is rejected before the store is asked anything. *)
Inductive malformed (row : list string) : Prop :=
| too_short :
    (List.length row < 4)%nat -> malformed row
| field_missing (col : nat) :
    In col [name_col c; qty_col c; purchase_col c; sale_col c] ->
    nth_error row col = None -> malformed row
| field_blank (col : nat) (v : string) :
    In col [name_col c; qty_col c; purchase_col c; sale_col c] ->
    nth_error row col = Some v -> PyStr.strip v = "" -> malformed row
| quantity_unreadable (v : string) :
    nth_error row (qty_col c) = Some v ->
    py_int (PyStr.remove_commas (PyStr.strip v)) = None -> malformed row
| quantity_negative (v : string) (q : Z) :
    nth_error row (qty_col c) = Some v ->
    py_int (PyStr.remove_commas (PyStr.strip v)) = Some q -> q < 0 -> malformed row
| price_unreadable (col : nat) (v : string) :
    In col [purchase_col c; sale_col c] ->
    nth_error row col = Some v ->
    py_float (PyStr.remove_commas (PyStr.strip v)) = None -> malformed row
| price_not_positive (col : nat) (v : string) (p : F64.float) :
    In col [purchase_col c; sale_col c] ->
    nth_error row col = Some v ->
    py_float (PyStr.remove_commas (PyStr.strip v)) = Some p ->
    F64.leb p F64.zero = true -> malformed row.

End Vocabulary.

(** The drawing of one copy: the barcode image first, then fonts and texts
    only. *)
Definition is_label (l : list paint_event) : Prop :=
  exists target path rest,
    l = DrawImage target path :: rest
    /\ Forall (fun e => match e with
                        | SetFont _ _ | DrawText _ _ => True
                        | DrawImage _ _ | NewPage => False
                        end) rest.

(** Whether the copy [k] of an item is followed by a page advance. *)
Definition advances_after (final item : string * Z) (k : Z) : bool :=
  (k <? snd item - 1) || differs item final.

(** A trace made of one label per flag, each followed by a page advance
    when its flag is set. *)
Fixpoint shaped (flags : list bool) (ev : list paint_event) : Prop :=
  match flags with
  | [] => ev = []
  | f :: fs =>
      exists l ev', is_label l
                    /\ ev = (l ++ (if f then [NewPage] else []) ++ ev')%list
                    /\ shaped fs ev'
  end.

Definition copy_flags (final item : string * Z) : list bool :=
  map (advances_after final item) (range (snd item)).

Definition job_flags (final : string * Z) (items : list (string * Z)) : list bool :=
  flat_map (copy_flags final) items.

(** The number of physical copies of a job. *)
Definition total_copies (items : list (string * Z)) : nat :=
  fold_right (fun item n => (Z.to_nat (snd item) + n)%nat) O items.

(** What the host must grant for a barcode to be painted. *)
Definition printable {host : Host} (barcode_value : string) : Prop :=
  render_ok barcode_value = true
  /\ decode_ok (temp_path barcode_value) = true
  /\ (0 < String.length barcode_value)%nat.

(** ** Colours and digits *)

(** The value of a channel written with the two hexadecimal digits [a], [b]. *)
Definition channel (a b : ascii) : option Z :=
  match PyFmt.hex_val a, PyFmt.hex_val b with
  | Some x, Some y => Some (Z.of_N (16 * x + y))
  | _, _ => None
  end.

(** [k] hash signs. *)
Fixpoint hashes (k : nat) : string :=
  match k with
  | O => EmptyString
  | S k' => String "#" (hashes k')
  end.

Definition all_ascii : list ascii := map ascii_of_nat (seq 0 256).

(** What [darken_color] makes of a channel written [a], [b], checked by
    running it. *)
Definition channel_checked (a b : ascii) : bool :=
  match channel a b with
  | Some c =>
      match PyFmt.int_of_hex (String a (String b EmptyString)),
            darken_channel default_factor c with
      | Some c', inr v => (c' =? c) && (v =? 4 * c / 5)
      | _, _ => false
      end
  | None => true
  end.

(** A text made of decimal digits only. *)
Definition digit_string (s : string) : Prop :=
  forallb PyConv.is_digit (list_ascii_of_string s) = true.

(** ** The table and the store *)

(** A text the engine reads whole: it holds no NUL character. *)
Definition nul_free (s : string) : Prop := Sql.c_string s = s.

(** A search term in which no character is a wildcard of LIKE. *)
Definition wildcard_free (s : string) : Prop :=
  forallb (fun a => negb (Ascii.eqb a "%" || Ascii.eqb a "_"))
          (list_ascii_of_string s) = true.

(** [term] occurs in [text], upper and lower case of the ASCII letters
    being the same. *)
Definition contains_nocase (term text : string) : bool :=
  contains (PyConv.lowercase term) (PyConv.lowercase text).

(** The ids grow along the table and none exceeds the AUTOINCREMENT
    counter. *)
Definition keyed (d : Store.database) : Prop :=
  StronglySorted Z.lt (map Store.id (Store.rows d))
  /\ Forall (fun r => Store.id r <= Store.seq d) (Store.rows d).

(** From [d] to [d'] no id was given a second time: the counter did not go
    back, and a row of [d'] is a row that [d] had under the same id or
    carries an id above the counter of [d]. *)
Definition ids_not_reused (d d' : Store.database) : Prop :=
  Store.seq d <= Store.seq d'
  /\ Forall (fun r' => In (Store.id r') (map Store.id (Store.rows d))
                       \/ Store.seq d < Store.id r')
            (Store.rows d').

(** The texts painted on a price tag, in order. *)
Definition tag_texts (o : price_outcome) : list string :=
  match o with
  | PricePrinted ev =>
      flat_map (fun e => match e with TagText _ s => [s] | TagFont _ _ => [] end) ev
  | _ => []
  end.

(** A text without blanks at its ends. *)
Definition trimmed (s : string) : Prop := PyStr.strip s = s.

(** A product the shop can sell: it has a name and a barcode, a quantity
    that is not negative and fits the INTEGER column, two prices that are
    numbers above zero, and texts without blanks at their ends. *)
Definition sellable (r : Store.product) : Prop :=
  Store.name r <> ""
  /\ Store.barcode r <> ""
  /\ 0 <= Store.quantity r < 2 ^ 63
  /\ F64.ltb F64.zero (Store.purchase_price r) = true
  /\ F64.ltb F64.zero (Store.sale_price r) = true
  /\ trimmed (Store.name r) /\ trimmed (Store.barcode r)
  /\ trimmed (Store.supplier_name r) /\ trimmed (Store.supplier_phone r).

(** What the store checks before it writes the values [b]. *)
Definition storable (b : Store.bindings) : Prop :=
  Store.fits_int64 (Store.b_quantity b) = true
  /\ Store.price_ok (Store.b_purchase_price b) = true
  /\ Store.price_ok (Store.b_sale_price b) = true.

(** What the form and the import check before they ask the store. *)
Definition validated (b : Store.bindings) : Prop :=
  Store.b_name b <> ""
  /\ Store.b_barcode b <> ""
  /\ 0 <= Store.b_quantity b
  /\ F64.leb (Store.b_purchase_price b) F64.zero = false
  /\ F64.leb (Store.b_sale_price b) F64.zero = false
  /\ trimmed (Store.b_name b) /\ trimmed (Store.b_barcode b)
  /\ trimmed (Store.b_supplier_name b) /\ trimmed (Store.b_supplier_phone b).

(** No character of [s] satisfies [p]. *)
Definition free_of (p : ascii -> bool) (s : string) : bool :=
  forallb (fun a => negb (p a)) (list_ascii_of_string s).

(** ** The printed list *)

(** The tables of a printed document, in order, and its page breaks. *)
Definition tables (doc : list list_block) : list (list (list string)) :=
  flat_map (fun b => match b with ListTable rows => [rows] | _ => [] end) doc.

Definition page_breaks (doc : list list_block) : nat :=
  List.length
    (filter (fun b => match b with ListPageBreak => true | _ => false end) doc).

(** The products whose box is checked, the boxes standing in the order of
    the products. *)
Definition checked_products (d : Store.database) (boxes : list checkbox)
  : list Store.product :=
  map fst (filter (fun rb => cb_checked (snd rb)) (combine (Store.rows d) boxes)).

(** The product lines an attempt to print the list puts on paper. *)
Definition printed_lines (o : list_outcome) : list (list string) :=
  match o with
  | ListPrinted doc => List.concat (tables doc)
  | _ => []
  end.

(** ** The barcode dialog *)

(** What the user can do in the barcode dialog: tick or untick the box of a
    row, and set its spin box, which keeps the value between its minimum 1
    and its maximum 100. *)
Fixpoint at_row {A : Type} (i : nat) (f : A -> A) (l : list A) : list A :=
  match l, i with
  | [], _ => []
  | x :: l', O => f x :: l'
  | x :: l', S i' => x :: at_row i' f l'
  end.

Definition set_checked (checked : bool) (r : print_row) : print_row :=
  {| pr_name := pr_name r; pr_barcode := pr_barcode r;
     pr_checked := checked; pr_copies := pr_copies r |}.

Definition set_copies (value : Z) (r : print_row) : print_row :=
  {| pr_name := pr_name r; pr_barcode := pr_barcode r;
     pr_checked := pr_checked r; pr_copies := Z.max 1 (Z.min 100 value) |}.

(** The states of the dialog opened on the catalog [d]. *)
Inductive dialog_state (d : Store.database) : list print_row -> Prop :=
| dialog_opened : dialog_state d (print_barcode d)
| dialog_ticked t i checked :
    dialog_state d t -> dialog_state d (at_row i (set_checked checked) t)
| dialog_spun t i value :
    dialog_state d t -> dialog_state d (at_row i (set_copies value) t)
| dialog_toggled t state :
    dialog_state d t -> dialog_state d (toggle_all_products state t).

(** The labels a job asks for: each barcode as many times as its copies. *)
Definition labels (job : list (string * Z)) : list string :=
  flat_map (fun item => repeat (fst item) (Z.to_nat (snd item))) job.

(** The image files painted, and the barcodes sent to the ESC/POS printer. *)
Definition images (ev : list paint_event) : list string :=
  flat_map (fun e => match e with DrawImage _ path => [path] | _ => [] end) ev.

Definition codes (sent : list esc_command) : list string :=
  flat_map (fun c => match c with EscBarcode code _ => [code] | _ => [] end) sent.

(** ** Export and import *)

(** A float whose printed form reads back as itself, read as the import
    reads a price.  Python's [repr] makes it so for every float. *)
Definition reads_back {repr : PyRepr} (p : F64.float) : Prop :=
  PyConv.float_of_string (PyStr.remove_commas (PyStr.strip (py_repr p))) = Some p.

(** A date as [save_product] and the import store it: YYYY-MM-DD, for a
    day that exists. *)
Definition iso_date (e : string) : Prop :=
  exists y m d : N,
    (1000 <= y <= 9999)%N /\ (1 <= m <= 12)%N
    /\ (1 <= d <= PyConv.days_in_month y m)%N
    /\ e = PyConv.iso y m d.

(** A product that an export followed by an import gives back: it can be
    sold, its expiry date is empty or a date, and its prices read back. *)
Definition restorable {repr : PyRepr} (r : Store.product) : Prop :=
  sellable r
  /\ (Store.expiry_date r = "" \/ iso_date (Store.expiry_date r))
  /\ reads_back (Store.purchase_price r) /\ reads_back (Store.sale_price r).

(** The rows as an import numbers them from [i] on: the ids are given anew
    and the image paths are not part of the file. *)
Fixpoint renumbered (i : Z) (rows : list Store.product) : list Store.product :=
  match rows with
  | [] => []
  | r :: rest =>
      {| Store.id := i; Store.name := Store.name r;
         Store.quantity := Store.quantity r;
         Store.purchase_price := Store.purchase_price r;
         Store.sale_price := Store.sale_price r;
         Store.expiry_date := Store.expiry_date r;
         Store.barcode := Store.barcode r;
         Store.image_path := None;
         Store.supplier_name := Store.supplier_name r;
         Store.supplier_phone := Store.supplier_phone r |}
      :: renumbered (i + 1) rest
  end.

(** A field of a date, checked by running the conversions on it. *)
Definition date_field_checked (w : nat) (read : string -> option N) (n : N) : bool :=
  let s := PyConv.pad w n in
  free_of (Ascii.eqb "-") s && free_of (Ascii.eqb "/") s && free_of PyStr.is_space s
  && match s with EmptyString => false | _ => true end
  && match read s with Some v => (v =? n)%N | None => false end.

Definition N_range (lo count : nat) : list N := map N.of_nat (seq lo count).

(** A text that a line edit holds whole. *)
Definition kept_whole (s : string) : Prop :=
  (N.of_nat (String.length s) <= 32767)%N.

(** The expiry date of a record that the edit dialog, opened on the day
    [opened], shows and that the form, saved on the day [today], accepts:
    none, when the day of the save is not after the day of the opening, or
    a date of an existing day, from 1753 on, that is not before the day of
    the save. *)
Definition expiry_editable (opened today : QDate) (e : string) : Prop :=
  (e = "" /\ date_ltb opened today = false)
  \/ exists y m d : N,
       (1753 <= y <= 9999)%N /\ (1 <= m <= 12)%N
       /\ (1 <= d <= PyConv.days_in_month y m)%N
       /\ e = PyConv.iso y m d
       /\ date_ltb {| year := Z.of_N y; month := Z.of_N m; day := Z.of_N d |} today
          = false.

(** The record as an edit that changes nothing stores it again: the image
    path is the one the dialog holds, and an empty expiry date has become
    the day the dialog opened. *)
Definition resaved (opened : QDate) (r : Store.product) : Store.product :=
  {| Store.id := Store.id r; Store.name := Store.name r;
     Store.quantity := Store.quantity r;
     Store.purchase_price := Store.purchase_price r;
     Store.sale_price := Store.sale_price r;
     Store.expiry_date :=
       if PyStr.truthy (Store.expiry_date r) then Store.expiry_date r
       else date_to_string opened;
     Store.barcode := Store.barcode r;
     Store.image_path :=
       Some match Store.image_path r with
            | Some p => p
            | None => ""
            end;
     Store.supplier_name := Store.supplier_name r;
     Store.supplier_phone := Store.supplier_phone r |}.

(** A record whose texts the fields of the dialog hold whole.  The printed
    form of a Python float has at most some twenty characters. *)
Definition fits_the_dialog {repr : PyRepr} (r : Store.product) : Prop :=
  kept_whole (Store.name r) /\ kept_whole (Store.barcode r)
  /\ kept_whole (Store.supplier_name r) /\ kept_whole (Store.supplier_phone r)
  /\ kept_whole (py_repr (Store.purchase_price r))
  /\ kept_whole (py_repr (Store.sale_price r)).

(** * Sample inputs *)

(** A host on which nothing fails. *)
Definition reliable_host : Host :=
  {| remove_ok := fun _ => true; render_ok := fun _ => true; decode_ok := fun _ => true |}.

(** A host on which the saved barcode image cannot be decoded. *)
Definition undecodable_host : Host :=
  {| remove_ok := fun _ => true; render_ok := fun _ => true; decode_ok := fun _ => false |}.

(** The day the samples are entered; their products expire that day. *)
Definition sample_day : QDate := mk_date 2026 1 15.

(** A form that passes every check: 5 units bought at 10.5 and sold at 12. *)
Definition sample_form (name barcode : string) : form :=
  {| f_name := name; f_qty := "5"; f_purchase := "10.5"; f_sale := "12";
     f_expiry := sample_day; f_barcode := barcode;
     f_supplier_name := ""; f_supplier_phone := "" |}.

(** Adding a product with the sample values. *)
Definition added (name barcode : string) (d : Store.database) : Store.database :=
  fst (save_product sample_day "" (sample_form name barcode) None d).

(** Deleting the product whose barcode is [bc], with no files on disk. *)
Definition removed (bc : string) (d : Store.database) : Store.database :=
  db (fst (@delete_product reliable_host bc true {| db := d; files := [] |})).

(** Two products added, the second one deleted: the largest id is back to 1
    and the allocator derives CB00000002 a second time. *)
Definition gap_catalog : Store.database :=
  removed "CB00000002" (added "b" "" (added "a" "" Store.empty)).

(** A catalog emptied by a deletion: it holds no row, yet id 1 is used up. *)
Definition emptied_catalog : Store.database :=
  removed "CB00000001" (added "a" "" Store.empty).

(** Two products with barcodes of the user's choosing. *)
Definition two_products : Store.database :=
  added "b" "B2" (added "a" "A1" Store.empty).

(** A row that passes every check, for the four required columns. *)
Definition good_row (name : string) : list string := [name; "5"; "10.5"; "12"].

(** Ten rows, the fifth with quantity -3. *)
Definition ten_rows : list (list string) :=
  [good_row "a"; good_row "b"; good_row "c"; good_row "d";
   ["e"; "-3"; "10.5"; "12"];
   good_row "f"; good_row "g"; good_row "h"; good_row "i"; good_row "j"].

(** 2^63 as the quantity of a row. *)
Definition oversized : string := "9223372036854775808".

(** A small label at 300 dots per inch: 40 mm by 20 mm. *)
Definition small_page : QRect := {| width := 472; height := 236 |}.

(** A catalog of two auto-barcoded products, with nothing on disk. *)
Definition shop : world :=
  {| db := added "b" "" (added "a" "" Store.empty); files := [] |}.

(** The limits of the SQLite library as it is built by default. *)
Definition default_limits : Limits :=
  {| like_pattern_length := 50000; variable_number := 32766 |}.

(** Two products as the store holds them, the first with an image, and the
    world made of them. *)
Definition tea : Store.product :=
  {| Store.id := 1; Store.name := "Tea -50%"; Store.quantity := 1200;
     Store.purchase_price := F64.of_decimal false 105 (-1);
     Store.sale_price := F64.of_decimal false 12 0;
     Store.expiry_date := "2026-01-15"; Store.barcode := "CB00000001";
     Store.image_path := Some "product_images/tea.png";
     Store.supplier_name := "Atlas"; Store.supplier_phone := "" |}.

Definition coffee : Store.product :=
  {| Store.id := 3; Store.name := "Coffee"; Store.quantity := 40;
     Store.purchase_price := F64.of_decimal false 30 0;
     Store.sale_price := F64.of_decimal false 4525 (-2);
     Store.expiry_date := ""; Store.barcode := "A-7";
     Store.image_path := None;
     Store.supplier_name := ""; Store.supplier_phone := "" |}.

Definition cafe : world :=
  {| db := {| Store.rows := [tea; coffee]; Store.seq := 3 |};
     files := ["product_images/tea.png"] |}.

(** A USB printer that takes ten commands and fails on the next. *)
Definition failing_device : Device := {| usb_found := true; usb_accepts := Some 10%nat |}.

(** * Properties *)

(** ** The runtime conversions on sample inputs *)

Example allocate_barcode_0 : allocate_barcode 0 = "CB00000001".
Proof. reflexivity. Qed.

Example allocate_barcode_big : allocate_barcode 123456789 = "CB123456790".
Proof. reflexivity. Qed.

Example f64_tenth : F64.of_decimal false 1 (-1) = S754_finite false 7205759403792794 (-56).
Proof. vm_compute. reflexivity. Qed.

Example f64_1e23 : F64.of_decimal false 1 23 = S754_finite false 5960464477539062 24.
Proof. vm_compute. reflexivity. Qed.

Example f64_tiny : F64.of_decimal false 1 (-400) = S754_zero false.
Proof. vm_compute. reflexivity. Qed.

Example f64_huge : F64.of_decimal true 1 400 = S754_infinity true.
Proof. vm_compute. reflexivity. Qed.

Example int_minus3 : PyConv.int_of_string "-3" = Some (-3).
Proof. reflexivity. Qed.

Example int_spaces : PyConv.int_of_string " 1_000 " = Some 1000.
Proof. reflexivity. Qed.

Example int_bad : PyConv.int_of_string "3.0" = None.
Proof. reflexivity. Qed.

Example float_12_5 : PyConv.float_of_string "12.5" = Some (S754_finite false 7036874417766400 (-49)).
Proof. vm_compute. reflexivity. Qed.

Example float_nan : PyConv.float_of_string "NaN" = Some S754_nan.
Proof. reflexivity. Qed.

Example float_bad : PyConv.float_of_string "1._5" = None.
Proof. reflexivity. Qed.

Example date_dmy : PyConv.strptime_strftime DMY_slash "15/03/2025" = Some "2025-03-15".
Proof. reflexivity. Qed.

Example date_ymd : PyConv.strptime_strftime YMD_dash "2025-3-15" = Some "2025-03-15".
Proof. reflexivity. Qed.

Example date_bad : PyConv.strptime_strftime DMY_slash "29/02/2025" = None.
Proof. reflexivity. Qed.

(** ** The allocator's barcodes are pairwise distinct *)

Lemma digits_value_zeros (k : nat) (s : string) :
  digits_value (PyStr.zeros k ++ s) = digits_value s.
Proof.
  induction k as [|k IH]; [reflexivity|].
  unfold digits_value in *. cbn [PyStr.zeros append NilEmpty.uint_of_string].
  destruct (NilEmpty.uint_of_string (PyStr.zeros k ++ s)) as [d|];
    destruct (NilEmpty.uint_of_string s) as [d'|];
    cbn in *; unfold N.of_uint in *; congruence.
Qed.

Lemma zfill_unsigned (w : nat) (d : Decimal.uint) :
  PyStr.zfill w (NilEmpty.string_of_uint d)
  = PyStr.zeros (w - String.length (NilEmpty.string_of_uint d)) ++ NilEmpty.string_of_uint d.
Proof.
  destruct d; try reflexivity.
  cbn. induction (w - 0)%nat as [|k IH]; cbn; congruence.
Qed.

Lemma str_of_int_pos (p : positive) :
  PyStr.str_of_int (Zpos p) = NilEmpty.string_of_uint (Pos.to_uint p).
Proof.
  unfold PyStr.str_of_int. cbn [Z.to_int NilZero.string_of_int].
  unfold NilZero.string_of_uint.
  destruct (Pos.to_uint p) eqn:E; try reflexivity.
  exfalso. revert E. apply Unsigned.to_uint_nonnil.
Qed.

Lemma digits_value_zfill (w : nat) (p : positive) :
  digits_value (PyStr.zfill w (PyStr.str_of_int (Zpos p))) = Some (Npos p).
Proof.
  rewrite str_of_int_pos, zfill_unsigned, digits_value_zeros.
  unfold digits_value. rewrite NilEmpty.usu. cbn [option_map].
  f_equal. apply Unsigned.of_to.
Qed.

Lemma allocate_barcode_inj (a b : Z) :
  0 <= a -> 0 <= b -> allocate_barcode a = allocate_barcode b -> a = b.
Proof.
  intros Ha Hb H. unfold allocate_barcode in H.
  destruct (a + 1) as [|p|p] eqn:Ea; try lia.
  destruct (b + 1) as [|q|q] eqn:Eb; try lia.
  injection H as H.
  apply (f_equal digits_value) in H.
  rewrite !digits_value_zfill in H.
  injection H as H. lia.
Qed.

(** ** Facts about the store *)

Lemma fold_max_lower (l : list Store.product) (a : Z) :
  a <= fold_left (fun m x => Z.max m (Store.id x)) l a.
Proof.
  revert a. induction l as [|r l IH]; intros a; cbn; [lia|].
  specialize (IH (Z.max a (Store.id r))). lia.
Qed.

Lemma fold_max_member (l : list Store.product) (a : Z) (r : Store.product) :
  In r l -> Store.id r <= fold_left (fun m x => Z.max m (Store.id x)) l a.
Proof.
  revert a. induction l as [|x l IH]; intros a Hin; [contradiction|].
  destruct Hin as [E|Hin]; cbn.
  - subst x. pose proof (fold_max_lower l (Z.max a (Store.id r))). lia.
  - now apply IH.
Qed.

Lemma fold_max_upper (l : list Store.product) (a b : Z) :
  a <= b -> Forall (fun r => Store.id r <= b) l ->
  fold_left (fun m x => Z.max m (Store.id x)) l a <= b.
Proof.
  revert a. induction l as [|x l IH]; intros a Ha Hl; cbn; [assumption|].
  inversion Hl; subst. apply IH; [lia|assumption].
Qed.

Lemma max_id_some (d : Store.database) (m : Z) :
  Store.select_max_id d = Some m -> Store.max_id d = m.
Proof.
  unfold Store.max_id. intros ->. destruct (Z.eqb_spec m 0); congruence.
Qed.

Lemma max_id_empty (d : Store.database) :
  Store.rows d = [] -> Store.max_id d = 0.
Proof.
  unfold Store.max_id, Store.select_max_id. now intros ->.
Qed.

Lemma max_id_lower (d : Store.database) (r : Store.product) :
  In r (Store.rows d) -> Store.id r <= Store.max_id d.
Proof.
  intros Hin. destruct (Store.rows d) as [|x l] eqn:E; [contradiction|].
  rewrite (max_id_some d (fold_left (fun m y => Z.max m (Store.id y)) l (Store.id x))).
  - destruct Hin as [->|Hin]; [apply fold_max_lower|now apply fold_max_member].
  - unfold Store.select_max_id. now rewrite E.
Qed.

Lemma max_id_upper (d : Store.database) (b : Z) :
  0 <= b -> Forall (fun r => Store.id r <= b) (Store.rows d) -> Store.max_id d <= b.
Proof.
  intros Hb Hall. destruct (Store.rows d) as [|x l] eqn:E.
  - rewrite max_id_empty; assumption.
  - rewrite (max_id_some d (fold_left (fun m y => Z.max m (Store.id y)) l (Store.id x))).
    + inversion Hall; subst. now apply fold_max_upper.
    + unfold Store.select_max_id. now rewrite E.
Qed.

Lemma max_id_nonneg (d : Store.database) :
  Forall (fun r => 0 <= Store.id r) (Store.rows d) -> 0 <= Store.max_id d.
Proof.
  intros Hall. destruct (Store.rows d) as [|x l] eqn:E.
  - rewrite max_id_empty; [lia|assumption].
  - inversion Hall; subst.
    assert (In x (Store.rows d)) as Hin by (rewrite E; now left).
    apply max_id_lower in Hin. lia.
Qed.

Lemma has_barcode_true (bc : string) (d : Store.database) :
  Store.has_barcode bc d = true <->
  exists r, In r (Store.rows d) /\ Store.barcode r = bc.
Proof.
  unfold Store.has_barcode. rewrite existsb_exists.
  split; intros (r & Hin & H); exists r; split; trivial; now apply String.eqb_eq.
Qed.

Lemma insert_ok (b : Store.bindings) (d d' : Store.database) :
  Store.insert b d = Store.Ok d' ->
  Store.has_barcode (Store.b_barcode b) d = false
  /\ d' = {| Store.rows := Store.rows d ++ [Store.row_of (Store.next_id d) b];
             Store.seq := Store.next_id d |}.
Proof.
  unfold Store.insert.
  destruct (negb (Store.fits_int64 _)); [discriminate|].
  destruct (negb (_ && _)); [discriminate|].
  destruct (Store.has_barcode _ d); [discriminate|].
  intros [= <-]. now split.
Qed.

Lemma auto_allocated_ids (d : Store.database) :
  auto_allocated d -> Forall (fun r => 0 <= Store.id r) (Store.rows d).
Proof.
  intros [_ H]. eapply Forall_impl; [|exact H].
  cbn. intros r (k & Hk & _). lia.
Qed.

Lemma auto_allocated_empty : auto_allocated Store.empty.
Proof. split; cbn; [lia|constructor]. Qed.

Lemma auto_allocated_insert (b : Store.bindings) (d d' : Store.database) :
  auto_allocated d ->
  Store.b_barcode b = allocate_barcode (Store.max_id d) ->
  Store.insert b d = Store.Ok d' ->
  auto_allocated d'.
Proof.
  intros Hd Hb Hins. apply insert_ok in Hins as [_ ->].
  pose proof (max_id_nonneg d (auto_allocated_ids d Hd)) as Hm.
  destruct Hd as [Hseq Hrows]. unfold Store.next_id.
  split; cbn; [lia|].
  apply Forall_app. split.
  - eapply Forall_impl; [|exact Hrows]. cbn.
    intros r (k & Hk & Hle & E). exists k. repeat split; try lia; assumption.
  - constructor; [|constructor]. exists (Store.max_id d). cbn.
    repeat split; try lia; assumption.
Qed.

Lemma auto_allocated_delete (bc : string) (d : Store.database) :
  auto_allocated d -> auto_allocated (Store.delete bc d).
Proof.
  intros [Hseq Hrows]. split; cbn; [assumption|].
  apply Forall_forall. intros r Hin. apply filter_In in Hin as [Hin _].
  revert r Hin. now apply Forall_forall.
Qed.

Lemma auto_allocated_fresh (d : Store.database) :
  auto_allocated d ->
  Store.has_barcode (allocate_barcode (Store.max_id d)) d = false.
Proof.
  intros Hd. destruct (Store.has_barcode _ d) eqn:E; [exfalso|reflexivity].
  apply has_barcode_true in E as (r & Hin & Hbc).
  pose proof (max_id_nonneg d (auto_allocated_ids d Hd)) as Hm.
  pose proof (max_id_lower d r Hin) as Hle.
  destruct Hd as [_ Hrows]. rewrite Forall_forall in Hrows.
  destruct (Hrows r Hin) as (k & Hk & _ & Hrk).
  rewrite Hrk in Hbc. apply allocate_barcode_inj in Hbc; lia.
Qed.

(** ** What a successful save or imported row did to the store *)

Ltac break_match :=
  match goal with
  | H : context [match ?x with _ => _ end] |- _ => destruct x eqn:?
  | H : context [if ?x then _ else _] |- _ => destruct x eqn:?
  end.

Ltac break_hyp H :=
  repeat match type of H with
    | context [match ?x with _ => _ end] => destruct x eqn:?
    | context [if ?x then _ else _] => destruct x eqn:?
    end;
  try discriminate H.

Section Outcomes.

Context {builtins : PyBuiltins}.

Lemma read_form_barcode today image_path f d b :
  read_form today image_path f d = inr b ->
  Store.b_barcode b =
    if PyStr.truthy (PyStr.strip (f_barcode f)) then PyStr.strip (f_barcode f)
    else allocate_barcode (Store.max_id d).
Proof.
  unfold read_form. intros H. break_hyp H; now injection H as <-.
Qed.

Lemma read_form_prices today image_path f d b :
  read_form today image_path f d = inr b ->
  F64.leb (Store.b_purchase_price b) F64.zero = false
  /\ F64.leb (Store.b_sale_price b) F64.zero = false
  /\ F64.ltb (Store.b_sale_price b) (Store.b_purchase_price b) = false
  /\ 0 <= Store.b_quantity b.
Proof.
  unfold read_form. intros H. break_hyp H; injection H as <-; cbn;
    repeat split; try assumption; lia.
Qed.

Lemma save_product_saved today image_path f record d d' :
  save_product today image_path f record d = (d', Saved) ->
  exists b, read_form today image_path f d = inr b
            /\ match record with
               | Some old => Store.update old b d
               | None => Store.insert b d
               end = Store.Ok d'.
Proof.
  unfold save_product. intros H.
  destruct (read_form today image_path f d) as [warning|b] eqn:E.
  - injection H as <- ->. exfalso. revert E. unfold read_form.
    intros E. break_hyp E.
  - exists b. split; [reflexivity|].
    destruct (match record with Some old => _ | None => _ end) as [d1|e].
    + now injection H as <-.
    + destruct e; discriminate H.
Qed.

Lemma import_row_inserted c row d d' :
  import_row c row d = RowInserted d' ->
  exists b, Store.insert b d = Store.Ok d'
            /\ Store.b_image_path b = None
            /\ Store.b_barcode b =
                 if PyStr.truthy (optional_field row (barcode_col c))
                 then optional_field row (barcode_col c)
                 else allocate_barcode (Store.max_id d).
Proof.
  unfold import_row. intros H.
  repeat match type of H with
    | context [match nth_error ?l ?n with _ => _ end] => destruct (nth_error l n) eqn:?
    | context [match py_int ?x with _ => _ end] => destruct (py_int x) eqn:?
    | context [match py_float ?x with _ => _ end] => destruct (py_float x) eqn:?
    | context [if ?x then _ else _] => destruct x eqn:?
    end; try discriminate H.
  - match type of H with
    | context [Store.insert ?b d] => exists b; destruct (Store.insert b d) as [d1|e] eqn:E
    end.
    + injection H as <-. cbn. auto.
    + destruct e; discriminate H.
  - match type of H with
    | context [Store.insert ?b d] => exists b; destruct (Store.insert b d) as [d1|e] eqn:E
    end.
    + injection H as <-. cbn. auto.
    + destruct e; discriminate H.
Qed.

End Outcomes.

Lemma delete_product_deleted {host : Host} bc w w' :
  delete_product bc true w = (w', Deleted) -> db w' = Store.delete bc (db w).
Proof.
  unfold delete_product. destruct (Store.get bc (db w)); [|discriminate].
  now intros [= <-].
Qed.

(** ** Catalogs built by auto-barcoded insertions and deletions *)

Section Catalogue.

Context {builtins : PyBuiltins}.

Lemma reachable_auto_allocated d : reachable d -> auto_allocated d.
Proof.
  induction 1 as [|today image_path f d d' _ IH Hblank Hsave
                  |c row d d' _ IH Hblank Hrow
                  |host bc w w' _ IH Hdel].
  - apply auto_allocated_empty.
  - apply save_product_saved in Hsave as (b & Hform & Hins).
    apply read_form_barcode in Hform. rewrite Hblank in Hform.
    now apply (auto_allocated_insert b d d').
  - apply import_row_inserted in Hrow as (b & Hins & _ & Hbc).
    rewrite Hblank in Hbc.
    now apply (auto_allocated_insert b d d').
  - rewrite (delete_product_deleted _ _ _ Hdel). now apply auto_allocated_delete.
Qed.

(** C9 (amended).  In every catalog reached by auto-barcoded insertions and
    deletions, also when a deletion has lowered the largest id, the barcode
    the allocator derives next, "CB" followed by the largest id plus one on
    eight digits, is held by no product still in the catalog: the next
    auto-barcoded insertion meets no barcode conflict. *)
Theorem next_barcode_is_free d :
  reachable d ->
  Store.has_barcode (allocate_barcode (Store.max_id d)) d = false.
Proof.
  intros H. apply auto_allocated_fresh. now apply reachable_auto_allocated.
Qed.

End Catalogue.

(** ** Catalogs with a gap in their ids *)

Lemma add_blank_reachable name d :
  reachable d ->
  snd (save_product sample_day "" (sample_form name "") None d) = Saved ->
  reachable (added name "" d).
Proof.
  intros Hd Hs. unfold added.
  apply (reach_add sample_day "" (sample_form name "") d); trivial.
  destruct (save_product _ _ _ _ _) as [d' res]. cbn in *. now subst.
Defined.

Lemma remove_reachable bc d :
  reachable d ->
  snd (@delete_product reliable_host bc true {| db := d; files := [] |}) = Deleted ->
  reachable (removed bc d).
Proof.
  intros Hd Hs. unfold removed.
  apply (reach_delete reliable_host bc {| db := d; files := [] |}); trivial.
  destruct (delete_product _ _ _) as [w' res]. cbn in *. now subst.
Defined.

Lemma gap_catalog_reachable : reachable gap_catalog.
Proof.
  apply remove_reachable; [|reflexivity].
  apply add_blank_reachable; [|reflexivity].
  apply add_blank_reachable; [|reflexivity].
  apply reach_fresh.
Defined.

Example gap_catalog_facts :
  Store.max_id (added "b" "" (added "a" "" Store.empty)) = 2
  /\ Store.max_id gap_catalog = 1
  /\ allocate_barcode (Store.max_id gap_catalog) = "CB00000002"
  /\ map Store.barcode (Store.rows gap_catalog) = ["CB00000001"]
  /\ map Store.id (Store.rows (added "c" "" gap_catalog)) = [1; 3].
Proof. vm_compute. repeat split. Qed.

Lemma next_barcode_is_free_witness :
  Store.max_id gap_catalog < Store.max_id (added "b" "" (added "a" "" Store.empty))
  /\ Store.has_barcode (allocate_barcode (Store.max_id gap_catalog)) gap_catalog = false.
Proof.
  split; [reflexivity|].
  apply (@next_barcode_is_free ascii_builtins gap_catalog).
  exact gap_catalog_reachable.
Defined.

(** C9 as stated fails: no deletion in a catalog built by auto-barcoded
    insertions and deletions leaves the allocator deriving the barcode of a
    product that still exists. *)
Lemma no_deletion_gap_collision :
  ~ exists (builtins : PyBuiltins) (host : Host) (bc : string) (w w' : world),
      reachable (db w)
      /\ delete_product bc true w = (w', Deleted)
      /\ Store.max_id (db w') < Store.max_id (db w)
      /\ Store.has_barcode (allocate_barcode (Store.max_id (db w'))) (db w') = true.
Proof.
  intros (builtins & host & bc & w & w' & Hr & Hd & _ & Hc).
  apply reachable_auto_allocated in Hr.
  rewrite (delete_product_deleted _ _ _ Hd) in Hc.
  rewrite (auto_allocated_fresh _ (auto_allocated_delete bc _ Hr)) in Hc.
  discriminate Hc.
Qed.

(** ** The allocator *)

Lemma insert_appends (b : Store.bindings) (d d' : Store.database) :
  Store.insert b d = Store.Ok d' ->
  exists r, Store.rows d' = (Store.rows d ++ [r])%list
            /\ Store.barcode r = Store.b_barcode b
            /\ Store.id r = Store.next_id d.
Proof.
  intros H. apply insert_ok in H as [_ ->].
  eexists. cbn. repeat split.
Qed.

Lemma first_insert_max_id (b : Store.bindings) (d' : Store.database) :
  Store.insert b Store.empty = Store.Ok d' -> Store.max_id d' = 1.
Proof.
  intros H. apply insert_ok in H as [_ ->]. reflexivity.
Qed.

Section Allocator.

Context {builtins : PyBuiltins}.

(** C1 (amended).  When no barcode is supplied, by the form or by the
    imported row, the product is stored under "CB" followed by the largest
    id plus one on eight digits.  On an empty catalog that barcode is
    CB00000001; and once exactly one record has been inserted into a catalog
    that never held any, the next allocation is CB00000002. *)
Theorem allocator_determinism :
  (forall today image_path f d d',
      PyStr.strip (f_barcode f) = "" ->
      save_product today image_path f None d = (d', Saved) ->
      exists r, Store.rows d' = (Store.rows d ++ [r])%list
                /\ Store.barcode r
                   = "CB" ++ PyStr.zfill 8 (PyStr.str_of_int (Store.max_id d + 1)))
  /\ (forall c row d d',
      optional_field row (barcode_col c) = "" ->
      import_row c row d = RowInserted d' ->
      exists r, Store.rows d' = (Store.rows d ++ [r])%list
                /\ Store.barcode r
                   = "CB" ++ PyStr.zfill 8 (PyStr.str_of_int (Store.max_id d + 1)))
  /\ (forall d, Store.rows d = [] -> allocate_barcode (Store.max_id d) = "CB00000001")
  /\ (forall today image_path f d',
      save_product today image_path f None Store.empty = (d', Saved) ->
      allocate_barcode (Store.max_id d') = "CB00000002")
  /\ (forall c row d',
      import_row c row Store.empty = RowInserted d' ->
      allocate_barcode (Store.max_id d') = "CB00000002").
Proof.
  repeat split.
  - intros today image_path f d d' Hblank Hsave.
    apply save_product_saved in Hsave as (b & Hform & Hins).
    apply read_form_barcode in Hform. rewrite Hblank in Hform.
    apply insert_appends in Hins as (r & Hrows & Hbc & _).
    exists r. split; [assumption|]. now rewrite Hbc, Hform.
  - intros c row d d' Hblank Hrow.
    apply import_row_inserted in Hrow as (b & Hins & _ & Hbc).
    rewrite Hblank in Hbc.
    apply insert_appends in Hins as (r & Hrows & Hr & _).
    exists r. split; [assumption|]. now rewrite Hr, Hbc.
  - intros d Hd. now rewrite max_id_empty.
  - intros today image_path f d' Hsave.
    apply save_product_saved in Hsave as (b & _ & Hins).
    now rewrite (first_insert_max_id b d' Hins).
  - intros c row d' Hrow.
    apply import_row_inserted in Hrow as (b & Hins & _).
    now rewrite (first_insert_max_id b d' Hins).
Qed.

End Allocator.

Lemma allocator_determinism_witness :
  (exists r, Store.rows (added "a" "" Store.empty) = [r]
             /\ Store.barcode r = "CB00000001")
  /\ allocate_barcode (Store.max_id emptied_catalog) = "CB00000001"
  /\ allocate_barcode (Store.max_id (added "a" "" Store.empty)) = "CB00000002".
Proof.
  pose proof (@allocator_determinism ascii_builtins) as (Hsave & _ & Hempty & Hnext & _).
  split; [|split].
  - apply (Hsave sample_day "" (sample_form "a" "") Store.empty); reflexivity.
  - apply Hempty. reflexivity.
  - apply (Hnext sample_day "" (sample_form "a" "")); reflexivity.
Defined.

(** C1 as stated fails on a catalog that is empty because its products were
    deleted: the first allocation is CB00000001, but after one insertion the
    next one is CB00000003, since the new row received id 2. *)
Lemma emptied_catalog_skips_a_barcode :
  Store.rows emptied_catalog = []
  /\ map Store.barcode (Store.rows (added "b" "" emptied_catalog)) = ["CB00000001"]
  /\ allocate_barcode (Store.max_id (added "b" "" emptied_catalog)) = "CB00000003"
  /\ allocate_barcode (Store.max_id (added "b" "" emptied_catalog)) <> "CB00000002".
Proof. vm_compute. repeat split. discriminate. Qed.

(** ** UPDATE keyed by the barcode a product had before the edit *)

Lemma get_none_filter old d :
  Store.get old d = None -> filter (matches old) (Store.rows d) = [].
Proof.
  unfold Store.get. intros H.
  induction (Store.rows d) as [|x l IH]; [reflexivity|].
  cbn in *. unfold matches at 1. destruct (String.eqb (Store.barcode x) old); [discriminate|].
  now apply IH.
Qed.

Lemma get_some_filter old d r :
  Store.get old d = Some r -> exists l, filter (matches old) (Store.rows d) = r :: l.
Proof.
  unfold Store.get.
  induction (Store.rows d) as [|x l IH]; [discriminate|].
  cbn. unfold matches at 1. destruct (String.eqb (Store.barcode x) old).
  - intros [= ->]. eauto.
  - apply IH.
Qed.

Lemma unique_filter old (l : list Store.product) r :
  NoDup (map Store.barcode l) ->
  find (matches old) l = Some r -> filter (matches old) l = [r].
Proof.
  induction l as [|x l IH]; [discriminate|].
  cbn. intros Hnd. inversion Hnd as [|? ? Hnotin Hnd']; subst.
  unfold matches at 1 3. destruct (String.eqb_spec (Store.barcode x) old) as [E|E].
  - intros [= ->]. f_equal.
    destruct (filter (matches old) l) as [|y l'] eqn:F; [reflexivity|exfalso].
    assert (In y (filter (matches old) l)) as Hy by (rewrite F; now left).
    apply filter_In in Hy as [Hy My]. apply String.eqb_eq in My.
    apply Hnotin. rewrite E, <- My. now apply in_map.
  - now apply IH.
Qed.

Lemma overwrite_match old b x :
  Store.barcode x = old -> overwrite old b x = Store.row_of (Store.id x) b.
Proof. unfold overwrite. intros ->. now rewrite String.eqb_refl. Qed.

Lemma overwrite_other old b x :
  Store.barcode x <> old -> overwrite old b x = x.
Proof.
  unfold overwrite. intros H.
  now destruct (String.eqb_spec (Store.barcode x) old).
Qed.

Lemma find_overwritten old b (l : list Store.product) r :
  find (matches old) l = Some r ->
  (forall x, In x l -> Store.barcode x = Store.b_barcode b -> Store.barcode x = old) ->
  find (matches (Store.b_barcode b)) (map (overwrite old b) l)
  = Some (Store.row_of (Store.id r) b).
Proof.
  induction l as [|x l IH]; [discriminate|].
  intros Hfind Hfree. cbn [map find] in *. unfold matches at 1 in Hfind.
  destruct (String.eqb_spec (Store.barcode x) old) as [E|E].
  - injection Hfind as ->. rewrite (overwrite_match old b r E).
    unfold matches at 1. cbn. now rewrite String.eqb_refl.
  - rewrite (overwrite_other old b x E). unfold matches at 1.
    destruct (String.eqb_spec (Store.barcode x) (Store.b_barcode b)) as [E'|E'].
    + exfalso. apply E. apply Hfree; [now left|assumption].
    + apply IH; [assumption|]. intros y Hy. apply Hfree. now right.
Qed.

Lemma find_old_gone old b (l : list Store.product) :
  Store.b_barcode b <> old ->
  find (matches old) (map (overwrite old b) l) = None.
Proof.
  intros Hneq. induction l as [|x l IH]; [reflexivity|].
  cbn [map find].
  destruct (String.eqb_spec (Store.barcode x) old) as [E|E].
  - rewrite (overwrite_match old b x E). unfold matches at 1. cbn.
    now destruct (String.eqb_spec (Store.b_barcode b) old).
  - rewrite (overwrite_other old b x E). unfold matches at 1.
    now destruct (String.eqb_spec (Store.barcode x) old).
Qed.

(** An edit dialog is only opened on a record that is in the catalog, and
    the barcode it hands to [save_product] is the one it was fetched by. *)
Lemma edit_product_record bc d r :
  edit_product bc d = Some r ->
  Store.barcode r = bc /\ Store.get (Store.barcode r) d = Some r.
Proof.
  unfold edit_product, Store.get. intros H.
  pose proof (find_some _ _ H) as [_ E]. apply String.eqb_eq in E.
  now rewrite E.
Qed.

(** The three ways [Store.update] can end without raising. *)
Lemma update_ok old b d d' :
  Store.update old b d = Store.Ok d' ->
  (filter (matches old) (Store.rows d) = [] /\ d' = d)
  \/ (exists r, filter (matches old) (Store.rows d) = [r]
         /\ (forall x, In x (Store.rows d) ->
                       Store.barcode x = Store.b_barcode b -> Store.barcode x = old)
         /\ d' = {| Store.rows := map (overwrite old b) (Store.rows d);
                    Store.seq := Store.seq d |}).
Proof.
  unfold Store.update. fold (matches old).
  destruct (negb (Store.fits_int64 _)); [discriminate|].
  destruct (filter (matches old) (Store.rows d)) as [|r [|r' l]] eqn:F.
  - intros [= <-]. now left.
  - destruct (negb (_ && _)); [discriminate|].
    destruct (existsb _ (Store.rows d)) eqn:Ex; [discriminate|].
    intros [= <-]. right. exists r. repeat split.
    intros x Hx Hbc.
    destruct (String.eqb_spec (Store.barcode x) old) as [E|E]; [assumption|exfalso].
    assert (existsb (fun r0 => negb (String.eqb (Store.barcode r0) old)
                               && String.eqb (Store.barcode r0) (Store.b_barcode b))
              (Store.rows d) = true) as Habs.
    { apply existsb_exists. exists x. split; [assumption|].
      apply andb_true_iff. split.
      - apply negb_true_iff. now apply String.eqb_neq.
      - now apply String.eqb_eq. }
    congruence.
  - discriminate.
Qed.

Lemma price_ok_positive (p : F64.float) :
  F64.leb p F64.zero = false -> F64.is_nan p = false -> Store.price_ok p = true.
Proof.
  destruct p as [s|s| |s m e]; try destruct s; cbn; intros; congruence.
Qed.

Lemma update_conflict old b d r x :
  Store.fits_int64 (Store.b_quantity b) = true ->
  filter (matches old) (Store.rows d) = [r] ->
  In x (Store.rows d) ->
  Store.barcode x = Store.b_barcode b ->
  Store.barcode x <> old ->
  Store.update old b d = Store.Err IntegrityError.
Proof.
  intros Hfit Hone Hin Hnew Hold. unfold Store.update. fold (matches old).
  rewrite Hfit, Hone. cbn [negb].
  destruct (negb (_ && _)); [reflexivity|].
  match goal with |- context [existsb ?f ?l] => assert (existsb f l = true) as -> end;
    [|reflexivity].
  apply existsb_exists. exists x. split; [assumption|].
  apply andb_true_iff. split.
  - apply negb_true_iff. now apply String.eqb_neq.
  - now apply String.eqb_eq.
Qed.

Lemma update_replaces old b d r :
  Store.fits_int64 (Store.b_quantity b) = true ->
  Store.price_ok (Store.b_purchase_price b) = true ->
  Store.price_ok (Store.b_sale_price b) = true ->
  filter (matches old) (Store.rows d) = [r] ->
  (forall x, In x (Store.rows d) ->
             Store.barcode x = Store.b_barcode b -> Store.barcode x = old) ->
  Store.update old b d
  = Store.Ok {| Store.rows := map (overwrite old b) (Store.rows d);
                Store.seq := Store.seq d |}.
Proof.
  intros Hfit Hp Hs Hone Hfree. unfold Store.update. fold (matches old).
  rewrite Hfit, Hone, Hp, Hs. cbn [negb andb].
  match goal with |- context [existsb ?f ?l] => destruct (existsb f l) eqn:Ex end;
    [exfalso|reflexivity].
  apply existsb_exists in Ex as (x & Hin & Hx).
  apply andb_true_iff in Hx as [Hold Hnew].
  apply negb_true_iff, String.eqb_neq in Hold. apply String.eqb_eq in Hnew.
  apply Hold. now apply Hfree.
Qed.

Lemma update_missing old b d :
  Store.fits_int64 (Store.b_quantity b) = true ->
  Store.get old d = None ->
  Store.update old b d = Store.Ok d.
Proof.
  intros Hfit Hnone. unfold Store.update. fold (matches old).
  now rewrite Hfit, (get_none_filter old d Hnone).
Qed.

Section UpdateContract.

Context {builtins : PyBuiltins}.

(** C5 (amended).  An edit is keyed by the barcode the product had before
    the edit.  For values the store can hold (a quantity within 64 bits,
    prices that are numbers) and a catalog whose barcodes are pairwise
    distinct: when the old barcode matches no record, nothing is changed and
    the save is reported as a success; when the new barcode is held by
    another record, the save is refused as a conflict and nothing is
    changed; otherwise the record is overwritten in place, keeps its id, and
    is found under the new barcode, which may differ from the old one. *)
Theorem update_contract today image_path f old d b :
  read_form today image_path f d = inr b ->
  Store.fits_int64 (Store.b_quantity b) = true ->
  F64.is_nan (Store.b_purchase_price b) = false ->
  F64.is_nan (Store.b_sale_price b) = false ->
  NoDup (map Store.barcode (Store.rows d)) ->
  (Store.get old d = None ->
     save_product today image_path f (Some old) d = (d, Saved))
  /\ (forall r x,
        Store.get old d = Some r ->
        In x (Store.rows d) -> Store.barcode x = Store.b_barcode b ->
        Store.barcode x <> old ->
        save_product today image_path f (Some old) d = (d, BarcodeInUse))
  /\ (forall r,
        Store.get old d = Some r ->
        (forall x, In x (Store.rows d) ->
                   Store.barcode x = Store.b_barcode b -> Store.barcode x = old) ->
        exists d',
          save_product today image_path f (Some old) d = (d', Saved)
          /\ Store.rows d' = map (overwrite old b) (Store.rows d)
          /\ Store.get (Store.b_barcode b) d' = Some (Store.row_of (Store.id r) b)).
Proof.
  intros Hform Hfit Hp Hs Hnd.
  pose proof (read_form_prices _ _ _ _ _ Hform) as (Hp0 & Hs0 & _ & _).
  unfold save_product. rewrite Hform. split; [|split].
  - intros Hnone. now rewrite (update_missing old b d Hfit Hnone).
  - intros r x Hget Hin Hnew Hold.
    now rewrite (update_conflict old b d r x Hfit (unique_filter old _ r Hnd Hget) Hin Hnew Hold).
  - intros r Hget Hfree.
    rewrite (update_replaces old b d r Hfit (price_ok_positive _ Hp0 Hp)
               (price_ok_positive _ Hs0 Hs) (unique_filter old _ r Hnd Hget) Hfree).
    eexists. split; [reflexivity|]. split; [reflexivity|].
    unfold Store.get. cbn [Store.rows]. now apply find_overwritten.
Qed.

End UpdateContract.

Ltac distinct_strings :=
  repeat (constructor; [cbn; intuition discriminate|]); constructor.

Lemma update_contract_witness :
  save_product sample_day "" (sample_form "a" "A9") (Some "ZZ") two_products
  = (two_products, Saved)
  /\ save_product sample_day "" (sample_form "a" "B2") (Some "A1") two_products
     = (two_products, BarcodeInUse)
  /\ exists d',
       save_product sample_day "" (sample_form "a" "A9") (Some "A1") two_products
       = (d', Saved)
       /\ map Store.barcode (Store.rows d') = ["A9"; "B2"]
       /\ map Store.id (Store.rows d') = [1; 2].
Proof.
  split; [|split].
  - edestruct (@update_contract ascii_builtins sample_day ""
                 (sample_form "a" "A9") "ZZ" two_products) as (Hmiss & _ & _);
      [reflexivity|reflexivity|reflexivity|reflexivity|distinct_strings|].
    apply Hmiss. reflexivity.
  - edestruct (@update_contract ascii_builtins sample_day ""
                 (sample_form "a" "B2") "A1" two_products) as (_ & Hclash & _);
      [reflexivity|reflexivity|reflexivity|reflexivity|distinct_strings|].
    eapply Hclash; [reflexivity|cbv; right; left; reflexivity|reflexivity|discriminate].
  - edestruct (@update_contract ascii_builtins sample_day ""
                 (sample_form "a" "A9") "A1" two_products) as (_ & _ & Hok);
      [reflexivity|reflexivity|reflexivity|reflexivity|distinct_strings|].
    edestruct Hok as (d' & Hsave & Hrows & _); [reflexivity| |].
    + intros x [<-|[<-|[]]]; cbn; discriminate.
    + exists d'. split; [exact Hsave|]. rewrite Hrows. split; reflexivity.
Defined.

(** C5 as stated fails: an edit whose old barcode matches no record raises
    no not-found error; it is reported as saved and changes nothing. *)
Lemma update_of_missing_record_reports_success :
  Store.get "ZZ" two_products = None
  /\ save_product sample_day "" (sample_form "a" "A9") (Some "ZZ") two_products
     = (two_products, Saved).
Proof. vm_compute. split; reflexivity. Qed.

(** ** Editing a product with the barcode field cleared *)

Section ClearedBarcode.

Context {builtins : PyBuiltins}.

(** C10 (amended).  When an existing product is edited with the barcode
    field left blank and the save succeeds, the previous barcode is not
    kept: the product, under the same id, is filed under the freshly
    allocated "CB" followed by the largest id plus one on eight digits, and
    unless that string is the previous barcode itself, the previous barcode
    no longer designates any product. *)
Theorem cleared_barcode_is_reallocated today image_path f old d d' r :
  PyStr.strip (f_barcode f) = "" ->
  Store.get old d = Some r ->
  save_product today image_path f (Some old) d = (d', Saved) ->
  exists r',
    Store.get (allocate_barcode (Store.max_id d)) d' = Some r'
    /\ Store.id r' = Store.id r
    /\ (allocate_barcode (Store.max_id d) <> old -> Store.get old d' = None).
Proof.
  intros Hblank Hget Hsave.
  apply save_product_saved in Hsave as (b & Hform & Hupd).
  apply read_form_barcode in Hform. rewrite Hblank in Hform.
  cbn [PyStr.truthy] in Hform.
  destruct (get_some_filter old d r Hget) as (l & Hl).
  apply update_ok in Hupd as [[Hnil _]|(r0 & Hone & Hfree & ->)].
  - rewrite Hl in Hnil. discriminate Hnil.
  - rewrite Hl in Hone. injection Hone as <- ->.
    exists (Store.row_of (Store.id r) b). rewrite <- Hform.
    split; [|split].
    + unfold Store.get. cbn [Store.rows]. now apply find_overwritten.
    + reflexivity.
    + intros Hneq. unfold Store.get. cbn [Store.rows]. now apply find_old_gone.
Qed.

End ClearedBarcode.

Lemma cleared_barcode_is_reallocated_witness :
  exists r',
    Store.get "CB00000003"
      (fst (save_product sample_day "" (sample_form "a" "") (Some "A1") two_products))
    = Some r'
    /\ Store.id r' = 1
    /\ Store.get "A1"
         (fst (save_product sample_day "" (sample_form "a" "") (Some "A1") two_products))
       = None.
Proof.
  edestruct (@cleared_barcode_is_reallocated ascii_builtins sample_day ""
               (sample_form "a" "") "A1" two_products) as (r' & Hnew & Hid & Hold);
    [reflexivity|reflexivity|reflexivity|].
  exists r'. split; [exact Hnew|]. split; [exact Hid|].
  apply Hold. discriminate.
Defined.

(** C10 as stated fails: a cleared barcode does not always change the
    product's barcode.  The only product of a catalog, entered under
    CB00000002, keeps that barcode when it is edited with a blank field; and
    when the allocated barcode belongs to another product the edit is
    refused. *)
Lemma cleared_barcode_may_stay :
  (let d := added "a" "CB00000002" Store.empty in
   map Store.barcode (Store.rows d) = ["CB00000002"]
   /\ snd (save_product sample_day "" (sample_form "a" "") (Some "CB00000002") d) = Saved
   /\ map Store.barcode
        (Store.rows (fst (save_product sample_day "" (sample_form "a" "")
                            (Some "CB00000002") d)))
      = ["CB00000002"])
  /\ (let d := added "b" "CB00000003" (added "a" "A1" Store.empty) in
      save_product sample_day "" (sample_form "a" "") (Some "A1") d = (d, BarcodeInUse)).
Proof. vm_compute. repeat split. Qed.

(** ** The import: headers *)

Lemma index_absent (h : string) (headers : list string) :
  ~ In h headers -> index h headers = None.
Proof.
  induction headers as [|x l IH]; [reflexivity|].
  intros Hnotin. cbn. destruct (String.eqb_spec x h) as [E|E].
  - exfalso. apply Hnotin. now left.
  - rewrite IH; [reflexivity|]. intros Hin. apply Hnotin. now right.
Qed.

Lemma resolve_columns_missing (h : string) (headers : list string) :
  In h required_headers -> ~ In h headers -> resolve_columns headers = None.
Proof.
  intros Hreq Habs. apply index_absent in Habs. unfold resolve_columns.
  destruct Hreq as [<-|[<-|[<-|[<-|[]]]]]; rewrite Habs;
    repeat match goal with |- context [match ?x with _ => _ end] => destruct x end;
    reflexivity.
Qed.

Section Headers.

Context {builtins : PyBuiltins}.

(** C3.  When the header row lacks one of name, quantity, purchase_price,
    sale_price, the import ends with the format warning and the catalog is
    left as it was: no row is read, no record is inserted. *)
Theorem missing_header_aborts_import (h : string) (headers : list string)
    (body : list (list string)) (d : Store.database) :
  In h required_headers ->
  ~ In h headers ->
  import_from_csv (headers :: body) d = (d, FormatError).
Proof.
  intros Hreq Habs. unfold import_from_csv.
  now rewrite (resolve_columns_missing h headers Hreq Habs).
Qed.

End Headers.

Lemma missing_header_aborts_import_witness :
  import_from_csv
    [["name"; "quantity"; "sale_price"; "barcode"];
     ["pen"; "5"; "12"; "P1"]; ["ink"; "2"; "30"; "P2"]]
    two_products
  = (two_products, FormatError).
Proof.
  apply (@missing_header_aborts_import ascii_builtins "purchase_price").
  - cbn. tauto.
  - cbn. intuition discriminate.
Defined.

(** ** Sale price against purchase price *)

Section ValidationBoundary.

Context {builtins : PyBuiltins}.

Lemma read_form_never_saved today image_path f d w :
  read_form today image_path f d = inl w -> w <> Saved.
Proof.
  unfold read_form. intros H. break_hyp H; injection H as <-; discriminate.
Qed.

(** X5.  On the form path a sale price below the purchase price never
    reaches the store, whether a product is added or edited: the save ends
    with a warning and the catalog is unchanged. *)
Theorem save_rejects_sale_below_purchase today image_path f record d p s :
  py_float (PyStr.remove_commas (PyStr.strip (f_purchase f))) = Some p ->
  py_float (PyStr.remove_commas (PyStr.strip (f_sale f))) = Some s ->
  F64.ltb s p = true ->
  exists w, save_product today image_path f record d = (d, w) /\ w <> Saved.
Proof.
  intros Hp Hs Hlt. unfold save_product.
  destruct (read_form today image_path f d) as [w|b] eqn:E.
  - exists w. split; [reflexivity|]. now apply read_form_never_saved in E.
  - exfalso. pose proof (read_form_prices _ _ _ _ _ E) as (_ & _ & Hge & _).
    revert E Hge. unfold read_form. rewrite Hp, Hs. intros E.
    break_hyp E; injection E as <-; cbn; congruence.
Qed.

End ValidationBoundary.

(** C4 fails on the import path: the row (x, 1, 10, 5) is sold below its
    purchase price; the form refuses it, the import stores it. *)
Theorem import_accepts_sale_below_purchase :
  save_product sample_day ""
    {| f_name := "x"; f_qty := "1"; f_purchase := "10"; f_sale := "5";
       f_expiry := sample_day; f_barcode := "";
       f_supplier_name := ""; f_supplier_phone := "" |} None Store.empty
  = (Store.empty, SaleBelowPurchase)
  /\ exists r,
       import_from_csv [required_headers; ["x"; "1"; "10"; "5"]] Store.empty
       = ({| Store.rows := [r]; Store.seq := 1 |}, Imported 1 0)
       /\ F64.ltb (Store.sale_price r) (Store.purchase_price r) = true.
Proof.
  split; [reflexivity|]. eexists. split; [vm_compute; reflexivity|reflexivity].
Qed.

(** ** The import: one row at a time *)

Section Isolation.

Context {builtins : PyBuiltins}.

Variable c : columns.

Ltac pick_column H :=
  cbn in H; repeat (destruct H as [<-|H]; [|]); try contradiction.

Ltac walk_row :=
  repeat match goal with
    | |- context [match nth_error ?l ?n with _ => _ end] => destruct (nth_error l n)
    | |- context [match py_int ?x with _ => _ end] => destruct (py_int x)
    | |- context [match py_float ?x with _ => _ end] => destruct (py_float x)
    | |- context [if negb ?x then _ else _] => destruct x; cbn [negb]
    end;
  try reflexivity.

Lemma malformed_skipped (row : list string) (d : Store.database) :
  malformed c row -> import_row c row d = RowSkipped.
Proof.
  intros H. unfold import_row.
  destruct (List.length row <? 4)%nat eqn:Hlen; [reflexivity|].
  apply Nat.ltb_ge in Hlen.
  destruct H as [Hshort|col Hcol Hnone|col v Hcol Hv Hblank|v Hv Hq|v q Hv Hq Hneg
                |col v Hcol Hv Hp|col v p Hcol Hv Hp Hle].
  - lia.
  - pick_column Hcol; rewrite Hnone; walk_row.
  - pick_column Hcol; rewrite Hv, Hblank;
      repeat match goal with
        | |- context [match nth_error ?l ?n with _ => _ end] => destruct (nth_error l n)
        end;
      cbn; rewrite ?andb_false_r; reflexivity.
  - rewrite Hv, Hq. walk_row.
  - rewrite Hv, Hq. apply Z.ltb_lt in Hneg. walk_row. now rewrite Hneg.
  - pick_column Hcol; rewrite Hv, Hp; walk_row.
  - pick_column Hcol; rewrite Hv, Hp; walk_row;
      rewrite Hle, ?orb_true_r; reflexivity.
Qed.

Lemma insert_error (b : Store.bindings) (d : Store.database) (e : exception) :
  Store.insert b d = Store.Err e ->
  (e = OverflowError /\ Store.fits_int64 (Store.b_quantity b) = false)
  \/ (e = IntegrityError /\ Store.fits_int64 (Store.b_quantity b) = true).
Proof.
  unfold Store.insert. destruct (Store.fits_int64 (Store.b_quantity b)); cbn [negb].
  - intros H. right. split; [|reflexivity]. break_hyp H; now injection H as <-.
  - intros [= <-]. now left.
Qed.

(** The only exception that leaves the row loop is the OverflowError of a
    quantity that passed the checks and does not fit 64 bits. *)
Lemma row_raises_only_overflow (row : list string) (d : Store.database) (e : exception) :
  import_row c row d = RowRaised e ->
  e = OverflowError
  /\ exists v q, nth_error row (qty_col c) = Some v
                 /\ py_int (PyStr.remove_commas (PyStr.strip v)) = Some q
                 /\ 0 <= q /\ Store.fits_int64 q = false.
Proof.
  unfold import_row. intros H.
  repeat match type of H with
    | context [match nth_error ?l ?n with _ => _ end] => destruct (nth_error l n) eqn:?
    | context [match py_int ?x with _ => _ end] => destruct (py_int x) eqn:?
    | context [match py_float ?x with _ => _ end] => destruct (py_float x) eqn:?
    | context [if ?x then _ else _] => destruct x eqn:?
    end; try discriminate H.
  all: match type of H with
       | context [Store.insert ?b ?d0] => destruct (Store.insert b d0) as [d1|e1] eqn:E
       end; [discriminate H|].
  all: apply insert_error in E as [[-> Hfit]|[-> _]]; [|discriminate H].
  all: injection H as <-; split; [reflexivity|].
  all: match goal with
       | Hq : py_int _ = Some ?q, Hc : (?q <? 0) || _ || _ = false |- _ =>
           do 2 eexists; split; [reflexivity|]; split; [exact Hq|];
           apply orb_false_iff in Hc as [Hc _]; apply orb_false_iff in Hc as [Hc _];
           apply Z.ltb_ge in Hc; split; [exact Hc|exact Hfit]
       end.
Qed.

Lemma import_rows_error_shift (body : list (list string)) (d : Store.database) (i e : Z) :
  import_rows c body d i (e + 1) = one_more_skipped (import_rows c body d i e).
Proof.
  revert d i e. induction body as [|row rest IH]; intros d i e; [reflexivity|].
  cbn [import_rows]. destruct (import_row c row d); [apply IH|apply IH|reflexivity].
Qed.

(** A row that is skipped whatever the catalog holds changes nothing in
    the batch but the count of skipped rows. *)
Lemma import_rows_skip_row (pre post : list (list string)) (row : list string)
    (d : Store.database) (i e : Z) :
  (forall d', import_row c row d' = RowSkipped) ->
  import_rows c (pre ++ row :: post) d i e
  = one_more_skipped (import_rows c (pre ++ post) d i e).
Proof.
  intros Hskip. revert d i e.
  induction pre as [|r pre IH]; intros d i e; cbn [app import_rows].
  - rewrite Hskip. apply import_rows_error_shift.
  - destruct (import_row c r d); [apply IH|apply IH|reflexivity].
Qed.

(** When the summary is reached, every data row was counted once. *)
Lemma import_rows_counts (body : list (list string)) (d d' : Store.database)
    (i e i' e' : Z) :
  import_rows c body d i e = (d', Imported i' e') ->
  i' + e' = i + e + Z.of_nat (List.length body) /\ i <= i' /\ e <= e'.
Proof.
  revert d i e. induction body as [|row rest IH]; intros d i e; cbn [import_rows].
  - intros [= _ <- <-]. cbn. lia.
  - destruct (import_row c row d); [| |discriminate];
      intros H; apply IH in H; cbn [List.length]; lia.
Qed.

Lemma import_failure_is_overflow (body : list (list string)) (d d' : Store.database)
    (i e : Z) (x : exception) :
  import_rows c body d i e = (d', ImportFailed x) -> x = OverflowError.
Proof.
  revert d i e. induction body as [|row rest IH]; intros d i e; cbn [import_rows].
  - discriminate.
  - destruct (import_row c row d) eqn:E; [apply IH|apply IH|].
    intros [= _ <-]. now apply row_raises_only_overflow in E.
Qed.

(** A row whose barcode is already in the catalog is skipped, and so is a
    row with a NaN price, as long as its quantity fits 64 bits: the store
    refuses the INSERT with an IntegrityError. *)
Lemma refused_by_store_skipped (row : list string) (d : Store.database) (v : string) :
  nth_error row (qty_col c) = Some v ->
  (forall q, py_int (PyStr.remove_commas (PyStr.strip v)) = Some q ->
             Store.fits_int64 q = true) ->
  (PyStr.truthy (optional_field row (barcode_col c)) = true
   /\ Store.has_barcode (optional_field row (barcode_col c)) d = true)
  \/ (exists col w, In col [purchase_col c; sale_col c]
                    /\ nth_error row col = Some w
                    /\ py_float (PyStr.remove_commas (PyStr.strip w)) = Some S754_nan) ->
  import_row c row d = RowSkipped.
Proof.
  intros Hv Hfit Hwhy. unfold import_row. rewrite Hv.
  destruct (List.length row <? 4)%nat; [reflexivity|].
  destruct Hwhy as [[Hgiven Hheld]|(col & w & Hcol & Hw & Hnan)].
  - rewrite Hgiven. walk_row.
    all: match goal with |- context [if ?x then _ else _] => destruct x; [reflexivity|] end.
    all: unfold Store.insert; cbn; rewrite (Hfit _ eq_refl), Hheld; cbn.
    all: now destruct (negb _).
  - pick_column Hcol; rewrite Hw, Hnan; walk_row.
    all: match goal with |- context [if ?x then _ else _] => destruct x; [reflexivity|] end.
    all: unfold Store.insert; cbn; rewrite (Hfit _ eq_refl); cbn.
    all: rewrite ?andb_false_r; reflexivity.
Qed.

End Isolation.

(** ** The import on sample batches *)

(** Nine records are imported and one row is reported as skipped; the nine
    records received consecutive ids and barcodes. *)
Example ten_rows_one_negative_quantity :
  snd (import_from_csv (required_headers :: ten_rows) Store.empty) = Imported 9 1
  /\ map Store.barcode
       (Store.rows (fst (import_from_csv (required_headers :: ten_rows) Store.empty)))
     = ["CB00000001"; "CB00000002"; "CB00000003"; "CB00000004"; "CB00000005";
        "CB00000006"; "CB00000007"; "CB00000008"; "CB00000009"].
Proof. vm_compute. split; reflexivity. Qed.

(** C2 fails on a row that passes the checks of the loop with a quantity
    that does not fit 64 bits: binding it raises OverflowError, which the
    handler of the row does not catch.  The import stops with the error box
    of the outer handler: the rows after it are not read and no count is
    reported.  This happens to a row whose price is not a number and to a
    row whose barcode is already taken, both of which are skipped and
    counted when their quantity is small. *)
Theorem import_stops_on_oversized_quantity :
  (exists d,
     import_from_csv
       [required_headers; good_row "a"; ["x"; oversized; "nan"; "12"]; good_row "c"]
       Store.empty
     = (d, ImportFailed OverflowError)
     /\ map Store.name (Store.rows d) = ["a"])
  /\ snd (import_from_csv
            [required_headers; good_row "a"; ["x"; "5"; "nan"; "12"]; good_row "c"]
            Store.empty)
     = Imported 2 1
  /\ (exists d,
        import_from_csv
          [["name"; "quantity"; "purchase_price"; "sale_price"; "barcode"];
           ["x"; oversized; "10.5"; "12"; "A1"]; ["c"; "5"; "10.5"; "12"; "C3"]]
          two_products
        = (d, ImportFailed OverflowError)
        /\ d = two_products)
  /\ snd (import_from_csv
            [["name"; "quantity"; "purchase_price"; "sale_price"; "barcode"];
             ["x"; "5"; "10.5"; "12"; "A1"]; ["c"; "5"; "10.5"; "12"; "C3"]]
            two_products)
     = Imported 1 1.
Proof.
  split; [|split; [|split]].
  - eexists. split; vm_compute; reflexivity.
  - vm_compute. reflexivity.
  - eexists. split; vm_compute; reflexivity.
  - vm_compute. reflexivity.
Qed.

(** ** Binary64 rounding never turns a number of ordinary size into zero *)

Lemma digits2_size (p : positive) : digits2_pos p = Pos.size p.
Proof. induction p; cbn; congruence. Qed.

Lemma digits2_bounds (p : positive) :
  2 ^ (Zpos (digits2_pos p) - 1) <= Zpos p < 2 ^ Zpos (digits2_pos p).
Proof.
  rewrite digits2_size. split.
  - pose proof (Pos.size_le p) as H.
    assert (Zpos (2 ^ Pos.size p) <= Zpos p~0) as H' by exact H.
    rewrite Pos2Z.inj_pow in H'.
    replace (Zpos (Pos.size p)) with (Zpos (Pos.size p) - 1 + 1) in H' by lia.
    rewrite Z.pow_add_r in H' by lia. lia.
  - pose proof (Pos.size_gt p) as H.
    assert (Zpos p < Zpos (2 ^ Pos.size p)) as H' by exact H.
    now rewrite Pos2Z.inj_pow in H'.
Qed.

Lemma digits2_unique (p : positive) (k : Z) :
  2 ^ (k - 1) <= Zpos p < 2 ^ k -> Zpos (digits2_pos p) = k.
Proof.
  intros [Hlo Hhi]. pose proof (digits2_bounds p) as [Dlo Dhi].
  destruct (Z.lt_trichotomy (Zpos (digits2_pos p)) k) as [H|[H|H]]; [exfalso|assumption|exfalso].
  - assert (2 ^ Zpos (digits2_pos p) <= 2 ^ (k - 1)) by (apply Z.pow_le_mono_r; lia). lia.
  - assert (0 <= k \/ k < 0) as [Hk|Hk] by lia.
    + assert (2 ^ k <= 2 ^ (Zpos (digits2_pos p) - 1)) by (apply Z.pow_le_mono_r; lia). lia.
    + rewrite (Z.pow_neg_r 2 k) in Hhi by lia. lia.
Qed.

Lemma shr_1_m (mrs : shr_record) :
  0 <= shr_m mrs -> shr_m (shr_1 mrs) = shr_m mrs / 2.
Proof.
  destruct mrs as [m r s]. cbn [shr_m]. intros Hm.
  destruct m as [|p|p]; [reflexivity| |lia].
  destruct p as [p|p|]; cbn [shr_1 shr_m].
  - rewrite Pos2Z.inj_xI. apply Z.div_unique with (r := 1); lia.
  - rewrite Pos2Z.inj_xO. apply Z.div_unique with (r := 0); lia.
  - reflexivity.
Qed.

Lemma shr_m_iter (p : positive) (mrs : shr_record) :
  0 <= shr_m mrs ->
  shr_m (iter_pos shr_1 p mrs) = shr_m mrs / 2 ^ Zpos p.
Proof.
  revert mrs. induction p as [p IH|p IH|]; intros mrs Hm; cbn [iter_pos].
  - assert (0 <= shr_m (shr_1 mrs)) as H1
        by (rewrite shr_1_m by assumption; apply Z.div_pos; lia).
    assert (0 <= shr_m (iter_pos shr_1 p (shr_1 mrs))) as H2
        by (rewrite IH by assumption; apply Z.div_pos; lia).
    rewrite IH, IH, shr_1_m by assumption.
    rewrite !Z.div_div by lia. f_equal.
    assert (Z.pos p~1 = 1 + Z.pos p + Z.pos p) as -> by lia.
    rewrite !Z.pow_add_r by lia. change (2 ^ 1) with 2. ring.
  - assert (0 <= shr_m (iter_pos shr_1 p mrs)) as H2
        by (rewrite IH by assumption; apply Z.div_pos; lia).
    rewrite IH, IH by assumption. rewrite Z.div_div by lia. f_equal.
    assert (Z.pos p~0 = Z.pos p + Z.pos p) as -> by lia.
    now rewrite Z.pow_add_r by lia.
  - rewrite shr_1_m by assumption. reflexivity.
Qed.

Lemma fexp_eq (e : Z) : fexp F64.prec F64.emax e = Z.max (e - 53) (-1074).
Proof. reflexivity. Qed.

Lemma shr_m_record (m : Z) (l : location) : shr_m (shr_record_of_loc m l) = m.
Proof. destruct l as [|[| |]]; reflexivity. Qed.

Lemma digits2_shifted (pm : positive) (p : positive) :
  Zpos p < Zpos (digits2_pos pm) ->
  exists q, Zpos pm / 2 ^ Zpos p = Zpos q
            /\ Zpos (digits2_pos q) = Zpos (digits2_pos pm) - Zpos p.
Proof.
  intros Hp. pose proof (digits2_bounds pm) as [Dlo Dhi].
  set (d := Zpos (digits2_pos pm)) in *.
  assert (0 < 2 ^ Zpos p) as Hpow by (apply Z.pow_pos_nonneg; lia).
  assert (2 ^ (d - 1) = 2 ^ (d - Zpos p - 1) * 2 ^ Zpos p) as E1
      by (rewrite <- Z.pow_add_r by lia; f_equal; lia).
  assert (2 ^ d = 2 ^ (d - Zpos p) * 2 ^ Zpos p) as E2
      by (rewrite <- Z.pow_add_r by lia; f_equal; lia).
  assert (2 ^ (d - Zpos p - 1) <= Zpos pm / 2 ^ Zpos p) as Qlo
      by (apply Z.div_le_lower_bound; lia).
  assert (Zpos pm / 2 ^ Zpos p < 2 ^ (d - Zpos p)) as Qhi
      by (apply Z.div_lt_upper_bound; lia).
  assert (0 < 2 ^ (d - Zpos p - 1)) as Hpos by (apply Z.pow_pos_nonneg; lia).
  destruct (Zpos pm / 2 ^ Zpos p) as [|q|q] eqn:Eq; try lia.
  exists q. split; [reflexivity|]. apply digits2_unique. split; lia.
Qed.

Lemma shr_fexp_keeps (pm : positive) (e : Z) (l : location) :
  -1074 < Zpos (digits2_pos pm) + e ->
  exists mrs' e' q,
    shr_fexp F64.prec F64.emax (Zpos pm) e l = (mrs', e')
    /\ shr_m mrs' = Zpos q
    /\ -1074 <= e'
    /\ Zpos (digits2_pos q) + e' = Zpos (digits2_pos pm) + e.
Proof.
  intros Hmag. unfold shr_fexp, shr. cbn [Zdigits2]. rewrite fexp_eq.
  destruct (Z.max (Zpos (digits2_pos pm) + e - 53) (-1074) - e) as [|p|p] eqn:En.
  - do 2 eexists. exists pm. rewrite shr_m_record. repeat split; lia.
  - destruct (digits2_shifted pm p) as (q & Hq & Hd); [lia|].
    do 2 eexists. exists q. split; [reflexivity|].
    rewrite shr_m_iter, shr_m_record by (rewrite shr_m_record; lia).
    repeat split; try assumption; lia.
  - do 2 eexists. exists pm. rewrite shr_m_record. repeat split; lia.
Qed.

Lemma digits2_mono (a b : positive) :
  Zpos a <= Zpos b -> Zpos (digits2_pos a) <= Zpos (digits2_pos b).
Proof.
  intros Hab. pose proof (digits2_bounds a) as [Alo _].
  pose proof (digits2_bounds b) as [_ Bhi].
  destruct (Z_le_gt_dec (Zpos (digits2_pos a)) (Zpos (digits2_pos b))) as [H|H];
    [assumption|exfalso].
  assert (2 ^ Zpos (digits2_pos b) <= 2 ^ (Zpos (digits2_pos a) - 1))
    by (apply Z.pow_le_mono_r; lia).
  lia.
Qed.

Lemma round_nearest_even_pos (q : positive) (l : location) :
  exists q', round_nearest_even (Zpos q) l = Zpos q' /\ Zpos q <= Zpos q'.
Proof.
  destruct l as [|[| |]]; cbn [round_nearest_even].
  - exists q. split; [reflexivity|lia].
  - destruct (Z.even (Zpos q)).
    + exists q. split; [reflexivity|lia].
    + exists (q + 1)%positive. split; [reflexivity|lia].
  - exists q. split; [reflexivity|lia].
  - exists (q + 1)%positive. split; [reflexivity|lia].
Qed.

(** Rounding a positive mantissa whose magnitude is above the underflow
    threshold gives a finite number at least as large in magnitude, or an
    infinity: never a zero. *)
Lemma round_aux_keeps (s : bool) (pm : positive) (e : Z) :
  -1074 < Zpos (digits2_pos pm) + e ->
  (exists m' e',
      binary_round_aux F64.prec F64.emax s (Zpos pm) e loc_Exact = S754_finite s m' e'
      /\ Zpos (digits2_pos pm) + e <= Zpos (digits2_pos m') + e')
  \/ binary_round_aux F64.prec F64.emax s (Zpos pm) e loc_Exact = S754_infinity s.
Proof.
  intros Hmag. unfold binary_round_aux.
  destruct (shr_fexp_keeps pm e loc_Exact Hmag) as (mrs1 & e1 & q1 & -> & Hq1 & He1 & Hd1).
  rewrite Hq1.
  destruct (round_nearest_even_pos q1 (loc_of_shr_record mrs1)) as (q2 & -> & Hq2).
  pose proof (digits2_mono q1 q2 Hq2) as Hd2.
  destruct (shr_fexp_keeps q2 e1 loc_Exact) as (mrs3 & e3 & q3 & -> & Hq3 & He3 & Hd3);
    [lia|].
  rewrite Hq3. destruct (e3 <=? F64.emax - F64.prec).
  - left. exists q3, e3. split; [reflexivity|lia].
  - now right.
Qed.

Lemma digits2_iter_xO (m d : positive) :
  Zpos (digits2_pos (Pos.iter xO m d)) = Zpos (digits2_pos m) + Zpos d.
Proof.
  induction d as [|d IH] using Pos.peano_ind.
  - cbn. lia.
  - rewrite Pos.iter_succ. cbn [digits2_pos]. lia.
Qed.

Lemma shl_align_keeps (m : positive) (e e' : Z) :
  Zpos (digits2_pos (fst (shl_align m e e'))) + snd (shl_align m e e')
  = Zpos (digits2_pos m) + e.
Proof.
  unfold shl_align. destruct (e' - e) as [|d|d] eqn:E; cbn [fst snd]; try reflexivity.
  rewrite digits2_iter_xO. lia.
Qed.

Lemma digits2_mul (a b : positive) :
  Zpos (digits2_pos a) + Zpos (digits2_pos b) - 1 <= Zpos (digits2_pos (a * b)).
Proof.
  pose proof (digits2_bounds a) as [Alo _].
  pose proof (digits2_bounds b) as [Blo _].
  pose proof (digits2_bounds (a * b)) as [_ Phi].
  set (da := Zpos (digits2_pos a)) in *. set (db := Zpos (digits2_pos b)) in *.
  set (dp := Zpos (digits2_pos (a * b))) in *.
  destruct (Z_le_gt_dec (da + db - 1) dp) as [H|H]; [assumption|exfalso].
  assert (2 ^ dp <= 2 ^ (da - 1 + (db - 1))) as Hle by (apply Z.pow_le_mono_r; lia).
  rewrite Z.pow_add_r in Hle by lia.
  assert (0 < 2 ^ (da - 1)) by (apply Z.pow_pos_nonneg; lia).
  assert (0 < 2 ^ (db - 1)) by (apply Z.pow_pos_nonneg; lia).
  rewrite Pos2Z.inj_mul in Phi. nia.
Qed.

Lemma of_int_positive (p : positive) :
  (exists m e, F64.of_int (Zpos p) = S754_finite false m e
               /\ 1 <= Zpos (digits2_pos m) + e)
  \/ F64.of_int (Zpos p) = S754_infinity false.
Proof.
  unfold F64.of_int, binary_normalize, binary_round.
  pose proof (shl_align_keeps p 0 (fexp F64.prec F64.emax (Zpos (digits2_pos p) + 0))) as Hk.
  destruct (shl_align p 0 _) as [mz ez]. cbn [fst snd] in Hk.
  destruct (round_aux_keeps false mz ez) as [(m & e & -> & Hm)| ->]; [lia| |].
  - left. exists m, e. split; [reflexivity|lia].
  - now right.
Qed.

Lemma mul_finite_nonzero (sx sy : bool) (mx my : positive) (ex ey : Z) :
  -1074 < Zpos (digits2_pos mx) + ex + (Zpos (digits2_pos my) + ey) - 1 ->
  SFeqb (SFmul F64.prec F64.emax (S754_finite sx mx ex) (S754_finite sy my ey)) (S754_zero false)
  = false.
Proof.
  intros Hmag. cbn [SFmul]. pose proof (digits2_mul mx my) as Hd.
  destruct (round_aux_keeps (xorb sx sy) (mx * my) (ex + ey)) as [(m & e & -> & _)| ->];
    [lia| |]; now destruct (xorb sx sy).
Qed.

(** ** The geometry of a label *)

Lemma module_width_value (size : paper) :
  exists m e, module_width (profile_of size) = S754_finite false m e
              /\ Zpos (digits2_pos m) + e = -1.
Proof.
  destruct size.
  - exists 4503599627370496%positive, (-54). split; vm_compute; reflexivity.
  - exists 5404319552844595%positive, (-54). split; vm_compute; reflexivity.
  - exists 6305039478318694%positive, (-54). split; vm_compute; reflexivity.
Qed.

(** [module_width * len(barcode_value)] is not zero for a barcode that has
    at least one character: the quotient raises no ZeroDivisionError. *)
Lemma divisor_nonzero (size : paper) (len : nat) :
  (0 < len)%nat ->
  F64.eqb (F64.mul (module_width (profile_of size)) (F64.of_int (Z.of_nat len))) F64.zero
  = false.
Proof.
  intros Hlen. destruct (module_width_value size) as (m & e & -> & Hm).
  destruct (Z.of_nat len) as [|p|p] eqn:E; try lia.
  unfold F64.eqb, F64.mul, F64.zero.
  destruct (of_int_positive p) as [(m' & e' & -> & Hm')| ->].
  - apply mul_finite_nonzero. lia.
  - reflexivity.
Qed.

Lemma target_rect_defined (size : paper) (page : QRect) (len : nat) :
  (0 < len)%nat ->
  target_rect (profile_of size) page len
  = let pw := F64.of_int (width page) in
    let img_width := F64.mul pw (F64.of_decimal false 9 (-1)) in
    Some {| rect_x := F64.div (F64.sub pw img_width) (F64.of_int 2);
            rect_y := F64.mul (F64.of_int (height page)) (F64.of_decimal false 1 (-1));
            rect_w := img_width;
            rect_h :=
              F64.mul img_width
                (F64.div (F64.of_int (module_height (profile_of size)))
                   (F64.mul (module_width (profile_of size))
                      (F64.of_int (Z.of_nat len)))) |}.
Proof.
  intros Hlen. unfold target_rect, F64.py_div.
  now rewrite (divisor_nonzero size len Hlen).
Qed.

Lemma target_rect_empty (size : paper) (page : QRect) :
  target_rect (profile_of size) page 0 = None.
Proof. destruct size; reflexivity. Qed.

(** ** One copy of a label *)

Section OneCopy.

Context {host : Host}.

Variable size : paper.
Variable show_price : bool.
Variable page : QRect.

Lemma render_copy_done final barcode_value copies k w w' ev :
  render_copy size show_price page final barcode_value copies k w = (w', ev, None) ->
  exists target l,
    target_rect (profile_of size) page (String.length barcode_value) = Some target
    /\ is_label l
    /\ hd_error l = Some (DrawImage target (temp_path barcode_value))
    /\ ev = (l ++ if advances_after final (barcode_value, copies) k
                  then [NewPage] else [])%list
    /\ db w' = db w.
Proof.
  unfold render_copy. intros H.
  destruct (negb (render_ok barcode_value)); [discriminate|].
  destruct (negb (decode_ok (temp_path barcode_value))); [discriminate|].
  destruct (target_rect _ page _) as [target|]; [|discriminate].
  injection H as <- <-.
  match goal with
  | |- context [?x1 :: ?x2 :: ?x3 :: (?b ++ _)%list = _] =>
      exists target, (x1 :: x2 :: x3 :: b)
  end.
  split; [reflexivity|]. split; [|split; [reflexivity|split; reflexivity]].
  eexists _, _, _. split; [reflexivity|].
  destruct show_price; repeat constructor.
Qed.

Lemma render_copy_raised final barcode_value copies k w w' ev e :
  render_copy size show_price page final barcode_value copies k w = (w', ev, Some e) ->
  ev = [].
Proof.
  unfold render_copy. intros H.
  destruct (negb (render_ok barcode_value)); [now injection H|].
  destruct (negb (decode_ok (temp_path barcode_value))); [now injection H|].
  destruct (target_rect _ page _) as [target|]; [discriminate|now injection H].
Qed.

Lemma render_copy_succeeds final barcode_value copies k w :
  render_ok barcode_value = true ->
  decode_ok (temp_path barcode_value) = true ->
  (0 < String.length barcode_value)%nat ->
  exists w' ev, render_copy size show_price page final barcode_value copies k w
                = (w', ev, None).
Proof.
  intros Hr Hd Hlen. unfold render_copy.
  rewrite Hr, Hd, (target_rect_defined size page _ Hlen). cbn.
  do 2 eexists. reflexivity.
Qed.

End OneCopy.

Section Geometry.

Context {host : Host}.

(** C6.  For every label size and page rectangle, a copy of a barcode with
    at least one character, whose image the host renders and decodes, is
    painted, and the first thing painted is the barcode image, in a
    rectangle whose width is the page width times 0.9, whose height is that
    width times moduleHeight / (moduleWidth * length of the barcode), whose
    left edge is at (page width - image width) / 2 and whose top edge is at
    the page height times 0.1, all in binary64 arithmetic.  The rectangle
    is the value of [target_rect], a function of the size, the page
    rectangle and the length of the barcode alone. *)
Theorem label_geometry (size : paper) (show_price : bool) (page : QRect)
    (final : string * Z) (barcode_value : string) (copies k : Z) (w : world) :
  render_ok barcode_value = true ->
  decode_ok (temp_path barcode_value) = true ->
  (0 < String.length barcode_value)%nat ->
  exists w' target label,
    render_copy size show_price page final barcode_value copies k w
    = (w', (label ++ if advances_after final (barcode_value, copies) k
                     then [NewPage] else [])%list, None)
    /\ is_label label
    /\ hd_error label = Some (DrawImage target (temp_path barcode_value))
    /\ rect_w target = F64.mul (F64.of_int (width page)) (F64.of_decimal false 9 (-1))
    /\ rect_h target
       = F64.mul (rect_w target)
           (F64.div (F64.of_int (module_height (profile_of size)))
              (F64.mul (module_width (profile_of size))
                 (F64.of_int (Z.of_nat (String.length barcode_value)))))
    /\ rect_x target
       = F64.div (F64.sub (F64.of_int (width page)) (rect_w target)) (F64.of_int 2)
    /\ rect_y target = F64.mul (F64.of_int (height page)) (F64.of_decimal false 1 (-1))
    /\ target_rect (profile_of size) page (String.length barcode_value) = Some target.
Proof.
  intros Hr Hd Hlen.
  destruct (render_copy_succeeds size show_price page final barcode_value copies k w
              Hr Hd Hlen) as (w' & ev & Hrun).
  destruct (render_copy_done _ _ _ _ _ _ _ _ _ _ Hrun)
    as (target & label & Htarget & Hlabel & Hhd & -> & _).
  exists w', target, label. split; [exact Hrun|]. split; [exact Hlabel|].
  split; [exact Hhd|].
  pose proof Htarget as Hval. rewrite (target_rect_defined size page _ Hlen) in Hval.
  cbv zeta in Hval. injection Hval as <-. cbn [rect_x rect_y rect_w rect_h].
  repeat split. exact Htarget.
Qed.

End Geometry.

Lemma label_geometry_witness :
  exists target,
    target_rect (profile_of Small) small_page (String.length "CB00000001") = Some target
    /\ rect_w target = F64.mul (F64.of_int 472) (F64.of_decimal false 9 (-1))
    /\ rect_y target = F64.mul (F64.of_int 236) (F64.of_decimal false 1 (-1)).
Proof.
  destruct (@label_geometry reliable_host Small true small_page ("CB00000001", 1)
              "CB00000001" 1 0 {| db := Store.empty; files := [] |})
    as (w' & target & label & _ & _ & _ & Hw & _ & _ & Hy & Ht);
    [reflexivity|reflexivity|cbn; lia|].
  exists target. split; [exact Ht|]. split; [exact Hw|exact Hy].
Defined.

(** The same rectangle in numbers, as Python prints them: x is
    23.599999999999994, y is 23.6, the width is 424.8 and the height is
    1359.3600000000001 (3.2 times the width, for ten characters). *)
Example small_label_rectangle :
  target_rect (profile_of Small) small_page 10
  = Some {| rect_x := S754_finite false 6642809450371480 (-48);
            rect_y := S754_finite false 6642809450371482 (-48);
            rect_w := S754_finite false 7473160631667917 (-44);
            rect_h := S754_finite false 5978528505334334 (-42) |}.
Proof. vm_compute. reflexivity. Qed.

(** ** The pages of a job *)

Lemma shaped_app (f1 f2 : list bool) (e1 e2 : list paint_event) :
  shaped f1 e1 -> shaped f2 e2 -> shaped (f1 ++ f2) (e1 ++ e2).
Proof.
  revert e1. induction f1 as [|f fs IH]; intros e1 H1 H2; cbn in *.
  - now subst e1.
  - destruct H1 as (l & ev' & Hl & -> & Hfs).
    exists l, (ev' ++ e2)%list. split; [assumption|]. split.
    + now rewrite <- !app_assoc.
    + now apply IH.
Qed.

Lemma label_no_advance (l : list paint_event) : is_label l -> page_advances l = 0%nat.
Proof.
  intros (target & path & rest & -> & Hrest). unfold page_advances. cbn.
  induction Hrest as [|e rest He _ IH]; [reflexivity|].
  cbn. destruct e; try contradiction; exact IH.
Qed.

Lemma page_advances_app (a b : list paint_event) :
  page_advances (a ++ b) = (page_advances a + page_advances b)%nat.
Proof. unfold page_advances. now rewrite filter_app, length_app. Qed.

Lemma shaped_advances (flags : list bool) (ev : list paint_event) :
  shaped flags ev ->
  page_advances ev = List.length (filter (fun f => f) flags).
Proof.
  revert ev. induction flags as [|f fs IH]; intros ev H; cbn in H.
  - now subst ev.
  - destruct H as (l & ev' & Hl & -> & Hfs).
    rewrite !page_advances_app, (label_no_advance l Hl), (IH ev' Hfs).
    destruct f; reflexivity.
Qed.

Lemma range_bounds (n k : Z) : In k (range n) -> 0 <= k < n.
Proof.
  unfold range. intros H. apply in_map_iff in H as (i & <- & Hi).
  apply in_seq in Hi. lia.
Qed.

Lemma range_last (n : Z) : 1 <= n -> range n = (range (n - 1) ++ [n - 1])%list.
Proof.
  intros Hn. unfold range.
  replace (Z.to_nat n) with (S (Z.to_nat (n - 1))) by lia.
  rewrite seq_S, map_app. cbn. do 2 f_equal. lia.
Qed.

Lemma map_all_true {A : Type} (f : A -> bool) (l : list A) :
  (forall x, In x l -> f x = true) -> map f l = repeat true (List.length l).
Proof.
  induction l as [|x l IH]; intros H; [reflexivity|].
  cbn. rewrite (H x) by now left. f_equal. apply IH. intros y Hy. apply H. now right.
Qed.

Lemma filter_repeat_true (n : nat) :
  filter (fun f : bool => f) (repeat true n) = repeat true n.
Proof. induction n as [|n IH]; cbn; congruence. Qed.

Lemma range_length (n : Z) : List.length (range n) = Z.to_nat n.
Proof. unfold range. now rewrite length_map, length_seq. Qed.

Lemma differs_same (item : string * Z) : differs item item = false.
Proof. unfold differs. now rewrite String.eqb_refl, Z.eqb_refl. Qed.

Lemma copy_flags_other (final item : string * Z) :
  differs item final = true ->
  copy_flags final item = repeat true (Z.to_nat (snd item)).
Proof.
  intros Hd. unfold copy_flags. rewrite <- range_length. apply map_all_true.
  intros k _. unfold advances_after. rewrite Hd. apply orb_true_r.
Qed.

Lemma copy_flags_final (final : string * Z) :
  1 <= snd final ->
  copy_flags final final = (repeat true (Z.to_nat (snd final) - 1) ++ [false])%list.
Proof.
  intros Hn. unfold copy_flags. rewrite (range_last _ Hn), map_app. f_equal.
  - replace (Z.to_nat (snd final) - 1)%nat with (List.length (range (snd final - 1)))
      by (rewrite range_length; lia).
    apply map_all_true. intros k Hk. apply range_bounds in Hk.
    unfold advances_after. apply orb_true_iff. left. apply Z.ltb_lt. lia.
  - cbn. unfold advances_after. rewrite differs_same, orb_false_r.
    f_equal. apply Z.ltb_irrefl.
Qed.

Lemma job_flags_distinct (init : list (string * Z)) (final : string * Z) :
  Forall (fun item => differs item final = true) init ->
  1 <= snd final ->
  job_flags final (init ++ [final])
  = (repeat true (total_copies (init ++ [final]) - 1) ++ [false])%list.
Proof.
  intros Hinit Hn. unfold job_flags.
  induction Hinit as [|item init Hitem _ IH]; cbn [app flat_map].
  - rewrite app_nil_r, (copy_flags_final final Hn). do 2 f_equal. cbn. lia.
  - rewrite IH, (copy_flags_other final item Hitem), app_assoc, <- repeat_app.
    do 2 f_equal.
    change (total_copies (item :: init ++ [final]))
      with (Z.to_nat (snd item) + total_copies (init ++ [final]))%nat.
    assert (1 <= total_copies (init ++ [final]))%nat; [|lia].
    clear - Hn. induction init as [|x init IH].
    + cbn. lia.
    + change (total_copies ((x :: init) ++ [final]))
        with (Z.to_nat (snd x) + total_copies (init ++ [final]))%nat.
      lia.
Qed.

Section Pagination.

Context {host : Host}.

Variable size : paper.
Variable show_price : bool.
Variable page : QRect.

Lemma render_copies_shape final barcode_value copies ks w w' ev :
  render_copies size show_price page final barcode_value copies ks w = (w', ev, None) ->
  shaped (map (advances_after final (barcode_value, copies)) ks) ev.
Proof.
  revert w w' ev. induction ks as [|k ks IH]; intros w w' ev;
    cbn [render_copies map shaped].
  - intros [= _ <-]. reflexivity.
  - destruct (render_copy size show_price page final barcode_value copies k w)
      as [[w1 ev1] [e|]] eqn:E1; [discriminate|].
    destruct (render_copies size show_price page final barcode_value copies ks w1)
      as [[w2 ev2] r] eqn:E2.
    intros [= _ <- ->].
    apply render_copy_done in E1 as (target & l & _ & Hl & _ & -> & _).
    exists l, ev2. split; [assumption|]. split; [now rewrite <- app_assoc|].
    now apply (IH w1 w2).
Qed.

Lemma render_items_shape final items w w' ev :
  render_items size show_price page final items w = (w', ev, None) ->
  shaped (job_flags final items) ev.
Proof.
  revert w w' ev. induction items as [|[barcode_value copies] rest IH]; intros w w' ev;
    cbn [render_items job_flags flat_map shaped].
  - intros [= _ <-]. reflexivity.
  - destruct (render_copies size show_price page final barcode_value copies
                (range copies) w) as [[w1 ev1] [e|]] eqn:E1; [discriminate|].
    destruct (render_items size show_price page final rest w1) as [[w2 ev2] r] eqn:E2.
    intros [= _ <- ->].
    apply shaped_app.
    + now apply render_copies_shape in E1.
    + now apply (IH w1 w2).
Qed.

Lemma render_copies_succeed final barcode_value copies ks w :
  printable barcode_value ->
  exists w' ev,
    render_copies size show_price page final barcode_value copies ks w = (w', ev, None).
Proof.
  intros (Hr & Hd & Hlen). revert w.
  induction ks as [|k ks IH]; intros w; cbn [render_copies].
  - now do 2 eexists.
  - destruct (render_copy_succeeds size show_price page final barcode_value copies k w
                Hr Hd Hlen) as (w1 & ev1 & ->).
    destruct (IH w1) as (w2 & ev2 & ->). now do 2 eexists.
Qed.

Lemma render_items_succeed final items w :
  Forall (fun item => printable (fst item)) items ->
  exists w' ev, render_items size show_price page final items w = (w', ev, None).
Proof.
  intros Hall. revert w.
  induction Hall as [|[barcode_value copies] rest Hitem _ IH]; intros w;
    cbn [render_items].
  - now do 2 eexists.
  - destruct (render_copies_succeed final barcode_value copies (range copies) w Hitem)
      as (w1 & ev1 & ->).
    destruct (IH w1) as (w2 & ev2 & ->). now do 2 eexists.
Qed.

(** A job whose final (barcode, copies) pair occurs nowhere else in the
    list, with at least one copy of the final item and barcodes the host
    can paint, runs to its end and paints one label per physical copy, each
    but the last followed by one page advance: the number of page advances
    is the number of copies minus one. *)
Lemma pagination_with_single_final (init : list (string * Z)) (final : string * Z) (w : world) :
  Forall (fun item => printable (fst item)) (init ++ [final]) ->
  Forall (fun item => differs item final = true) init ->
  1 <= snd final ->
  exists w' ev,
    print_labels size show_price page (init ++ [final]) w = (w', ev, None)
    /\ shaped (repeat true (total_copies (init ++ [final]) - 1) ++ [false]) ev
    /\ page_advances ev = (total_copies (init ++ [final]) - 1)%nat.
Proof.
  intros Hhost Hinit Hn.
  assert (forall d, last (init ++ [final])%list d = final) as Hlast
    by (intros d; apply last_last).
  destruct (render_items_succeed final (init ++ [final]) w Hhost) as (w' & ev & Hrun).
  exists w', ev. split.
  - unfold print_labels. destruct (init ++ [final])%list as [|first rest] eqn:E.
    + now destruct init.
    + now rewrite Hlast.
  - pose proof (render_items_shape _ _ _ _ _ Hrun) as Hshape.
    rewrite (job_flags_distinct init final Hinit Hn) in Hshape.
    split; [assumption|].
    rewrite (shaped_advances _ _ Hshape), filter_app. cbn.
    rewrite length_app. cbn.
    rewrite filter_repeat_true, repeat_length. lia.
Qed.

End Pagination.

(** The page advance is decided by comparing the pair of the copy with the
    last pair of the job, by value.  In a list where the final pair also
    stands earlier, which no state of the dialog gives, the last copy of
    the earlier item gets no page advance: three copies give one page
    advance and the first two labels share a page. *)
Lemma repeated_final_pair_shares_a_page :
  exists w' l1 l2 l3,
    @print_labels reliable_host Small false small_page
      [("CB00000001", 1); ("CB00000002", 1); ("CB00000001", 1)] shop
    = (w', (l1 ++ l2 ++ [NewPage] ++ l3)%list, None)
    /\ hd_error l1 = hd_error l3
    /\ List.length l1 = 3%nat /\ List.length l2 = 3%nat /\ List.length l3 = 3%nat
    /\ page_advances (l1 ++ l2 ++ [NewPage] ++ l3) = 1%nat
    /\ total_copies [("CB00000001", 1); ("CB00000002", 1); ("CB00000001", 1)] = 3%nat.
Proof.
  eexists _, [_; _; _], [_; _; _], [_; _; _].
  split; [vm_compute; reflexivity|]. repeat split.
Qed.

(** ** The temporary image file *)

Section TemporaryFile.

Context {host : Host}.

Variable size : paper.
Variable show_price : bool.
Variable page : QRect.

Lemma create_file_exists (p : string) (fs : list string) :
  existsb (String.eqb p) (create_file p fs) = true.
Proof.
  unfold create_file. destruct (existsb (String.eqb p) fs) eqn:E; [assumption|].
  cbn. now rewrite String.eqb_refl.
Qed.

Lemma removed_is_gone (p : string) (fs : list string) :
  existsb (String.eqb p) (filter (fun x => negb (String.eqb p x)) fs) = false.
Proof.
  induction fs as [|x fs IH]; [reflexivity|].
  cbn. destruct (String.eqb p x) eqn:E; cbn; [assumption|]. now rewrite E.
Qed.

(** After a copy that was painted, the temporary file is gone when the host
    lets it be removed. *)
Lemma painted_copy_removes_file final barcode_value copies k w w' ev :
  render_copy size show_price page final barcode_value copies k w = (w', ev, None) ->
  remove_ok (temp_path barcode_value) = true ->
  path_exists (temp_path barcode_value) w' = false.
Proof.
  unfold render_copy. intros H Hrm.
  destruct (negb (render_ok barcode_value)); [discriminate|].
  destruct (negb (decode_ok (temp_path barcode_value))); [discriminate|].
  destruct (target_rect _ page _) as [target|]; [|discriminate].
  injection H as <- _. unfold path_exists, os_remove. cbn [files].
  generalize dependent (temp_path barcode_value). intros p Hrm.
  rewrite Hrm, create_file_exists. cbn [andb]. apply removed_is_gone.
Qed.

(** A removal that fails is swallowed: the copy is painted all the same and
    the file stays. *)
Lemma failed_removal_is_swallowed final barcode_value copies k w :
  printable barcode_value ->
  remove_ok (temp_path barcode_value) = false ->
  exists w' ev,
    render_copy size show_price page final barcode_value copies k w = (w', ev, None)
    /\ path_exists (temp_path barcode_value) w' = true.
Proof.
  intros (Hr & Hd & Hlen) Hrm. unfold render_copy.
  rewrite Hr, Hd, (target_rect_defined size page _ Hlen). cbn [negb].
  cbv zeta. do 2 eexists. split; [reflexivity|].
  unfold path_exists, os_remove. cbn [files]. rewrite Hrm. cbn [andb].
  apply create_file_exists.
Qed.

(** A copy whose saved image cannot be decoded raises after the file was
    written and before the removal is reached: the file stays. *)
Lemma undecodable_image_leaves_file final barcode_value copies k w :
  render_ok barcode_value = true ->
  decode_ok (temp_path barcode_value) = false ->
  exists w',
    render_copy size show_price page final barcode_value copies k w
    = (w', [], Some ValueError)
    /\ path_exists (temp_path barcode_value) w' = true.
Proof.
  intros Hr Hd. unfold render_copy. rewrite Hr, Hd. cbn [negb].
  eexists. split; [reflexivity|]. apply create_file_exists.
Qed.

End TemporaryFile.

(** C8 fails when a copy raises: on a host where the saved image does not
    decode, the job for one copy of CB00000001 ends with the ValueError the
    source raises, nothing is painted, and the temporary file is still on
    disk, although the host would have let it be removed. *)
Theorem temporary_file_survives_a_failed_copy :
  @print_labels undecodable_host Small true small_page [("CB00000001", 1)] shop
  = ({| db := db shop; files := ["barcodes/temp_barcode_CB00000001.png.png"] |},
     [], Some ValueError)
  /\ @remove_ok undecodable_host "barcodes/temp_barcode_CB00000001.png.png" = true
  /\ exists ev,
       @print_labels reliable_host Small true small_page [("CB00000001", 1)] shop
       = (shop, ev, None).
Proof.
  split; [reflexivity|]. split; [reflexivity|].
  eexists. vm_compute. reflexivity.
Qed.

(** ** Barcodes stay pairwise distinct *)

Lemma unique_after_insert b d d' :
  NoDup (map Store.barcode (Store.rows d)) ->
  Store.insert b d = Store.Ok d' ->
  NoDup (map Store.barcode (Store.rows d')).
Proof.
  intros Hnd Hins. apply insert_ok in Hins as [Hfree ->]. cbn [Store.rows].
  rewrite map_app. cbn. apply NoDup_app; [assumption|repeat constructor; intros []|].
  intros bc Hin [<-|[]]. apply in_map_iff in Hin as (r & Hr & Hin).
  assert (Store.has_barcode (Store.b_barcode b) d = true) as Habs
    by (apply has_barcode_true; eauto).
  congruence.
Qed.

Lemma unique_after_delete bc d :
  NoDup (map Store.barcode (Store.rows d)) ->
  NoDup (map Store.barcode (Store.rows (Store.delete bc d))).
Proof.
  cbn [Store.delete Store.rows].
  induction (Store.rows d) as [|x l IH]; intros Hnd; [assumption|].
  inversion Hnd as [|? ? Hnotin Hnd']; subst. cbn.
  destruct (negb (String.eqb (Store.barcode x) bc)); [|now apply IH].
  cbn. constructor; [|now apply IH].
  intros Hin. apply Hnotin. apply in_map_iff in Hin as (r & Hr & Hin).
  apply filter_In in Hin as [Hin _]. apply in_map_iff. eauto.
Qed.

Lemma overwrite_barcode old b x :
  Store.barcode (overwrite old b x)
  = if String.eqb (Store.barcode x) old then Store.b_barcode b else Store.barcode x.
Proof. unfold overwrite. now destruct (String.eqb (Store.barcode x) old). Qed.

Lemma unique_after_update old b d d' :
  NoDup (map Store.barcode (Store.rows d)) ->
  Store.update old b d = Store.Ok d' ->
  NoDup (map Store.barcode (Store.rows d')).
Proof.
  intros Hnd Hupd.
  apply update_ok in Hupd as [[_ ->]|(r0 & _ & Hfree & ->)]; [assumption|].
  cbn [Store.rows]. revert Hnd Hfree.
  induction (Store.rows d) as [|x l IH]; intros Hnd Hfree; [constructor|].
  inversion Hnd as [|? ? Hnotin Hnd']; subst. cbn [map].
  constructor.
  - intros Hin. apply in_map_iff in Hin as (y' & Hy' & Hin).
    apply in_map_iff in Hin as (y & <- & Hy).
    rewrite !overwrite_barcode in Hy'.
    assert (Store.barcode y <> Store.barcode x) as Hxy
      by (intros E; apply Hnotin; rewrite <- E; now apply in_map).
    destruct (String.eqb_spec (Store.barcode y) old) as [Ey|Ey];
      destruct (String.eqb_spec (Store.barcode x) old) as [Ex|Ex].
    + congruence.
    + apply Ex. apply Hfree; [now left|congruence].
    + apply Ey. apply Hfree; [now right|congruence].
    + congruence.
  - apply IH; [assumption|]. intros y Hy. apply Hfree. now right.
Qed.

(** ** The import as a whole *)

Section WholeImport.

Context {builtins : PyBuiltins}.

Lemma import_rows_unique c body d i e :
  NoDup (map Store.barcode (Store.rows d)) ->
  NoDup (map Store.barcode (Store.rows (fst (import_rows c body d i e)))).
Proof.
  revert d i e. induction body as [|row rest IH]; intros d i e Hnd; cbn [import_rows].
  - assumption.
  - destruct (import_row c row d) as [d1| |x] eqn:E; [|now apply IH|assumption].
    apply IH. apply import_row_inserted in E as (b & Hins & _).
    now apply (unique_after_insert b d d1).
Qed.

(** X1.  A row that the loop rejects by itself (too few fields, a required
    field missing or blank, a quantity that is unreadable or negative, a
    price that is unreadable, zero or negative) changes nothing in the
    batch but the count of skipped rows: the import ends as it would
    without the row, with one more skipped row. *)
Theorem import_isolation (headers : list string) (c : columns)
    (pre post : list (list string)) (row : list string) (d : Store.database) :
  resolve_columns headers = Some c ->
  malformed c row ->
  import_from_csv (headers :: pre ++ row :: post) d
  = one_more_skipped (import_from_csv (headers :: pre ++ post) d).
Proof.
  intros Hc Hrow. unfold import_from_csv. rewrite Hc.
  apply import_rows_skip_row. intros d'. now apply malformed_skipped.
Qed.

(** X2.  When the import reaches its summary, every data row was counted
    once, as imported or as skipped. *)
Theorem import_counts_every_row (headers : list string) (body : list (list string))
    (d d' : Store.database) (imported_count error_count : Z) :
  import_from_csv (headers :: body) d = (d', Imported imported_count error_count) ->
  imported_count + error_count = Z.of_nat (List.length body)
  /\ 0 <= imported_count /\ 0 <= error_count.
Proof.
  unfold import_from_csv. destruct (resolve_columns headers) as [c|]; [|discriminate].
  intros H. apply import_rows_counts in H. lia.
Qed.

(** A run of the row loop that fails stopped at one row: the rows before it
    were handled, and that row raised. *)
Lemma import_rows_failed_at (c : columns) (body : list (list string))
    (d d' : Store.database) (i e : Z) (x : exception) :
  import_rows c body d i e = (d', ImportFailed x) ->
  exists pre row post i' e',
    body = (pre ++ row :: post)%list
    /\ import_rows c pre d i e = (d', Imported i' e')
    /\ import_row c row d' = RowRaised x.
Proof.
  revert d i e. induction body as [|row rest IH]; intros d i e; cbn [import_rows].
  - discriminate.
  - destruct (import_row c row d) as [d1| |y] eqn:E.
    + intros H. apply IH in H as (pre & r & post & i' & e' & -> & Hpre & Hr).
      exists (row :: pre), r, post, i', e'. cbn [app import_rows]. now rewrite E.
    + intros H. apply IH in H as (pre & r & post & i' & e' & -> & Hpre & Hr).
      exists (row :: pre), r, post, i', e'. cbn [app import_rows]. now rewrite E.
    + intros [= <- <-]. now exists [], row, rest, i, e.
Qed.


(** X4.  Barcodes stay pairwise distinct through every save, import and
    deletion. *)
Theorem barcodes_stay_unique (d : Store.database) :
  NoDup (map Store.barcode (Store.rows d)) ->
  (forall today image_path f record,
      NoDup (map Store.barcode
               (Store.rows (fst (save_product today image_path f record d)))))
  /\ (forall file,
         NoDup (map Store.barcode (Store.rows (fst (import_from_csv file d)))))
  /\ (forall (host : Host) bc yes fs,
         NoDup (map Store.barcode
                  (Store.rows (db (fst (delete_product bc yes
                                          {| db := d; files := fs |})))))).
Proof.
  intros Hnd. split; [|split].
  - intros today image_path f record. unfold save_product.
    destruct (read_form today image_path f d) as [w|b]; [assumption|].
    destruct record as [old|].
    + destruct (Store.update old b d) as [d1|x] eqn:E.
      * now apply (unique_after_update old b d d1).
      * now destruct x.
    + destruct (Store.insert b d) as [d1|x] eqn:E.
      * now apply (unique_after_insert b d d1).
      * now destruct x.
  - intros file. unfold import_from_csv. destruct file as [|headers body]; [assumption|].
    destruct (resolve_columns headers) as [c|]; [|assumption].
    now apply import_rows_unique.
  - intros host bc yes fs. unfold delete_product. destruct yes; [|assumption].
    cbn [db]. destruct (Store.get bc d); [|assumption].
    cbn [fst db]. now apply unique_after_delete.
Qed.

End WholeImport.

Lemma import_isolation_witness :
  import_from_csv (required_headers :: ten_rows) Store.empty
  = one_more_skipped
      (import_from_csv
         (required_headers
          :: [good_row "a"; good_row "b"; good_row "c"; good_row "d";
              good_row "f"; good_row "g"; good_row "h"; good_row "i"; good_row "j"])
         Store.empty).
Proof.
  apply (@import_isolation ascii_builtins required_headers
           {| name_col := 0; qty_col := 1; purchase_col := 2; sale_col := 3;
              expiry_col := None; barcode_col := None;
              supplier_name_col := None; supplier_phone_col := None |}
           [good_row "a"; good_row "b"; good_row "c"; good_row "d"]).
  - reflexivity.
  - apply (quantity_negative _ _ "-3" (-3)); [reflexivity|reflexivity|lia].
Defined.

Lemma import_counts_every_row_witness :
  9 + 1 = Z.of_nat (List.length ten_rows) /\ 0 <= 9 /\ 0 <= 1.
Proof.
  apply (@import_counts_every_row ascii_builtins required_headers ten_rows Store.empty
           (fst (import_from_csv (required_headers :: ten_rows) Store.empty))).
  vm_compute. reflexivity.
Defined.


Lemma barcodes_stay_unique_witness :
  NoDup (map Store.barcode
           (Store.rows (fst (save_product sample_day "" (sample_form "c" "C3") None
                               two_products)))).
Proof.
  apply (@barcodes_stay_unique ascii_builtins two_products).
  distinct_strings.
Defined.

Lemma save_rejects_sale_below_purchase_witness :
  exists w,
    save_product sample_day ""
      {| f_name := "x"; f_qty := "1"; f_purchase := "10"; f_sale := "5";
         f_expiry := sample_day; f_barcode := "A1";
         f_supplier_name := ""; f_supplier_phone := "" |} (Some "A1") two_products
    = (two_products, w)
    /\ w <> Saved.
Proof.
  eapply (@save_rejects_sale_below_purchase ascii_builtins); reflexivity.
Defined.

(** X6.  A copy whose barcode the host can paint is painted whether or not
    its temporary file can be removed afterwards; the file is gone exactly
    when the host lets it be removed. *)
Theorem temporary_file_cleanup {host : Host} (size : paper) (show_price : bool)
    (page : QRect) (final : string * Z) (barcode_value : string) (copies k : Z)
    (w : world) :
  printable barcode_value ->
  exists w' ev,
    render_copy size show_price page final barcode_value copies k w = (w', ev, None)
    /\ path_exists (temp_path barcode_value) w'
       = negb (remove_ok (temp_path barcode_value)).
Proof.
  intros Hp. destruct (remove_ok (temp_path barcode_value)) eqn:Hrm.
  - destruct Hp as (Hr & Hd & Hlen).
    destruct (render_copy_succeeds size show_price page final barcode_value copies k w
                Hr Hd Hlen) as (w' & ev & Hrun).
    exists w', ev. split; [exact Hrun|].
    now apply (painted_copy_removes_file size show_price page final _ copies k w w' ev).
  - now apply failed_removal_is_swallowed.
Qed.

Lemma temporary_file_cleanup_witness :
  exists w' ev,
    @render_copy reliable_host Small true small_page ("CB00000001", 1)
      "CB00000001" 1 0 shop = (w', ev, None)
    /\ path_exists "barcodes/temp_barcode_CB00000001.png.png" w' = false.
Proof.
  apply (@temporary_file_cleanup reliable_host Small true small_page
           ("CB00000001", 1) "CB00000001" 1 0 shop).
  repeat constructor.
Defined.

(** * Further properties: colours, the table, the printed list, the barcode
      dialog and the export *)

Lemma in_all_ascii (a : ascii) : In a all_ascii.
Proof.
  unfold all_ascii. apply in_map_iff. exists (nat_of_ascii a). split.
  - apply ascii_nat_embedding.
  - apply in_seq. pose proof (nat_ascii_bounded a). lia.
Qed.

Lemma channel_table :
  forallb (fun a => forallb (channel_checked a) all_ascii) all_ascii = true.
Proof. vm_compute. reflexivity. Qed.

Lemma channel_darkened (a b : ascii) (c : Z) :
  channel a b = Some c ->
  PyFmt.int_of_hex (String a (String b EmptyString)) = Some c
  /\ darken_channel default_factor c = inr (4 * c / 5).
Proof.
  intros Hc.
  pose proof channel_table as H.
  rewrite forallb_forall in H. specialize (H a (in_all_ascii a)).
  rewrite forallb_forall in H. specialize (H b (in_all_ascii b)).
  unfold channel_checked in H. rewrite Hc in H.
  destruct (PyFmt.int_of_hex _) as [c'|]; [|discriminate].
  destruct (darken_channel default_factor c) as [e|v]; [discriminate|].
  apply andb_true_iff in H as [H1 H2].
  apply Z.eqb_eq in H1, H2. now subst.
Qed.

Lemma hex_not_hash (a : ascii) (v : N) :
  PyFmt.hex_val a = Some v -> Ascii.eqb a "#" = false.
Proof.
  destruct (Ascii.eqb_spec a "#") as [->|]; [discriminate|reflexivity].
Qed.

Lemma lstrip_hashes (k : nat) (a : ascii) (s : string) :
  Ascii.eqb a "#" = false ->
  lstrip_hash (hashes k ++ String a s) = String a s.
Proof.
  intros Ha. induction k as [|k IH]; cbn.
  - now rewrite Ha.
  - exact IH.
Qed.

(** X7.  With the default factor, a colour written with six hexadecimal
    digits (in either case, after any number of hash signs, whatever
    follows the sixth digit) is darkened channel by channel: each channel
    [c] becomes the integer part of [4c/5], printed on two lower-case
    digits after one hash sign. *)
Theorem darken_color_default (k : nat) (a1 a2 a3 a4 a5 a6 : ascii)
    (rest : string) (r g b : Z) :
  channel a1 a2 = Some r ->
  channel a3 a4 = Some g ->
  channel a5 a6 = Some b ->
  darken_color
    (hashes k ++ String a1 (String a2 (String a3 (String a4 (String a5 (String a6 rest))))))
    default_factor
  = inr ("#" ++ PyFmt.format_02x (4 * r / 5) ++ PyFmt.format_02x (4 * g / 5)
             ++ PyFmt.format_02x (4 * b / 5)).
Proof.
  intros Hr Hg Hb.
  assert (Ascii.eqb a1 "#" = false) as H1.
  { unfold channel in Hr. destruct (PyFmt.hex_val a1) eqn:E; [|discriminate].
    exact (hex_not_hash _ _ E). }
  unfold darken_color. rewrite (lstrip_hashes k a1 _ H1).
  cbn [substring].
  replace (substring 0 0 rest) with "" by now destruct rest.
  destruct (channel_darkened _ _ _ Hr) as [-> ->].
  destruct (channel_darkened _ _ _ Hg) as [-> ->].
  destruct (channel_darkened _ _ _ Hb) as [-> ->].
  reflexivity.
Qed.

Lemma darken_color_default_witness :
  darken_color "#4CAF50" default_factor = inr "#3c8c40".
Proof.
  exact (darken_color_default 1 "4" "C" "A" "F" "5" "0" "" 76 175 80
           eq_refl eq_refl eq_refl).
Defined.

(** X8.  A colour with fewer than five characters after its leading hash
    signs, such as the short form [#fff], is not accepted: [darken_color]
    raises ValueError, whatever the factor. *)
Theorem darken_color_short (hex_color : string) (factor : F64.float) :
  (String.length (lstrip_hash hex_color) < 5)%nat ->
  darken_color hex_color factor = inl ValueError.
Proof.
  intros Hlen. unfold darken_color.
  assert (substring 4 2 (lstrip_hash hex_color) = "") as ->.
  { destruct (lstrip_hash hex_color) as [|c1 [|c2 [|c3 [|c4 [|c5 s]]]]];
      try reflexivity.
    cbn in Hlen. lia. }
  change (PyFmt.int_of_hex "") with (@None Z).
  destruct (PyFmt.int_of_hex (substring 0 2 _)); [|reflexivity].
  destruct (PyFmt.int_of_hex (substring 2 2 _)); reflexivity.
Qed.

Lemma darken_color_short_witness :
  darken_color "#fff" default_factor = inl ValueError.
Proof. apply darken_color_short. cbn. lia. Defined.

(** ** The quantity cell reads back *)

Lemma remove_commas_group (k : nat) (s : string) :
  PyStr.remove_commas (PyFmt.group k s) = PyStr.remove_commas s.
Proof.
  revert k. induction s as [|a s IH]; intros k; [reflexivity|].
  destruct k as [|k]; cbn [PyFmt.group PyStr.remove_commas].
  - change (Ascii.eqb "," ",") with true. cbn iota.
    destruct (Ascii.eqb a ","); now rewrite IH.
  - destruct (Ascii.eqb a ","); now rewrite IH.
Qed.

Lemma digit_not_comma (a : ascii) :
  PyConv.is_digit a = true -> Ascii.eqb a "," = false.
Proof. destruct (Ascii.eqb_spec a ",") as [->|]; [discriminate|reflexivity]. Qed.

Lemma digit_not_space (a : ascii) :
  PyConv.is_digit a = true -> PyStr.is_space a = false.
Proof.
  unfold PyConv.is_digit, PyStr.is_space. intros H.
  apply andb_true_iff in H as [H1 H2].
  apply Nat.leb_le in H1, H2.
  apply orb_false_iff. split; apply andb_false_iff.
  - right. apply Nat.leb_gt. lia.
  - right. apply Nat.leb_gt. lia.
Qed.

Lemma digit_not_sign (a : ascii) :
  PyConv.is_digit a = true -> Ascii.eqb a "-" = false /\ Ascii.eqb a "+" = false.
Proof.
  split; [destruct (Ascii.eqb_spec a "-") as [->|]|destruct (Ascii.eqb_spec a "+") as [->|]];
    try reflexivity; discriminate.
Qed.

Lemma remove_commas_digits (s : string) :
  digit_string s -> PyStr.remove_commas s = s.
Proof.
  unfold digit_string. induction s as [|a s IH]; [reflexivity|].
  cbn. intros H. apply andb_true_iff in H as [Ha Hs].
  now rewrite (digit_not_comma a Ha), IH.
Qed.

Lemma rstrip_digits (s : string) : digit_string s -> PyStr.rstrip s = s.
Proof.
  unfold digit_string. induction s as [|a s IH]; [reflexivity|].
  cbn. intros H. apply andb_true_iff in H as [Ha Hs].
  rewrite (IH Hs), (digit_not_space a Ha). now destruct s.
Qed.

Lemma rstrip_cons (c : ascii) (s : string) :
  PyStr.rstrip s = s -> s <> "" -> PyStr.rstrip (String c s) = String c s.
Proof. intros H Hne. cbn [PyStr.rstrip]. rewrite H. now destruct s. Qed.

Lemma digitpart_digits (after : bool) (s : string) :
  digit_string s ->
  PyConv.digitpart after s = (map PyConv.digit_val (list_ascii_of_string s), "").
Proof.
  unfold digit_string. revert after. induction s as [|a s IH]; intros after; [reflexivity|].
  cbn. intros H. apply andb_true_iff in H as [Ha Hs].
  now rewrite Ha, (IH true Hs).
Qed.

Lemma uint_digit_string (d : Decimal.uint) :
  digit_string (NilEmpty.string_of_uint d).
Proof. unfold digit_string. induction d; cbn; auto. Qed.

Lemma value_acc (d : Decimal.uint) (acc : positive) :
  fold_left (fun a x => 10 * a + x)%N
    (map PyConv.digit_val (list_ascii_of_string (NilEmpty.string_of_uint d))) (Npos acc)
  = Npos (Pos.of_uint_acc d acc).
Proof.
  revert acc.
  induction d; intros acc;
    cbn [NilEmpty.string_of_uint list_ascii_of_string map fold_left Pos.of_uint_acc];
    try reflexivity;
    rewrite <- IHd; f_equal; vm_compute PyConv.digit_val; lia.
Qed.

Lemma value_uint (d : Decimal.uint) :
  PyConv.value (map PyConv.digit_val (list_ascii_of_string (NilEmpty.string_of_uint d)))
  = Pos.of_uint d.
Proof.
  unfold PyConv.value.
  induction d;
    cbn [NilEmpty.string_of_uint list_ascii_of_string map fold_left Pos.of_uint];
    try reflexivity; try exact IHd;
    rewrite <- value_acc; f_equal.
Qed.

Lemma int_of_digits (p : positive) (neg : bool) :
  PyConv.int_of_string
    ((if neg then "-" else "") ++ NilEmpty.string_of_uint (Pos.to_uint p))
  = Some (if neg then Zneg p else Zpos p).
Proof.
  pose proof (uint_digit_string (Pos.to_uint p)) as Hd.
  assert (NilEmpty.string_of_uint (Pos.to_uint p) <> "") as Hne.
  { intros E. apply (f_equal NilEmpty.uint_of_string) in E.
    rewrite NilEmpty.usu in E. cbn in E. injection E as E.
    revert E. apply Unsigned.to_uint_nonnil. }
  destruct (NilEmpty.string_of_uint (Pos.to_uint p)) as [|a s] eqn:E; [contradiction|].
  assert (PyConv.is_digit a = true) as Ha.
  { unfold digit_string in Hd. cbn in Hd. now apply andb_true_iff in Hd as [? _]. }
  unfold PyConv.int_of_string, PyStr.strip.
  assert (PyStr.lstrip ((if neg then "-" else "") ++ String a s)
          = (if neg then "-" else "") ++ String a s) as ->.
  { destruct neg; cbn; [reflexivity|]. now rewrite (digit_not_space a Ha). }
  assert (PyStr.rstrip ((if neg then "-" else "") ++ String a s)
          = (if neg then "-" else "") ++ String a s) as ->.
  { destruct neg.
    - apply rstrip_cons; [apply (rstrip_digits _ Hd)|discriminate].
    - apply (rstrip_digits _ Hd). }
  assert (PyConv.sign ((if neg then "-" else "") ++ String a s) = (neg, String a s)) as ->.
  { destruct neg; [reflexivity|]. cbn.
    destruct (digit_not_sign a Ha) as [-> ->]. reflexivity. }
  rewrite (digitpart_digits false _ Hd).
  pose proof (value_uint (Pos.to_uint p)) as Hv. rewrite E in Hv.
  cbn [list_ascii_of_string map] in *. rewrite Hv.
  rewrite Unsigned.of_to. now destruct neg.
Qed.

(** X9.  The quantity shown in the table reads back: removing the commas
    from [f"{n:,}"] and reading the digits with [int], as [save_product]
    and the import do with a quantity, gives [n] again. *)
Theorem quantity_cell_reads_back (n : Z) :
  PyConv.int_of_string (PyStr.remove_commas (PyFmt.format_int n)) = Some n.
Proof.
  unfold PyFmt.format_int, PyFmt.grouped.
  destruct n as [|p|p]; [reflexivity| |].
  - cbn [Z.ltb Z.compare Z.abs append]. rewrite remove_commas_group.
    rewrite str_of_int_pos, (remove_commas_digits _ (uint_digit_string _)).
    exact (int_of_digits p false).
  - cbn [Z.ltb Z.compare Z.abs append PyStr.remove_commas].
    change (Ascii.eqb "-" ",") with false. cbn iota.
    rewrite remove_commas_group.
    rewrite str_of_int_pos, (remove_commas_digits _ (uint_digit_string _)).
    exact (int_of_digits p true).
Qed.

(** ** Searching the table *)

Lemma like_percent (s : string) : Sql.like_from "%" s = true.
Proof.
  cbn [Sql.like_from]. change (Ascii.eqb "%" "%") with true. cbn iota.
  induction s as [|a s IH]; [reflexivity|].
  cbn. exact IH.
Qed.

Lemma like_any (p s : string) :
  Sql.like_from (String "%" p) s
  = Sql.like_from p s
    || match s with
       | EmptyString => false
       | String _ s' => Sql.like_from (String "%" p) s'
       end.
Proof. destruct s; reflexivity. Qed.

Lemma like_char (c : ascii) (p s : string) :
  Ascii.eqb c "%" = false ->
  Sql.like_from (String c p) s
  = match s with
    | EmptyString => false
    | String d s' =>
        (Ascii.eqb c "_" || Ascii.eqb (PyConv.lower c) (PyConv.lower d))
        && Sql.like_from p s'
    end.
Proof. intros H. destruct s; cbn [Sql.like_from]; now rewrite H. Qed.

Lemma lower_percent (d : ascii) :
  PyConv.lower d = "%"%char -> d = "%"%char.
Proof.
  intros H.
  assert (forallb (fun d => negb (Ascii.eqb (PyConv.lower d) "%") || Ascii.eqb d "%")
                  all_ascii = true) as Hall by (vm_compute; reflexivity).
  rewrite forallb_forall in Hall. specialize (Hall d (in_all_ascii d)).
  rewrite H in Hall. cbn in Hall. now apply Ascii.eqb_eq.
Qed.

(** A pattern that ends in [%] matches every text it is a prefix of. *)
Lemma like_prefix_complete (t s : string) :
  starts_with (PyConv.lowercase t) (PyConv.lowercase s) = true ->
  Sql.like_from (t ++ "%") s = true.
Proof.
  revert s. induction t as [|c t IH]; intros s H.
  - apply like_percent.
  - destruct s as [|d s]; [discriminate|].
    cbn [PyConv.lowercase starts_with] in H.
    apply andb_true_iff in H as [Hcd Hts]. apply Ascii.eqb_eq in Hcd.
    cbn [append].
    destruct (Ascii.eqb_spec c "%") as [->|Hc].
    + rewrite like_any. apply orb_true_iff. right.
      rewrite like_any. apply orb_true_iff. left. now apply IH.
    + rewrite like_char by now apply Ascii.eqb_neq.
      rewrite Hcd, Ascii.eqb_refl, orb_true_r. now apply IH.
Qed.

(** Without wildcards it matches nothing else. *)
Lemma like_prefix_exact (t s : string) :
  wildcard_free t ->
  Sql.like_from (t ++ "%") s
  = starts_with (PyConv.lowercase t) (PyConv.lowercase s).
Proof.
  unfold wildcard_free. revert s. induction t as [|c t IH]; intros s H.
  - rewrite like_percent. now destruct s.
  - cbn in H. apply andb_true_iff in H as [Hc Ht].
    apply negb_true_iff, orb_false_iff in Hc as [Hc1 Hc2].
    cbn [append]. rewrite (like_char c _ s Hc1), Hc2.
    destruct s as [|d s]; [reflexivity|].
    cbn [PyConv.lowercase starts_with orb]. now rewrite IH.
Qed.

Lemma like_contains_complete (t s : string) :
  contains (PyConv.lowercase t) (PyConv.lowercase s) = true ->
  Sql.like_from (String "%" (t ++ "%")) s = true.
Proof.
  induction s as [|d s IH]; intros H; rewrite like_any.
  - cbn [PyConv.lowercase contains] in H. rewrite orb_false_r in H.
    rewrite (like_prefix_complete t "" H). reflexivity.
  - cbn [PyConv.lowercase contains] in H. apply orb_true_iff in H as [H|H].
    + now rewrite (like_prefix_complete t (String d s) H).
    + rewrite (IH H). apply orb_true_r.
Qed.

Lemma like_contains_exact (t s : string) :
  wildcard_free t ->
  Sql.like_from (String "%" (t ++ "%")) s
  = contains (PyConv.lowercase t) (PyConv.lowercase s).
Proof.
  intros Ht. induction s as [|d s IH]; rewrite like_any.
  - rewrite (like_prefix_exact t "" Ht). reflexivity.
  - rewrite (like_prefix_exact t _ Ht), IH. reflexivity.
Qed.

Lemma c_string_pattern (t : string) :
  nul_free t -> Sql.c_string (String "%" (t ++ "%")) = String "%" (t ++ "%").
Proof.
  unfold nul_free. intros H. cbn [Sql.c_string].
  change (Ascii.eqb "%" "000") with false. cbn iota. f_equal.
  induction t as [|a t IH]; [reflexivity|].
  cbn [append Sql.c_string] in *.
  destruct (Ascii.eqb a "000"); [discriminate|].
  injection H as H. now rewrite IH.
Qed.

Lemma string_length_app (a b : string) :
  String.length (a ++ b) = (String.length a + String.length b)%nat.
Proof. induction a as [|c a IH]; cbn; congruence. Qed.

Section SearchProperties.

Context {limits : Limits}.

(** X10.  A search for a term without wildcard characters shows exactly the
    products whose name or barcode contains the term, upper and lower case
    of the ASCII letters being the same, in the order of the catalog. *)
Theorem search_shows_the_matches (text : string) (w : world) :
  PyStr.strip text <> "" ->
  nul_free (PyStr.strip text) ->
  wildcard_free (PyStr.strip text) ->
  (N.of_nat (String.length (PyStr.strip text)) + 2 <= like_pattern_length)%N ->
  Forall (fun r => nul_free (Store.name r) /\ nul_free (Store.barcode r))
         (Store.rows (db w)) ->
  search_products text w
  = Some (map (display w)
            (filter (fun r => contains_nocase (PyStr.strip text) (Store.name r)
                              || contains_nocase (PyStr.strip text) (Store.barcode r))
                    (Store.rows (db w)))).
Proof.
  intros Hne Hnul Hwild Hlen Hrows. unfold search_products.
  destruct (PyStr.strip text) as [|a term] eqn:E; [contradiction|].
  cbn [PyStr.truthy negb].
  assert ((like_pattern_length <? N.of_nat (String.length ("%" ++ String a term ++ "%")))%N
          = false) as ->.
  { apply N.ltb_ge. cbn [append String.length].
    rewrite string_length_app. cbn [String.length] in *. lia. }
  do 2 f_equal. apply filter_ext_in. intros r Hr.
  rewrite Forall_forall in Hrows. destruct (Hrows r Hr) as [Hn Hb].
  unfold Sql.like, contains_nocase. cbn [append].
  change (String a (term ++ "%")) with (String a term ++ "%").
  rewrite (c_string_pattern (String a term) Hnul), Hn, Hb.
  now rewrite !(like_contains_exact (String a term) _ Hwild).
Qed.

(** X11.  Whatever the term, wildcard characters included, a search never
    hides a product whose name or barcode contains the term as it was
    typed. *)
Theorem search_never_hides (text : string) (w : world) (r : Store.product) :
  PyStr.strip text <> "" ->
  nul_free (PyStr.strip text) ->
  (N.of_nat (String.length (PyStr.strip text)) + 2 <= like_pattern_length)%N ->
  In r (Store.rows (db w)) ->
  nul_free (Store.name r) ->
  nul_free (Store.barcode r) ->
  contains_nocase (PyStr.strip text) (Store.name r)
  || contains_nocase (PyStr.strip text) (Store.barcode r) = true ->
  exists table, search_products text w = Some table /\ In (display w r) table.
Proof.
  intros Hne Hnul Hlen Hr Hn Hb Hin. unfold search_products.
  destruct (PyStr.strip text) as [|a term] eqn:E; [contradiction|].
  cbn [PyStr.truthy negb].
  assert ((like_pattern_length <? N.of_nat (String.length ("%" ++ String a term ++ "%")))%N
          = false) as ->.
  { apply N.ltb_ge. cbn [append String.length].
    rewrite string_length_app. cbn [String.length] in *. lia. }
  eexists. split; [reflexivity|].
  apply in_map, filter_In. split; [assumption|].
  unfold Sql.like, contains_nocase in *. cbn [append].
  change (String a (term ++ "%")) with (String a term ++ "%").
  rewrite (c_string_pattern (String a term) Hnul), Hn, Hb.
  apply orb_true_iff in Hin as [H|H];
    rewrite (like_contains_complete (String a term) _ H);
    [reflexivity|apply orb_true_r].
Qed.

End SearchProperties.

Lemma search_shows_the_matches_witness :
  @search_products default_limits " cof " cafe = Some [display cafe coffee].
Proof.
  rewrite (@search_shows_the_matches default_limits " cof " cafe).
  - reflexivity.
  - discriminate.
  - reflexivity.
  - reflexivity.
  - vm_compute. discriminate.
  - repeat constructor.
Defined.

Lemma search_never_hides_witness :
  exists table,
    @search_products default_limits "50%" cafe = Some table
    /\ In (display cafe tea) table.
Proof.
  apply (@search_never_hides default_limits "50%" cafe tea).
  - discriminate.
  - reflexivity.
  - vm_compute. discriminate.
  - left. reflexivity.
  - reflexivity.
  - reflexivity.
  - reflexivity.
Defined.

(** ** The table and the actions on its selected row *)

Lemma find_by_barcode (l : list Store.product) (r : Store.product) :
  NoDup (map Store.barcode l) -> In r l ->
  find (fun x => String.eqb (Store.barcode x) (Store.barcode r)) l = Some r.
Proof.
  induction l as [|x l IH]; intros Hnd Hin; [contradiction|].
  inversion Hnd as [|? ? Hnotin Hnd']; subst. cbn [find].
  destruct Hin as [->|Hin].
  - now rewrite String.eqb_refl.
  - destruct (String.eqb_spec (Store.barcode x) (Store.barcode r)) as [E|E].
    + exfalso. apply Hnotin. rewrite E. now apply in_map.
    + now apply IH.
Qed.

Section TableProperties.

Context {limits : Limits}.

(** X12.  Whatever the table shows, the whole catalog or the result of a
    search, each of its rows displays a product of the catalog and acts on
    that very product: the barcode cell of the row leads [edit_product] to
    it, and the price tag printed for the row carries its sale price, with
    two decimals, and its name. *)
Theorem shown_row_acts_on_its_product (text : string) (w : world)
    (table : list table_row) (i : nat) (row : table_row) :
  NoDup (map Store.barcode (Store.rows (db w))) ->
  search_products text w = Some table ->
  nth_error table i = Some row ->
  exists r, In r (Store.rows (db w))
            /\ row = display w r
            /\ edit_product (cell_barcode row) (db w) = Some r
            /\ forall page,
                 tag_texts (print_price (Some row) true true page)
                 = [price_cell (Store.sale_price r) ++ " DA"; Store.name r].
Proof.
  intros Hnd Hs Hrow.
  assert (exists l, table = map (display w) l
                    /\ forall r, In r l -> In r (Store.rows (db w)))
    as (l & -> & Hl).
  { unfold search_products in Hs.
    destruct (negb (PyStr.truthy (PyStr.strip text))).
    - injection Hs as <-. exists (Store.rows (db w)). now split.
    - destruct (_ <? _)%N; [discriminate|]. injection Hs as <-.
      eexists. split; [reflexivity|]. intros r Hr. now apply filter_In in Hr. }
  apply nth_error_In, in_map_iff in Hrow as (r & <- & Hr).
  exists r. split; [now apply Hl|]. split; [reflexivity|]. split; [|reflexivity].
  cbn [display cell_barcode]. unfold edit_product, Store.get.
  apply find_by_barcode; [assumption|now apply Hl].
Qed.

End TableProperties.

Lemma shown_row_acts_on_its_product_witness :
  exists r, display cafe coffee = display cafe r
            /\ edit_product "A-7" (db cafe) = Some r
            /\ tag_texts (print_price (Some (display cafe coffee)) true true small_page)
               = ["45.25 DA"; "Coffee"].
Proof.
  destruct (@shown_row_acts_on_its_product default_limits "" cafe
              (load_products cafe) 1 (display cafe coffee))
    as (r & _ & Hrow & Hedit & _).
  - repeat constructor; cbn; intuition discriminate.
  - reflexivity.
  - reflexivity.
  - exists r. split; [exact Hrow|]. split; [exact Hedit|]. vm_compute. reflexivity.
Defined.

(** ** Deleting the selected product *)

Lemma filter_other_barcodes (l : list Store.product) (bc : string) :
  ~ In bc (map Store.barcode l) ->
  filter (fun r => negb (String.eqb (Store.barcode r) bc)) l = l.
Proof.
  induction l as [|x l IH]; intros H; [reflexivity|].
  cbn. destruct (String.eqb_spec (Store.barcode x) bc) as [E|E].
  - exfalso. apply H. left. exact E.
  - cbn. f_equal. apply IH. intros Hin. apply H. now right.
Qed.

Lemma find_other_barcode (l : list Store.product) (bc other : string) :
  other <> bc ->
  find (fun r => String.eqb (Store.barcode r) other)
       (filter (fun r => negb (String.eqb (Store.barcode r) bc)) l)
  = find (fun r => String.eqb (Store.barcode r) other) l.
Proof.
  intros Hneq. induction l as [|x l IH]; [reflexivity|].
  cbn. destruct (String.eqb_spec (Store.barcode x) bc) as [E|E]; cbn.
  - destruct (String.eqb_spec (Store.barcode x) other) as [E'|E']; [congruence|].
    exact IH.
  - destruct (String.eqb (Store.barcode x) other); [reflexivity|exact IH].
Qed.

Lemma removed_others_stay (p q : string) (fs : list string) :
  q <> p ->
  existsb (String.eqb q) (filter (fun x => negb (String.eqb p x)) fs)
  = existsb (String.eqb q) fs.
Proof.
  intros Hneq. induction fs as [|x fs IH]; [reflexivity|].
  cbn. destruct (String.eqb_spec p x) as [E|E]; cbn.
  - destruct (String.eqb_spec q x) as [E'|E']; [congruence|]. exact IH.
  - now rewrite IH.
Qed.

(** X13.  Confirming the deletion of a product of a catalog with distinct
    barcodes removes that product and no other: the other rows keep their
    order, the counter of ids is untouched, every other barcode is looked up
    as before, and no file other than the product's image is touched.  When
    the product is no longer in the database, the deletion raises TypeError
    and changes nothing. *)
Theorem delete_removes_the_selected_product {host : Host} (w : world)
    (pre post : list Store.product) (r : Store.product) :
  Store.rows (db w) = (pre ++ r :: post)%list ->
  NoDup (map Store.barcode (Store.rows (db w))) ->
  (exists w',
      delete_product (Store.barcode r) true w = (w', Deleted)
      /\ Store.rows (db w') = (pre ++ post)%list
      /\ Store.seq (db w') = Store.seq (db w)
      /\ edit_product (Store.barcode r) (db w') = None
      /\ (forall bc, bc <> Store.barcode r ->
                     edit_product bc (db w') = edit_product bc (db w))
      /\ (forall p, Store.image_path r <> Some p ->
                    path_exists p w' = path_exists p w))
  /\ (forall bc, edit_product bc (db w) = None ->
                 delete_product bc true w = (w, DeleteRaised TypeError)).
Proof.
  intros Hrows Hnd. split.
  - assert (In r (Store.rows (db w))) as Hin
      by (rewrite Hrows; apply in_elt).
    pose proof (find_by_barcode _ r Hnd Hin) as Hget.
    unfold delete_product. unfold Store.get at 1. rewrite Hget.
    eexists. split; [reflexivity|].
    assert (~ In (Store.barcode r) (map Store.barcode (pre ++ post))) as Hfree.
    { rewrite Hrows, map_app in Hnd. cbn [map] in Hnd.
      apply NoDup_remove_2 in Hnd. now rewrite map_app. }
    assert (Store.rows (Store.delete (Store.barcode r) (db w)) = (pre ++ post)%list)
      as Hdel.
    { cbn [Store.delete Store.rows]. rewrite Hrows, filter_app. cbn [filter]. rewrite String.eqb_refl. cbn [negb].
      rewrite <- filter_app. now apply filter_other_barcodes. }
    cbn [db files].
    split; [exact Hdel|]. split; [reflexivity|]. split; [|split].
    + unfold edit_product, Store.get. rewrite Hdel.
      destruct (find _ (pre ++ post)) as [x|] eqn:F; [|reflexivity].
      exfalso. apply Hfree. apply find_some in F as [Hx Ex].
      apply String.eqb_eq in Ex. rewrite <- Ex. now apply in_map.
    + intros bc Hbc. unfold edit_product, Store.get. cbn [Store.delete Store.rows].
      now apply find_other_barcode.
    + intros p Hp. unfold path_exists. cbn [files].
      destruct (Store.image_path r) as [q|]; [|reflexivity].
      destruct (PyStr.truthy q && _); [|reflexivity].
      unfold os_remove.
      destruct (remove_ok q && existsb (String.eqb q) (files w)); [|reflexivity].
      apply removed_others_stay. congruence.
  - intros bc Hnone. unfold delete_product.
    unfold edit_product in Hnone. now rewrite Hnone.
Qed.

Lemma delete_removes_the_selected_product_witness :
  exists w',
    @delete_product reliable_host "CB00000001" true cafe = (w', Deleted)
    /\ Store.rows (db w') = [coffee].
Proof.
  destruct (@delete_removes_the_selected_product reliable_host cafe [] [coffee] tea)
    as [(w' & Hdel & Hrows & _) _].
  - reflexivity.
  - repeat constructor; cbn; intuition discriminate.
  - exists w'. split; [exact Hdel|exact Hrows].
Defined.

(** ** A saved product is found again *)

Lemma find_app_fresh (bc : string) (l : list Store.product) (r : Store.product) :
  find (fun x => String.eqb (Store.barcode x) bc) (l ++ [r])
  = match find (fun x => String.eqb (Store.barcode x) bc) l with
    | Some x => Some x
    | None => if String.eqb (Store.barcode r) bc then Some r else None
    end.
Proof.
  induction l as [|x l IH]; [reflexivity|].
  cbn. now destruct (String.eqb (Store.barcode x) bc).
Qed.

Lemma has_barcode_find (bc : string) (d : Store.database) :
  Store.has_barcode bc d = false -> Store.get bc d = None.
Proof.
  unfold Store.has_barcode, Store.get.
  induction (Store.rows d) as [|x l IH]; [reflexivity|].
  cbn. destruct (String.eqb (Store.barcode x) bc); [discriminate|exact IH].
Qed.

Section SaveLookup.

Context {builtins : PyBuiltins}.

Lemma read_form_fields today image_path f d b :
  read_form today image_path f d = inr b ->
  Store.b_name b = PyStr.strip (f_name f)
  /\ py_int (PyStr.remove_commas (PyStr.strip (f_qty f))) = Some (Store.b_quantity b)
  /\ py_float (PyStr.remove_commas (PyStr.strip (f_purchase f)))
     = Some (Store.b_purchase_price b)
  /\ py_float (PyStr.remove_commas (PyStr.strip (f_sale f)))
     = Some (Store.b_sale_price b)
  /\ Store.b_expiry_date b = date_to_string (f_expiry f)
  /\ Store.b_image_path b = Some image_path
  /\ Store.b_supplier_name b = PyStr.strip (f_supplier_name f)
  /\ Store.b_supplier_phone b = PyStr.strip (f_supplier_phone f).
Proof.
  unfold read_form. intros H. break_hyp H; injection H as <-; cbn; repeat split.
Qed.

(** X14.  A product added through the form is found again: the new row is
    the last of the table, carries the next id, the texts of the form with
    their outer blanks removed, the numbers [int] and [float] read in the
    quantity and price fields, and the typed barcode or the allocated one;
    [edit_product] finds it under that barcode, and every other barcode is
    looked up as before; the table shows it on a new last row. *)
Theorem saved_product_is_found today image_path f d d' :
  save_product today image_path f None d = (d', Saved) ->
  exists r,
    Store.rows d' = (Store.rows d ++ [r])%list
    /\ Store.id r = Store.next_id d
    /\ Store.name r = PyStr.strip (f_name f)
    /\ py_int (PyStr.remove_commas (PyStr.strip (f_qty f))) = Some (Store.quantity r)
    /\ py_float (PyStr.remove_commas (PyStr.strip (f_purchase f)))
       = Some (Store.purchase_price r)
    /\ py_float (PyStr.remove_commas (PyStr.strip (f_sale f)))
       = Some (Store.sale_price r)
    /\ Store.expiry_date r = date_to_string (f_expiry f)
    /\ Store.barcode r
       = (if PyStr.truthy (PyStr.strip (f_barcode f)) then PyStr.strip (f_barcode f)
          else allocate_barcode (Store.max_id d))
    /\ Store.image_path r = Some image_path
    /\ edit_product (Store.barcode r) d' = Some r
    /\ (forall bc, bc <> Store.barcode r -> edit_product bc d' = edit_product bc d)
    /\ (forall fs,
           load_products {| db := d'; files := fs |}
           = (load_products {| db := d; files := fs |}
              ++ [display {| db := d'; files := fs |} r])%list).
Proof.
  intros H. apply save_product_saved in H as (b & Hform & Hins).
  apply insert_ok in Hins as [Hfree ->].
  pose proof (read_form_barcode _ _ _ _ _ Hform) as Hbc.
  destruct (read_form_fields _ _ _ _ _ Hform)
    as (Hn & Hq & Hp & Hs & He & Hi & _).
  exists (Store.row_of (Store.next_id d) b). cbn [Store.rows].
  repeat (split; [first [reflexivity|assumption]|]).
  change (Store.barcode (Store.row_of (Store.next_id d) b)) with (Store.b_barcode b).
  unfold edit_product, Store.get. cbn [Store.rows]. split.
  - rewrite find_app_fresh.
    pose proof (has_barcode_find _ _ Hfree) as Hnone. unfold Store.get in Hnone.
    rewrite Hnone.
    change (Store.barcode (Store.row_of (Store.next_id d) b)) with (Store.b_barcode b).
    now rewrite String.eqb_refl.
  - split.
    + intros bc Hneq. rewrite find_app_fresh.
      destruct (find _ (Store.rows d)); [reflexivity|].
      change (Store.barcode (Store.row_of (Store.next_id d) b)) with (Store.b_barcode b).
      destruct (String.eqb_spec (Store.b_barcode b) bc); [congruence|reflexivity].
    + intros fs. unfold load_products. cbn [db Store.rows]. now rewrite map_app.
Qed.

End SaveLookup.

Lemma saved_product_is_found_witness :
  exists r,
    Store.name r = "a" /\ Store.barcode r = "CB00000001"
    /\ edit_product "CB00000001" (added "a" "" Store.empty) = Some r.
Proof.
  destruct (@saved_product_is_found ascii_builtins sample_day "" (sample_form " a " "")
              Store.empty (added "a" "" Store.empty))
    as (r & _ & _ & Hn & _ & _ & _ & _ & Hb & _ & He & _ & _).
  - vm_compute. reflexivity.
  - exists r. split; [exact Hn|]. split; [exact Hb|].
    rewrite Hb in He. exact He.
Defined.

(** ** Ids are never given twice *)

Lemma sorted_snoc (l : list Z) (x : Z) :
  StronglySorted Z.lt l -> Forall (fun y => y < x) l ->
  StronglySorted Z.lt (l ++ [x]).
Proof.
  induction 1 as [|y l Hs IH Hy]; intros Hall; cbn.
  - repeat constructor.
  - inversion Hall; subst. constructor; [now apply IH|].
    apply Forall_app. split; [assumption|]. now repeat constructor.
Qed.

Lemma sorted_filter (f : Store.product -> bool) (l : list Store.product) :
  StronglySorted Z.lt (map Store.id l) ->
  StronglySorted Z.lt (map Store.id (filter f l)).
Proof.
  induction l as [|x l IH]; intros H; [constructor|].
  cbn in *. inversion H as [|? ? Hs Hall]; subst.
  destruct (f x); [|now apply IH]. cbn. constructor; [now apply IH|].
  rewrite Forall_forall in *. intros y Hy. apply Hall.
  apply in_map_iff in Hy as (r & <- & Hr). apply filter_In in Hr as [Hr _].
  now apply in_map.
Qed.

Lemma overwrite_id old b x : Store.id (overwrite old b x) = Store.id x.
Proof. unfold overwrite. now destruct (String.eqb (Store.barcode x) old). Qed.

Lemma next_id_above (d : Store.database) : Store.seq d < Store.next_id d.
Proof. unfold Store.next_id. lia. Qed.

Lemma not_reused_refl (d : Store.database) : ids_not_reused d d.
Proof.
  split; [lia|]. apply Forall_forall. intros r Hr. left. now apply in_map.
Qed.

Lemma not_reused_trans (d1 d2 d3 : Store.database) :
  ids_not_reused d1 d2 -> ids_not_reused d2 d3 -> ids_not_reused d1 d3.
Proof.
  intros [Hs12 H12] [Hs23 H23]. split; [lia|].
  rewrite Forall_forall in *. intros r Hr.
  destruct (H23 r Hr) as [Hin|Hnew]; [|right; lia].
  apply in_map_iff in Hin as (r2 & E & Hr2). rewrite <- E. now apply H12.
Qed.

Lemma keyed_insert b d d' :
  keyed d -> Store.insert b d = Store.Ok d' -> keyed d' /\ ids_not_reused d d'.
Proof.
  intros [Hs Hb] Hins. apply insert_ok in Hins as [_ ->].
  pose proof (next_id_above d) as Hn. repeat split; cbn [Store.rows Store.seq].
  - rewrite map_app. cbn. apply sorted_snoc; [assumption|].
    rewrite Forall_map. eapply Forall_impl; [|exact Hb]. cbn. intros r Hr. lia.
  - apply Forall_app. split.
    + eapply Forall_impl; [|exact Hb]. cbn. intros r Hr. lia.
    + constructor; [|constructor]. cbn. lia.
  - lia.
  - apply Forall_app. split.
    + apply Forall_forall. intros r Hr. left. now apply in_map.
    + constructor; [|constructor]. right. cbn. lia.
Qed.

Lemma keyed_update old b d d' :
  keyed d -> Store.update old b d = Store.Ok d' -> keyed d' /\ ids_not_reused d d'.
Proof.
  intros [Hs Hb] Hupd.
  apply update_ok in Hupd as [[_ ->]|(r0 & _ & _ & ->)].
  - split; [now split|apply not_reused_refl].
  - assert (map Store.id (map (overwrite old b) (Store.rows d))
            = map Store.id (Store.rows d)) as Hids.
    { rewrite map_map. apply map_ext. intros x. apply overwrite_id. }
    repeat split; cbn [Store.rows Store.seq].
    + fold (overwrite old b). now rewrite Hids.
    + fold (overwrite old b). rewrite Forall_map.
      eapply Forall_impl; [|exact Hb]. cbn. intros r Hr. now rewrite overwrite_id.
    + lia.
    + fold (overwrite old b). rewrite Forall_map. apply Forall_forall.
      intros r Hr. left. rewrite overwrite_id. now apply in_map.
Qed.

Lemma keyed_delete bc d :
  keyed d -> keyed (Store.delete bc d) /\ ids_not_reused d (Store.delete bc d).
Proof.
  intros [Hs Hb]. repeat split; cbn [Store.delete Store.rows Store.seq].
  - now apply sorted_filter.
  - rewrite Forall_forall in *. intros r Hr. apply filter_In in Hr as [Hr _]. auto.
  - lia.
  - apply Forall_forall. intros r Hr. apply filter_In in Hr as [Hr _].
    left. now apply in_map.
Qed.

Section Keys.

Context {builtins : PyBuiltins}.

Lemma keyed_import_rows c body d i e :
  keyed d ->
  keyed (fst (import_rows c body d i e))
  /\ ids_not_reused d (fst (import_rows c body d i e)).
Proof.
  revert d i e. induction body as [|row rest IH]; intros d i e Hk; cbn [import_rows].
  - split; [assumption|apply not_reused_refl].
  - destruct (import_row c row d) as [d1| |x] eqn:E.
    + apply import_row_inserted in E as (b & Hins & _).
      destruct (keyed_insert b d d1 Hk Hins) as [Hk1 Hn1].
      destruct (IH d1 (i + 1) e Hk1) as [Hk2 Hn2].
      split; [assumption|]. eapply not_reused_trans; eassumption.
    + now apply IH.
    + split; [assumption|apply not_reused_refl].
Qed.

(** X15.  The ids of the products grow along the table and an id is never
    given twice: through every save, import and deletion the ids stay in
    increasing order below the AUTOINCREMENT counter, the counter never
    goes back, and a row of the new state either keeps the id of a row of
    the old one or carries an id above the old counter, an id no product
    ever had. *)
Theorem ids_are_never_reused (d : Store.database) :
  keyed d ->
  (forall today image_path f record,
      keyed (fst (save_product today image_path f record d))
      /\ ids_not_reused d (fst (save_product today image_path f record d)))
  /\ (forall file,
         keyed (fst (import_from_csv file d))
         /\ ids_not_reused d (fst (import_from_csv file d)))
  /\ (forall (host : Host) bc yes fs,
         keyed (db (fst (delete_product bc yes {| db := d; files := fs |})))
         /\ ids_not_reused d
              (db (fst (delete_product bc yes {| db := d; files := fs |})))).
Proof.
  intros Hk.
  assert (keyed d /\ ids_not_reused d d) as Hsame
    by (split; [assumption|apply not_reused_refl]).
  split; [|split].
  - intros today image_path f record. unfold save_product.
    destruct (read_form today image_path f d) as [w|b]; [assumption|].
    destruct record as [old|].
    + destruct (Store.update old b d) as [d1|x] eqn:E.
      * now apply (keyed_update old b d d1).
      * now destruct x.
    + destruct (Store.insert b d) as [d1|x] eqn:E.
      * now apply (keyed_insert b d d1).
      * now destruct x.
  - intros file. unfold import_from_csv. destruct file as [|headers body]; [assumption|].
    destruct (resolve_columns headers) as [c|]; [|assumption].
    now apply keyed_import_rows.
  - intros host bc yes fs. unfold delete_product. destruct yes; [|assumption].
    cbn [db]. destruct (Store.get bc d); [|assumption].
    cbn [fst db]. now apply keyed_delete.
Qed.

End Keys.

Lemma ids_are_never_reused_witness :
  keyed gap_catalog
  /\ Store.rows (fst (save_product sample_day "" (sample_form "c" "") None gap_catalog))
     <> []
  /\ ids_not_reused gap_catalog
       (fst (save_product sample_day "" (sample_form "c" "") None gap_catalog)).
Proof.
  assert (keyed gap_catalog) as Hk.
  { split; vm_compute; repeat constructor; discriminate. }
  split; [exact Hk|]. split; [vm_compute; discriminate|].
  destruct (@ids_are_never_reused ascii_builtins gap_catalog Hk) as [Hsave _].
  apply Hsave.
Defined.

(** ** Every product of the catalog can be sold *)

Lemma free_of_app (p : ascii -> bool) (a b : string) :
  free_of p (a ++ b) = free_of p a && free_of p b.
Proof.
  unfold free_of. induction a as [|c a IH]; [reflexivity|].
  cbn. now rewrite IH, andb_assoc.
Qed.

Lemma split_on_free (c : ascii) (s : string) :
  free_of (Ascii.eqb c) s = true -> PyConv.split_on c s = [s].
Proof.
  unfold free_of. induction s as [|a s IH]; [reflexivity|].
  cbn. intros H. apply andb_true_iff in H as [Ha Hs].
  apply negb_true_iff in Ha. rewrite Ascii.eqb_sym in Ha.
  now rewrite Ha, (IH Hs).
Qed.

Lemma split_on_first (c : ascii) (a b : string) :
  free_of (Ascii.eqb c) a = true ->
  PyConv.split_on c (a ++ String c b) = a :: PyConv.split_on c b.
Proof.
  unfold free_of. induction a as [|x a IH].
  - intros _. cbn. now rewrite Ascii.eqb_refl.
  - cbn. intros H. apply andb_true_iff in H as [Hx Ha].
    apply negb_true_iff in Hx. rewrite Ascii.eqb_sym in Hx.
    now rewrite Hx, (IH Ha).
Qed.

Lemma rstrip_free (s : string) :
  free_of PyStr.is_space s = true -> PyStr.rstrip s = s.
Proof.
  unfold free_of. induction s as [|a s IH]; [reflexivity|].
  cbn. intros H. apply andb_true_iff in H as [Ha Hs].
  apply negb_true_iff in Ha. rewrite (IH Hs), Ha. now destruct s.
Qed.

Lemma strip_free (s : string) :
  free_of PyStr.is_space s = true -> PyStr.strip s = s.
Proof.
  intros H. unfold PyStr.strip.
  assert (PyStr.lstrip s = s) as ->; [|now apply rstrip_free].
  destruct s as [|a s]; [reflexivity|].
  unfold free_of in H. cbn in H. apply andb_true_iff in H as [Ha _].
  apply negb_true_iff in Ha. cbn. now rewrite Ha.
Qed.

Lemma digits_free_of_space (s : string) :
  digit_string s -> free_of PyStr.is_space s = true.
Proof.
  unfold digit_string, free_of. induction s as [|a s IH]; [reflexivity|].
  cbn. intros H. apply andb_true_iff in H as [Ha Hs].
  now rewrite (digit_not_space a Ha), (IH Hs).
Qed.


Lemma lstrip_head (s : string) :
  match PyStr.lstrip s with
  | EmptyString => True
  | String a _ => PyStr.is_space a = false
  end.
Proof.
  induction s as [|a s IH]; [exact I|].
  cbn. destruct (PyStr.is_space a) eqn:E; [exact IH|exact E].
Qed.

Lemma rstrip_idem (s : string) : PyStr.rstrip (PyStr.rstrip s) = PyStr.rstrip s.
Proof.
  induction s as [|a s IH]; [reflexivity|].
  cbn [PyStr.rstrip]. destruct (PyStr.rstrip s) as [|b r] eqn:E.
  - destruct (PyStr.is_space a) eqn:Ha; [reflexivity|].
    cbn. now rewrite Ha.
  - cbn [PyStr.rstrip] in *. now rewrite IH.
Qed.

Lemma rstrip_keeps_head (a : ascii) (s : string) :
  PyStr.is_space a = false ->
  exists r, PyStr.rstrip (String a s) = String a r.
Proof.
  intros Ha. cbn [PyStr.rstrip]. destruct (PyStr.rstrip s); rewrite ?Ha; eauto.
Qed.

(** [strip] leaves nothing for a second [strip] to remove. *)
Lemma strip_trimmed (s : string) : trimmed (PyStr.strip s).
Proof.
  unfold trimmed, PyStr.strip. pose proof (lstrip_head s) as H.
  destruct (PyStr.lstrip s) as [|a t]; [reflexivity|].
  destruct (rstrip_keeps_head a t H) as (r & E). rewrite E.
  assert (PyStr.lstrip (String a r) = String a r) as -> by (cbn; now rewrite H).
  rewrite <- E. apply rstrip_idem.
Qed.

Lemma optional_field_trimmed (row : list string) (c : option nat) :
  trimmed (optional_field row c).
Proof.
  unfold optional_field. destruct c as [i|]; [|reflexivity].
  destruct (nth_error row i); [apply strip_trimmed|reflexivity].
Qed.

Lemma zeros_free (k : nat) : free_of PyStr.is_space (PyStr.zeros k) = true.
Proof. induction k as [|k IH]; [reflexivity|exact IH]. Qed.

Lemma str_of_int_free (n : Z) : free_of PyStr.is_space (PyStr.str_of_int n) = true.
Proof.
  destruct n as [|p|p]; [reflexivity| |].
  - rewrite str_of_int_pos. apply digits_free_of_space, uint_digit_string.
  - unfold PyStr.str_of_int. cbn [Z.to_int NilZero.string_of_int].
    change (free_of PyStr.is_space (String "-" (NilZero.string_of_uint (Pos.to_uint p))) = true).
    unfold NilZero.string_of_uint.
    destruct (Pos.to_uint p) eqn:E;
      try (rewrite <- E; apply (digits_free_of_space _ (uint_digit_string _))).
    reflexivity.
Qed.

Lemma zfill_free (w : nat) (s : string) :
  free_of PyStr.is_space s = true -> free_of PyStr.is_space (PyStr.zfill w s) = true.
Proof.
  intros H. unfold PyStr.zfill. destruct s as [|a s].
  - apply zeros_free.
  - destruct (Ascii.eqb a "+" || Ascii.eqb a "-").
    + unfold free_of in *. cbn in *. apply andb_true_iff in H as [Ha Hs].
      rewrite Ha. cbn. fold (free_of PyStr.is_space (PyStr.zeros (w - S (String.length s)) ++ s)).
      rewrite free_of_app, zeros_free. exact Hs.
    + now rewrite free_of_app, zeros_free.
Qed.

Lemma allocated_trimmed (n : Z) : trimmed (allocate_barcode n).
Proof.
  apply strip_free. unfold allocate_barcode.
  rewrite free_of_app. apply andb_true_iff. split; [reflexivity|].
  apply zfill_free, str_of_int_free.
Qed.

Lemma price_above_zero (p : F64.float) :
  Store.price_ok p = true -> F64.leb p F64.zero = false ->
  F64.ltb F64.zero p = true.
Proof.
  destruct p as [s|s| |s m e]; try destruct s; cbn; intros; congruence.
Qed.

Lemma truthy_nonempty (s : string) : PyStr.truthy s = true -> s <> "".
Proof. now destruct s. Qed.

Lemma allocated_nonempty (n : Z) : allocate_barcode n <> "".
Proof. discriminate. Qed.

Lemma checked_row_sellable (i : Z) (b : Store.bindings) :
  validated b -> storable b -> sellable (Store.row_of i b).
Proof.
  intros (Hn & Hb & Hq & Hp & Hs & Tn & Tb & Tsn & Tsp) (Hfit & Hpo & Hso).
  unfold sellable. cbn [Store.row_of Store.name Store.barcode Store.quantity
    Store.purchase_price Store.sale_price Store.supplier_name Store.supplier_phone].
  repeat split; try assumption.
  - unfold Store.fits_int64 in Hfit. apply andb_true_iff in Hfit as [_ H].
    now apply Z.ltb_lt in H.
  - now apply price_above_zero.
  - now apply price_above_zero.
Qed.

Lemma insert_storable b d d' : Store.insert b d = Store.Ok d' -> storable b.
Proof.
  unfold Store.insert, storable.
  destruct (Store.fits_int64 _); [|discriminate]. cbn [negb].
  destruct (Store.price_ok (Store.b_purchase_price b)); [|discriminate].
  destruct (Store.price_ok (Store.b_sale_price b)); [|discriminate].
  now intros _.
Qed.

Lemma sellable_insert b d d' :
  Forall sellable (Store.rows d) -> validated b ->
  Store.insert b d = Store.Ok d' -> Forall sellable (Store.rows d').
Proof.
  intros Hd Hb Hins. pose proof (insert_storable _ _ _ Hins) as Hst.
  apply insert_ok in Hins as [_ ->]. cbn [Store.rows].
  apply Forall_app. split; [assumption|].
  constructor; [|constructor]. now apply checked_row_sellable.
Qed.

Lemma sellable_update old b d d' :
  Forall sellable (Store.rows d) -> validated b ->
  Store.update old b d = Store.Ok d' -> Forall sellable (Store.rows d').
Proof.
  intros Hd Hb Hupd.
  assert (Store.rows d' = Store.rows d \/
          (storable b /\ Store.rows d' = map (overwrite old b) (Store.rows d)))
    as [->|[Hst ->]]; [|assumption|].
  { unfold Store.update in Hupd.
    destruct (Store.fits_int64 (Store.b_quantity b)) eqn:Hfit; [|discriminate].
    cbn [negb] in Hupd.
    destruct (filter _ (Store.rows d)) as [|r [|r' l]]; [| |discriminate].
    - injection Hupd as <-. now left.
    - destruct (Store.price_ok (Store.b_purchase_price b)) eqn:Hp; [|discriminate].
      destruct (Store.price_ok (Store.b_sale_price b)) eqn:Hs; [|discriminate].
      cbn [andb negb] in Hupd.
      destruct (existsb _ (Store.rows d)); [discriminate|].
      injection Hupd as <-. right. now repeat split. }
  rewrite Forall_map. eapply Forall_impl; [|exact Hd].
  intros r Hr. unfold overwrite.
  destruct (String.eqb (Store.barcode r) old); [|assumption].
  now apply checked_row_sellable.
Qed.

Lemma sellable_delete bc d :
  Forall sellable (Store.rows d) -> Forall sellable (Store.rows (Store.delete bc d)).
Proof.
  intros Hd. cbn [Store.delete Store.rows]. rewrite Forall_forall in *.
  intros r Hr. apply filter_In in Hr as [Hr _]. auto.
Qed.

Section Sound.

Context {builtins : PyBuiltins}.

Lemma read_form_checked today image_path f d b :
  read_form today image_path f d = inr b -> validated b.
Proof.
  intros H. pose proof (read_form_barcode _ _ _ _ _ H) as Hbc.
  destruct (read_form_prices _ _ _ _ _ H) as (Hp & Hs & _ & Hq).
  destruct (read_form_fields _ _ _ _ _ H) as (Hn & _ & _ & _ & _ & _ & Hsn & Hsp).
  unfold validated. repeat split; try assumption.
  - rewrite Hn. unfold read_form in H.
    destruct (PyStr.strip (f_name f)); [|discriminate].
    cbn in H. discriminate H.
  - rewrite Hbc. destruct (PyStr.truthy _) eqn:E.
    + now apply truthy_nonempty.
    + apply allocated_nonempty.
  - rewrite Hn. apply strip_trimmed.
  - rewrite Hbc. destruct (PyStr.truthy _); [apply strip_trimmed|apply allocated_trimmed].
  - rewrite Hsn. apply strip_trimmed.
  - rewrite Hsp. apply strip_trimmed.
Qed.

Lemma import_row_checked c row d d' :
  import_row c row d = RowInserted d' ->
  exists b, Store.insert b d = Store.Ok d' /\ validated b.
Proof.
  unfold import_row. intros H.
  repeat match type of H with
    | context [match nth_error ?l ?n with _ => _ end] => destruct (nth_error l n) eqn:?
    | context [match py_int ?x with _ => _ end] => destruct (py_int x) eqn:?
    | context [match py_float ?x with _ => _ end] => destruct (py_float x) eqn:?
    | context [if ?x then _ else _] => destruct x eqn:?
    end; try discriminate H;
  match type of H with
  | context [Store.insert ?b d] =>
      exists b; destruct (Store.insert b d) as [d1|e] eqn:E;
        [injection H as <-|destruct e; discriminate H]
  end;
  (split; [reflexivity|]);
  repeat match goal with
    | H : negb _ = false |- _ => apply negb_false_iff in H
    | H : _ && _ = true |- _ => apply andb_true_iff in H as [? ?]
    | H : _ || _ = false |- _ => apply orb_false_iff in H as [? ?]
    end;
  unfold validated;
  cbn [Store.b_name Store.b_barcode Store.b_quantity Store.b_purchase_price
       Store.b_sale_price Store.b_supplier_name Store.b_supplier_phone];
  repeat split;
    try (now apply truthy_nonempty); try apply allocated_nonempty;
    try apply strip_trimmed; try apply optional_field_trimmed;
    try apply allocated_trimmed;
    try assumption;
    try (match goal with H : (_ <? 0) = false |- _ => apply Z.ltb_ge in H; lia end).
Qed.

Lemma sellable_import_rows c body d i e :
  Forall sellable (Store.rows d) ->
  Forall sellable (Store.rows (fst (import_rows c body d i e))).
Proof.
  revert d i e. induction body as [|row rest IH]; intros d i e Hd; cbn [import_rows].
  - assumption.
  - destruct (import_row c row d) as [d1| |x] eqn:E; [|now apply IH|assumption].
    apply IH. apply import_row_checked in E as (b & Hins & Hb).
    now apply (sellable_insert b d d1).
Qed.

(** X16.  Every product of the catalog can be sold, and stays so: when each
    row has a name, a barcode, a non-negative quantity that fits the
    INTEGER column, two prices that are numbers above zero, and a name, a
    barcode and supplier texts without blanks at their ends, the same holds
    after every save, addition or edit, after every import and after every
    deletion, whatever their outcome. *)
Theorem catalog_stays_sellable (d : Store.database) :
  Forall sellable (Store.rows d) ->
  (forall today image_path f record,
      Forall sellable (Store.rows (fst (save_product today image_path f record d))))
  /\ (forall file, Forall sellable (Store.rows (fst (import_from_csv file d))))
  /\ (forall (host : Host) bc yes fs,
         Forall sellable
           (Store.rows (db (fst (delete_product bc yes {| db := d; files := fs |}))))).
Proof.
  intros Hd. split; [|split].
  - intros today image_path f record. unfold save_product.
    destruct (read_form today image_path f d) as [w|b] eqn:Hform; [assumption|].
    apply read_form_checked in Hform.
    destruct record as [old|].
    + destruct (Store.update old b d) as [d1|x] eqn:E.
      * now apply (sellable_update old b d d1).
      * now destruct x.
    + destruct (Store.insert b d) as [d1|x] eqn:E.
      * now apply (sellable_insert b d d1).
      * now destruct x.
  - intros file. unfold import_from_csv. destruct file as [|headers body]; [assumption|].
    destruct (resolve_columns headers) as [c|]; [|assumption].
    now apply sellable_import_rows.
  - intros host bc yes fs. unfold delete_product. destruct yes; [|assumption].
    cbn [db]. destruct (Store.get bc d); [|assumption].
    cbn [fst db]. now apply sellable_delete.
Qed.

End Sound.

Lemma catalog_stays_sellable_witness :
  Forall sellable (Store.rows (db cafe))
  /\ Forall sellable
       (Store.rows (fst (import_from_csv (required_headers :: ten_rows) (db cafe)))).
Proof.
  assert (Forall sellable (Store.rows (db cafe))) as H.
  { repeat constructor; try discriminate; try reflexivity; cbn; lia. }
  split; [exact H|].
  destruct (@catalog_stays_sellable ascii_builtins (db cafe) H) as (_ & Himport & _).
  apply Himport.
Defined.

(** ** The printed product list *)

Lemma tables_app (a b : list list_block) :
  tables (a ++ b) = (tables a ++ tables b)%list.
Proof. unfold tables. apply flat_map_app. Qed.

Lemma page_breaks_app (a b : list list_block) :
  page_breaks (a ++ b) = (page_breaks a + page_breaks b)%nat.
Proof. unfold page_breaks. now rewrite filter_app, length_app. Qed.

Lemma tables_pages (per_page : Z) (l : list Store.product) (starts : list Z) :
  tables (flat_map (list_page per_page l) starts)
  = map (fun i => map list_cells (slice i per_page l)) starts.
Proof.
  induction starts as [|i starts IH]; [reflexivity|].
  cbn [flat_map map]. rewrite tables_app, IH. unfold list_page.
  now destruct (i + per_page <? _).
Qed.

Lemma page_breaks_pages (per_page : Z) (l : list Store.product) (starts : list Z) :
  page_breaks (flat_map (list_page per_page l) starts)
  = List.length (filter (fun i => i + per_page <? Z.of_nat (List.length l)) starts).
Proof.
  induction starts as [|i starts IH]; [reflexivity|].
  cbn [flat_map filter]. rewrite page_breaks_app, IH. unfold list_page.
  now destruct (i + per_page <? _).
Qed.

Lemma firstn_add {A : Type} (a b : nat) (l : list A) :
  firstn (a + b) l = (firstn a l ++ firstn b (skipn a l))%list.
Proof.
  revert l. induction a as [|a IH]; intros l; [reflexivity|].
  destruct l as [|x l]; cbn.
  - now rewrite firstn_nil.
  - now rewrite IH.
Qed.

Lemma concat_chunks {A : Type} (pn k : nat) (l : list A) :
  List.concat (map (fun j => firstn pn (skipn (j * pn) l)) (seq 0 k))
  = firstn (k * pn) l.
Proof.
  induction k as [|k IH]; [reflexivity|].
  rewrite seq_S, map_app, concat_app, IH. cbn [map List.concat Nat.add].
  rewrite app_nil_r, <- firstn_add. f_equal. lia.
Qed.

Lemma slice_chunk {A : Type} (j : nat) (per_page : Z) (l : list A) :
  0 < per_page ->
  slice (Z.of_nat j * per_page) per_page l
  = firstn (Z.to_nat per_page) (skipn (j * Z.to_nat per_page) l).
Proof.
  intros Hp. unfold slice. do 2 f_equal. nia.
Qed.

Lemma same_key {A : Type} (f : A -> Z) (l : list A) (x y : A) :
  NoDup (map f l) -> In x l -> In y l -> f x = f y -> x = y.
Proof.
  induction l as [|a l IH]; intros Hnd Hx Hy E; [contradiction|].
  inversion Hnd as [|? ? Hnotin Hnd']; subst.
  destruct Hx as [->|Hx], Hy as [->|Hy]; try reflexivity.
  - exfalso. apply Hnotin. rewrite E. now apply in_map.
  - exfalso. apply Hnotin. rewrite <- E. now apply in_map.
  - now apply IH.
Qed.

Lemma selected_iff_checked (boxes : list checkbox) (b : checkbox) :
  NoDup (map cb_id boxes) -> In b boxes ->
  existsb (Z.eqb (cb_id b)) (map cb_id (filter cb_checked boxes)) = cb_checked b.
Proof.
  intros Hnd Hb. destruct (cb_checked b) eqn:E.
  - apply existsb_exists. exists (cb_id b). split; [|apply Z.eqb_refl].
    apply in_map, filter_In. now split.
  - destruct (existsb _ _) eqn:X; [|reflexivity].
    apply existsb_exists in X as (i & Hi & Ei). apply Z.eqb_eq in Ei. subst i.
    apply in_map_iff in Hi as (b' & Eb & Hb'). apply filter_In in Hb' as [Hb' Hc].
    assert (b' = b) by (apply (same_key cb_id boxes); auto). congruence.
Qed.

Lemma filter_by_partner {A B : Type} (f : A -> bool) (g : B -> bool)
    (l : list A) (m : list B) :
  Forall2 (fun a b => f a = g b) l m ->
  filter f l = map fst (filter (fun ab => g (snd ab)) (combine l m)).
Proof.
  induction 1 as [|a b l m E _ IH]; [reflexivity|].
  cbn. rewrite E. destruct (g b); cbn; now rewrite IH.
Qed.

Lemma partners (rows : list Store.product) (boxes all : list checkbox) :
  map cb_id boxes = map Store.id rows ->
  NoDup (map cb_id all) ->
  (forall b, In b boxes -> In b all) ->
  Forall2 (fun r b => existsb (Z.eqb (Store.id r)) (map cb_id (filter cb_checked all))
                      = cb_checked b) rows boxes.
Proof.
  revert boxes. induction rows as [|r rows IH]; intros [|b boxes] E Hnd Hsub;
    try discriminate; constructor.
  - injection E as E _. rewrite <- E. apply selected_iff_checked; [assumption|].
    apply Hsub. now left.
  - apply IH; [now injection E|assumption|]. intros b' Hb'. apply Hsub. now right.
Qed.

Lemma selection_is_checked (d : Store.database) (boxes : list checkbox) :
  NoDup (map Store.id (Store.rows d)) ->
  map cb_id boxes = map Store.id (Store.rows d) ->
  filter (fun r => existsb (Z.eqb (Store.id r)) (map cb_id (filter cb_checked boxes)))
         (Store.rows d)
  = checked_products d boxes.
Proof.
  intros Hnd E. unfold checked_products. apply filter_by_partner.
  apply partners; [assumption|now rewrite E|auto].
Qed.

Lemma checked_count (rows : list Store.product) (boxes : list checkbox) :
  List.length rows = List.length boxes ->
  List.length (filter cb_checked boxes)
  = List.length (filter (fun rb : Store.product * checkbox => cb_checked (snd rb))
                        (combine rows boxes)).
Proof.
  revert boxes. induction rows as [|r rows IH]; intros [|b boxes] E;
    try discriminate; [reflexivity|].
  cbn. injection E as E. destruct (cb_checked b); cbn; now rewrite (IH boxes E).
Qed.

Section ProductListProperties.

Context {builtins : PyBuiltins} {limits : Limits}.


End ProductListProperties.


Section ProductListEdges.

Context {builtins : PyBuiltins} {limits : Limits}.

(** X18.  Without a positive number of products per page no product line
    is printed.  A text that [int] cannot read raises ValueError at once.
    Zero passes until the print dialog is accepted and then raises
    ValueError, the step of a range being zero.  A negative number raises
    nothing: an empty document is sent to the printer. *)
Theorem per_page_must_be_positive (text : string) (boxes : list checkbox)
    (d : Store.database) :
  (py_int text = None ->
   forall accepted,
     print_selected_products text boxes accepted d = ListFailed (Raised ValueError))
  /\ (forall per_page,
         py_int text = Some per_page -> per_page <= 0 ->
         (forall accepted,
             printed_lines (print_selected_products text boxes accepted d) = [])
         /\ (filter cb_checked boxes <> [] ->
             (N.of_nat (List.length (filter cb_checked boxes)) <= variable_number)%N ->
             print_selected_products text boxes true d
             = if per_page =? 0 then ListFailed (Raised ValueError)
               else ListPrinted [])).
Proof.
  split.
  - intros Hint accepted. unfold print_selected_products. now rewrite Hint.
  - intros per_page Hint Hp.
    assert (forall stop, range_step stop per_page
                         = if per_page =? 0 then None else Some []) as Hrange.
    { intros stop. unfold range_step. destruct (Z.eqb_spec per_page 0); [reflexivity|].
      destruct (Z.ltb_spec per_page 0); [reflexivity|lia]. }
    split.
    + intros accepted. unfold print_selected_products. rewrite Hint.
      destruct (map cb_id (filter cb_checked boxes)) as [|i ids] eqn:E; [reflexivity|].
      rewrite <- E. destruct (_ <? _)%N; [reflexivity|].
      destruct accepted; [|reflexivity].
      rewrite Hrange. now destruct (per_page =? 0).
    + intros Hsel Hlim. unfold print_selected_products. rewrite Hint.
      destruct (map cb_id (filter cb_checked boxes)) as [|i ids] eqn:E.
      { destruct (filter cb_checked boxes); [contradiction|discriminate]. }
      rewrite <- E, length_map.
      destruct (N.ltb_spec variable_number
                  (N.of_nat (List.length (filter cb_checked boxes)))); [lia|].
      rewrite Hrange. now destruct (per_page =? 0).
Qed.

(** X19.  Filtering the boxes of the print dialog only hides them: every
    box keeps its product and its check mark, so what is printed is the
    same with and without the filter, hidden products included; with an
    empty search text every box is visible. *)
Theorem filter_keeps_the_selection (search : string) (boxes : list checkbox) :
  map cb_id (filter_print_products search boxes) = map cb_id boxes
  /\ map cb_checked (filter_print_products search boxes) = map cb_checked boxes
  /\ (forall text accepted d,
         print_selected_products text (filter_print_products search boxes) accepted d
         = print_selected_products text boxes accepted d)
  /\ Forall (fun c => cb_visible c = true) (filter_print_products "" boxes).
Proof.
  unfold filter_print_products.
  assert (forall s, map cb_id (filter cb_checked
            (map (fun c => {| cb_id := cb_id c; cb_text := cb_text c;
                              cb_checked := cb_checked c;
                              cb_visible := contains s (PyConv.lowercase (cb_text c)) |})
                 boxes))
          = map cb_id (filter cb_checked boxes)) as Hsel.
  { intros s. induction boxes as [|c boxes IH]; [reflexivity|].
    cbn. destruct (cb_checked c); cbn; now rewrite IH. }
  split; [|split; [|split]].
  - rewrite map_map. reflexivity.
  - rewrite map_map. reflexivity.
  - intros text accepted d. unfold print_selected_products. now rewrite Hsel.
  - apply Forall_forall. intros c Hc. apply in_map_iff in Hc as (c0 & <- & _).
    cbn. now destruct (PyConv.lowercase (cb_text c0)).
Qed.

End ProductListEdges.

Lemma per_page_must_be_positive_witness :
  @print_selected_products ascii_builtins default_limits "0"
    (print_products_list (db cafe)) true (db cafe) = ListFailed (Raised ValueError)
  /\ @print_selected_products ascii_builtins default_limits "-3"
       (print_products_list (db cafe)) true (db cafe) = ListPrinted [].
Proof.
  destruct (@per_page_must_be_positive ascii_builtins default_limits "0"
              (print_products_list (db cafe)) (db cafe)) as [_ H0].
  destruct (@per_page_must_be_positive ascii_builtins default_limits "-3"
              (print_products_list (db cafe)) (db cafe)) as [_ H3].
  split.
  - apply (H0 0); [reflexivity|lia|discriminate|vm_compute; discriminate].
  - apply (H3 (-3)); [reflexivity|lia|discriminate|vm_compute; discriminate].
Defined.

(** ** The barcode dialog and the two ways of printing its selection *)

Lemma at_row_map {A B : Type} (g : A -> B) (f : A -> A) (i : nat) (l : list A) :
  (forall x, g (f x) = g x) -> map g (at_row i f l) = map g l.
Proof.
  intros H. revert i. induction l as [|x l IH]; intros i; [now destruct i|].
  destruct i as [|i]; cbn; [now rewrite H|now rewrite IH].
Qed.

Lemma at_row_forall {A : Type} (P : A -> Prop) (f : A -> A) (i : nat) (l : list A) :
  (forall x, P x -> P (f x)) -> Forall P l -> Forall P (at_row i f l).
Proof.
  intros H Hl. revert i.
  induction Hl as [|x l Hx Hl IH]; intros i; [destruct i; constructor|].
  destruct i as [|i]; cbn; constructor; auto.
Qed.

Lemma dialog_rows (d : Store.database) (t : list print_row) :
  dialog_state d t ->
  map pr_barcode t = map Store.barcode (Store.rows d)
  /\ Forall (fun r => 1 <= pr_copies r <= 100) t.
Proof.
  induction 1 as [|t i checked _ [IHb IHc]|t i value _ [IHb IHc]|t state _ [IHb IHc]].
  - unfold print_barcode. split.
    + rewrite map_map. reflexivity.
    + apply Forall_forall. intros r Hr. apply in_map_iff in Hr as (x & <- & _).
      cbn. lia.
  - split.
    + rewrite at_row_map; [assumption|reflexivity].
    + apply at_row_forall; [|assumption]. intros x Hx. exact Hx.
  - split.
    + rewrite at_row_map; [assumption|reflexivity].
    + apply at_row_forall; [|assumption]. intros x _. cbn. lia.
  - unfold toggle_all_products. split.
    + rewrite map_map. cbn. exact IHb.
    + apply Forall_forall. intros r Hr. apply in_map_iff in Hr as (x & <- & Hx).
      cbn. rewrite Forall_forall in IHc. now apply IHc.
Qed.

Lemma nodup_filter_map {A B : Type} (f : A -> B) (g : A -> bool) (l : list A) :
  NoDup (map f l) -> NoDup (map f (filter g l)).
Proof.
  induction l as [|x l IH]; intros H; [constructor|].
  cbn in *. inversion H as [|? ? Hnotin Hnd]; subst.
  destruct (g x); [|now apply IH]. cbn. constructor; [|now apply IH].
  intros Hin. apply Hnotin. apply in_map_iff in Hin as (y & E & Hy).
  apply filter_In in Hy as [Hy _]. rewrite <- E. now apply in_map.
Qed.

Lemma job_of_dialog (d : Store.database) (t : list print_row) :
  NoDup (map Store.barcode (Store.rows d)) ->
  dialog_state d t ->
  NoDup (map fst (barcodes_to_print t))
  /\ Forall (fun item => 1 <= snd item <= 100) (barcodes_to_print t)
  /\ (forall item, In item (barcodes_to_print t) ->
                   exists r, In r (Store.rows d) /\ Store.barcode r = fst item).
Proof.
  intros Hnd Hst. destruct (dialog_rows d t Hst) as [Hb Hc].
  unfold barcodes_to_print. split; [|split].
  - rewrite map_map. cbn [fst].
    change (NoDup (map pr_barcode (filter pr_checked t))).
    apply nodup_filter_map. now rewrite Hb.
  - apply Forall_forall. intros item Hin. apply in_map_iff in Hin as (r & <- & Hr).
    apply filter_In in Hr as [Hr _]. rewrite Forall_forall in Hc. cbn. now apply Hc.
  - intros item Hin. apply in_map_iff in Hin as (r & <- & Hr).
    apply filter_In in Hr as [Hr _]. cbn [fst].
    assert (In (pr_barcode r) (map Store.barcode (Store.rows d))) as H
      by (rewrite <- Hb; now apply in_map).
    apply in_map_iff in H as (x & E & Hx). eauto.
Qed.

(** ** The pages of a selection *)

Section SelectionPagination.

Context {host : Host}.

Variable size : paper.
Variable show_price : bool.
Variable page : QRect.


End SelectionPagination.


(** ** The two ways of printing a selection *)

Lemma images_app (a b : list paint_event) :
  images (a ++ b) = (images a ++ images b)%list.
Proof. unfold images. apply flat_map_app. Qed.

Lemma label_image (l : list paint_event) (target : QRectF) (path : string) :
  is_label l -> hd_error l = Some (DrawImage target path) -> images l = [path].
Proof.
  intros (t & p & rest & -> & Hrest) [= <- <-]. cbn. f_equal.
  induction Hrest as [|e rest He _ IH]; [reflexivity|].
  destruct e; try contradiction; exact IH.
Qed.

Lemma labels_length (job : list (string * Z)) :
  List.length (labels job) = total_copies job.
Proof.
  induction job as [|item job IH]; [reflexivity|].
  unfold labels in *. cbn [flat_map total_copies fold_right].
  rewrite length_app, repeat_length, IH. reflexivity.
Qed.

Lemma codes_app (a b : list esc_command) : codes (a ++ b) = (codes a ++ codes b)%list.
Proof. unfold codes. apply flat_map_app. Qed.

Lemma codes_copies size show_price d barcode_value (ks : list Z) :
  codes (flat_map (fun _ => direct_copy size show_price d barcode_value) ks)
  = repeat barcode_value (List.length ks).
Proof.
  induction ks as [|k ks IH]; [reflexivity|].
  cbn [flat_map List.length repeat]. rewrite codes_app, IH.
  unfold direct_copy. destruct (direct_scale size) as [k0 h].
  now destruct show_price.
Qed.

Lemma codes_job size show_price d (job : list (string * Z)) :
  codes (direct_job size show_price d job) = labels job.
Proof.
  unfold direct_job. rewrite codes_app. cbn. rewrite app_nil_r.
  induction job as [|item job IH]; [reflexivity|].
  cbn [flat_map]. unfold labels. cbn [flat_map]. fold (labels job).
  now rewrite codes_app, IH, codes_copies, range_length.
Qed.

Lemma no_cut_in_copies size show_price d (job : list (string * Z)) :
  ~ In EscCut (flat_map (fun item =>
                 flat_map (fun _ => direct_copy size show_price d (fst item))
                          (range (snd item))) job).
Proof.
  intros H. apply in_flat_map in H as (item & _ & H).
  apply in_flat_map in H as (k & _ & H).
  unfold direct_copy in H. destruct (direct_scale size) as [k0 h].
  destruct show_price; cbn in H; intuition discriminate.
Qed.

Section BarcodeProperties.

Context {host : Host} {device : Device}.

Variable size : paper.
Variable show_price : bool.
Variable page : QRect.

Lemma render_copies_images final barcode_value copies ks w w' ev :
  render_copies size show_price page final barcode_value copies ks w = (w', ev, None) ->
  images ev = repeat (temp_path barcode_value) (List.length ks) /\ db w' = db w.
Proof.
  revert w w' ev. induction ks as [|k ks IH]; intros w w' ev; cbn [render_copies].
  - intros [= <- <-]. now split.
  - destruct (render_copy size show_price page final barcode_value copies k w)
      as [[w1 ev1] [e|]] eqn:E1; [discriminate|].
    destruct (render_copies size show_price page final barcode_value copies ks w1)
      as [[w2 ev2] r] eqn:E2.
    intros [= <- <- ->].
    apply render_copy_done in E1 as (target & l & _ & Hl & Hhd & -> & Hdb).
    destruct (IH _ _ _ E2) as [Him Hdb2].
    split; [|congruence].
    rewrite !images_app, (label_image l _ _ Hl Hhd), Him.
    now destruct (advances_after _ _ _).
Qed.

Lemma render_items_images final items w w' ev :
  render_items size show_price page final items w = (w', ev, None) ->
  images ev = map temp_path (labels items) /\ db w' = db w.
Proof.
  revert w w' ev. induction items as [|[barcode_value copies] rest IH]; intros w w' ev;
    cbn [render_items].
  - intros [= <- <-]. now split.
  - destruct (render_copies size show_price page final barcode_value copies
                (range copies) w) as [[w1 ev1] [e|]] eqn:E1; [discriminate|].
    destruct (render_items size show_price page final rest w1) as [[w2 ev2] r] eqn:E2.
    intros [= <- <- ->].
    apply render_copies_images in E1 as [H1 Hdb1].
    destruct (IH _ _ _ E2) as [H2 Hdb2].
    split; [|congruence].
    rewrite images_app, H1, H2, range_length.
    unfold labels. cbn [flat_map fst snd]. now rewrite map_app, map_repeat.
Qed.

End BarcodeProperties.

(** A job that the ESC/POS printer did not take whole stopped before the
    cut. *)
Lemma interrupted_before_cut (body sent rest : list esc_command) :
  (body ++ [EscCut])%list = (sent ++ rest)%list ->
  rest <> [] ->
  ~ In EscCut body ->
  ~ In EscCut sent.
Proof.
  intros E Hrest Hbody Hin.
  destruct (exists_last Hrest) as (rest' & c & ->).
  rewrite app_assoc in E. apply app_inj_tail in E as [-> _].
  apply Hbody, in_or_app. now left.
Qed.

Section BarcodeOutcomes.

Context {host : Host} {device : Device}.

Variable size : paper.
Variable show_price : bool.
Variable page : QRect.


End BarcodeOutcomes.


(** ** An export followed by an import *)

(** A quantity written by the export reads back. *)
Lemma quantity_reads_back (q : Z) :
  0 <= q ->
  PyConv.int_of_string (PyStr.remove_commas (PyStr.strip (PyStr.str_of_int q))) = Some q.
Proof.
  intros Hq. destruct q as [|p|p]; [reflexivity| |lia].
  rewrite str_of_int_pos.
  rewrite (strip_free _ (digits_free_of_space _ (uint_digit_string _))).
  rewrite (remove_commas_digits _ (uint_digit_string _)).
  exact (int_of_digits p false).
Qed.

Lemma in_N_range (lo count : nat) (n : N) :
  (N.of_nat lo <= n < N.of_nat (lo + count))%N -> In n (N_range lo count).
Proof.
  intros H. unfold N_range. apply in_map_iff. exists (N.to_nat n). split; [lia|].
  apply in_seq. lia.
Qed.

Lemma years_checked :
  forallb (date_field_checked 4 PyConv.year_field) (N_range 1000 (90 * 100)) = true.
Proof. vm_compute. reflexivity. Qed.

Lemma months_checked :
  forallb (date_field_checked 2 (PyConv.field false 1 12)) (N_range 1 12) = true.
Proof. vm_compute. reflexivity. Qed.

Lemma days_checked :
  forallb (date_field_checked 2 (PyConv.field true 1 31)) (N_range 1 31) = true.
Proof. vm_compute. reflexivity. Qed.

Lemma date_field (w : nat) (read : string -> option N) (n : N) :
  date_field_checked w read n = true ->
  free_of (Ascii.eqb "-") (PyConv.pad w n) = true
  /\ free_of (Ascii.eqb "/") (PyConv.pad w n) = true
  /\ free_of PyStr.is_space (PyConv.pad w n) = true
  /\ PyConv.pad w n <> ""
  /\ read (PyConv.pad w n) = Some n.
Proof.
  unfold date_field_checked. intros H.
  repeat (apply andb_true_iff in H as [H ?]).
  repeat split; try assumption.
  - now destruct (PyConv.pad w n).
  - destruct (read (PyConv.pad w n)) as [v|]; [|discriminate].
    f_equal. now apply N.eqb_eq.
Qed.

Lemma days_in_month_bound (y m : N) : (PyConv.days_in_month y m <= 31)%N.
Proof.
  unfold PyConv.days_in_month.
  destruct (m =? 2)%N; [destruct (PyConv.is_leap y); lia|].
  destruct (_ || _); lia.
Qed.

Section AsciiDates.

(** A stored date is read by the import as itself. *)
Lemma iso_date_coerced (e : string) :
  iso_date e -> @coerce_expiry ascii_builtins (PyStr.strip e) = e.
Proof.
  intros (y & m & d & Hy & Hm & Hd & ->).
  pose proof (days_in_month_bound y m) as Hmax.
  pose proof years_checked as HY. rewrite forallb_forall in HY.
  specialize (HY y (in_N_range 1000 (90 * 100) y ltac:(lia))).
  pose proof months_checked as HM. rewrite forallb_forall in HM.
  specialize (HM m (in_N_range 1 12 m ltac:(lia))).
  pose proof days_checked as HD. rewrite forallb_forall in HD.
  specialize (HD d (in_N_range 1 31 d ltac:(lia))).
  apply date_field in HY as (Yd & Ys & Yb & Yne & Yr).
  apply date_field in HM as (Md & Ms & Mb & Mne & Mr).
  apply date_field in HD as (Dd & Ds & Db & Dne & Dr).
  unfold PyConv.iso.
  set (Y := PyConv.pad 4 y) in *. set (M := PyConv.pad 2 m) in *.
  set (D := PyConv.pad 2 d) in *.
  assert (PyStr.strip (Y ++ "-" ++ M ++ "-" ++ D) = Y ++ "-" ++ M ++ "-" ++ D) as ->.
  { apply strip_free. rewrite !free_of_app, Yb, Mb, Db. reflexivity. }
  unfold coerce_expiry.
  assert (PyStr.truthy (Y ++ "-" ++ M ++ "-" ++ D) = true) as ->
    by (destruct Y; [contradiction|reflexivity]).
  cbn [strptime_iso ascii_builtins PyConv.strptime_strftime].
  rewrite split_on_free by (rewrite !free_of_app, Ys, Ms, Ds; reflexivity).
  change (Y ++ "-" ++ M ++ "-" ++ D) with (Y ++ String "-" (M ++ String "-" D)).
  rewrite (split_on_first "-" Y _ Yd), (split_on_first "-" M _ Md),
    (split_on_free "-" D Dd).
  rewrite Yr, Mr, Dr. unfold PyConv.checked.
  destruct (N.leb_spec d (PyConv.days_in_month y m)); [reflexivity|lia].
Qed.

End AsciiDates.

Lemma above_zero_checks (p : F64.float) :
  F64.ltb F64.zero p = true ->
  F64.leb p F64.zero = false /\ Store.price_ok p = true.
Proof.
  destruct p as [s|s| |s m e]; try destruct s; cbn; intros; split; congruence.
Qed.

Lemma renumbered_barcodes (i : Z) (rows : list Store.product) :
  map Store.barcode (renumbered i rows) = map Store.barcode rows.
Proof.
  revert i. induction rows as [|r rows IH]; intros i; [reflexivity|].
  cbn. now rewrite IH.
Qed.

Section Restore.

Context {repr : PyRepr}.

(** The columns the import finds in the header of an export. *)
Lemma export_columns :
  resolve_columns export_header
  = Some {| name_col := 0; qty_col := 1; purchase_col := 2; sale_col := 3;
            expiry_col := Some 4%nat; barcode_col := Some 5%nat;
            supplier_name_col := Some 6%nat; supplier_phone_col := Some 7%nat |}.
Proof. reflexivity. Qed.

Lemma exported_row_imported (c : columns) (r : Store.product) (d : Store.database) :
  resolve_columns export_header = Some c ->
  restorable r ->
  Store.has_barcode (Store.barcode r) d = false ->
  @import_row ascii_builtins c (export_line r) d
  = RowInserted
      {| Store.rows := Store.rows d ++ renumbered (Store.next_id d) [r];
         Store.seq := Store.next_id d |}.
Proof.
  intros Hc ((Hname & Hbc & Hq & Hp & Hs & Tn & Tb & Tsn & Tsp) & He & Rp & Rs) Hfree.
  rewrite export_columns in Hc. injection Hc as <-.
  destruct (above_zero_checks _ Hp) as [Hp0 Hpok].
  destruct (above_zero_checks _ Hs) as [Hs0 Hsok].
  unfold trimmed, reads_back in *.
  unfold import_row, export_line, optional_field.
  cbn [List.length Nat.ltb Nat.leb nth_error name_col qty_col purchase_col sale_col
       expiry_col barcode_col supplier_name_col supplier_phone_col].
  cbv zeta. rewrite Tn, Tb, Tsn, Tsp.
  cbn [py_int py_float ascii_builtins].
  rewrite (quantity_reads_back _ (proj1 Hq)), Rp, Rs.
  assert (PyStr.truthy (Store.name r) = true) as -> by now destruct (Store.name r).
  assert (PyStr.truthy (Store.barcode r) = true) as -> by now destruct (Store.barcode r).
  assert (PyStr.truthy (PyStr.strip (PyStr.str_of_int (Store.quantity r))) = true) as ->.
  { destruct (PyStr.strip (PyStr.str_of_int (Store.quantity r))) eqn:E; [|reflexivity].
    pose proof (quantity_reads_back _ (proj1 Hq)) as Hr. now rewrite E in Hr. }
  assert (PyStr.truthy (PyStr.strip (py_repr (Store.purchase_price r))) = true) as ->.
  { destruct (PyStr.strip (py_repr (Store.purchase_price r))) eqn:E; [|reflexivity].
    discriminate Rp. }
  assert (PyStr.truthy (PyStr.strip (py_repr (Store.sale_price r))) = true) as ->.
  { destruct (PyStr.strip (py_repr (Store.sale_price r))) eqn:E; [|reflexivity].
    discriminate Rs. }
  cbn [andb negb].
  assert ((Store.quantity r <? 0) = false) as -> by (apply Z.ltb_ge; lia).
  rewrite Hp0, Hs0. cbn [orb].
  assert (@coerce_expiry ascii_builtins (PyStr.strip (Store.expiry_date r))
          = Store.expiry_date r) as ->.
  { destruct He as [->|He]; [reflexivity|now apply iso_date_coerced]. }
  unfold Store.insert. cbn [Store.b_quantity Store.b_purchase_price
                            Store.b_sale_price Store.b_barcode].
  assert (Store.fits_int64 (Store.quantity r) = true) as ->.
  { unfold Store.fits_int64. apply andb_true_iff. split; [apply Z.leb_le|apply Z.ltb_lt]; lia. }
  rewrite Hpok, Hsok, Hfree. reflexivity.
Qed.

Lemma restored_rows (c : columns) (rows : list Store.product) (d : Store.database)
    (i e : Z) :
  resolve_columns export_header = Some c ->
  Forall restorable rows ->
  NoDup (map Store.barcode rows) ->
  (forall r, In r rows -> Store.has_barcode (Store.barcode r) d = false) ->
  0 <= Store.seq d ->
  Forall (fun x => Store.id x <= Store.seq d) (Store.rows d) ->
  @import_rows ascii_builtins c (map export_line rows) d i e
  = ({| Store.rows := Store.rows d ++ renumbered (Store.seq d + 1) rows;
        Store.seq := Store.seq d + Z.of_nat (List.length rows) |},
     Imported (i + Z.of_nat (List.length rows)) e).
Proof.
  intros Hc. revert d i.
  induction rows as [|r rows IH]; intros d i Hall Hnd Hfree Hseq Hids.
  - cbn. rewrite app_nil_r, !Z.add_0_r. now destruct d.
  - inversion Hall as [|? ? Hr Hrest]; subst.
    inversion Hnd as [|? ? Hnotin Hnd']; subst.
    assert (Store.next_id d = Store.seq d + 1) as Hnext.
    { unfold Store.next_id. pose proof (max_id_upper d (Store.seq d) Hseq Hids). lia. }
    cbn [map import_rows].
    rewrite (exported_row_imported c r d Hc Hr (Hfree r (or_introl eq_refl))).
    rewrite IH; clear IH; cbn [Store.rows Store.seq]; try assumption.
    + rewrite Hnext. cbn [renumbered List.length].
      rewrite Nat2Z.inj_succ, <- Z.add_1_l, !Z.add_assoc, <- app_assoc.
      reflexivity.
    + intros x Hx. destruct (Store.has_barcode _ _) eqn:E; [|reflexivity].
      apply has_barcode_true in E as (y & Hy & Ey). cbn [Store.rows] in Hy.
      apply in_app_or in Hy as [Hy|Hy].
      * assert (Store.has_barcode (Store.barcode x) d = true) as Habs
          by (apply has_barcode_true; eauto).
        rewrite (Hfree x (or_intror Hx)) in Habs. discriminate.
      * cbn in Hy. destruct Hy as [<-|[]]. cbn in Ey.
        exfalso. apply Hnotin. rewrite Ey. now apply in_map.
    + lia.
    + apply Forall_app. split.
      * eapply Forall_impl; [|exact Hids]. cbn. intros x Hx. lia.
      * cbn. constructor; [cbn; lia|constructor].
Qed.

(** X21.  An export followed by an import restores the products.  When the
    rows of a catalog can be sold, have trimmed texts, an expiry date that
    is empty or a date, prices whose printed form reads back, and distinct
    barcodes none of which is in the target database, importing the file
    the export writes adds every one of them to the target, in order and
    with the same values, the ids following the counter of the target and
    the image paths being left out; the summary counts every product as
    imported and none as skipped. *)
Theorem export_then_import_restores (d target : Store.database) :
  Forall restorable (Store.rows d) ->
  NoDup (map Store.barcode (Store.rows d)) ->
  (forall r, In r (Store.rows d) ->
             Store.has_barcode (Store.barcode r) target = false) ->
  0 <= Store.seq target ->
  Forall (fun x => Store.id x <= Store.seq target) (Store.rows target) ->
  @import_from_csv ascii_builtins (fst (export_to_csv d)) target
  = ({| Store.rows := Store.rows target ++ renumbered (Store.seq target + 1) (Store.rows d);
        Store.seq := Store.seq target + snd (export_to_csv d) |},
     Imported (snd (export_to_csv d)) 0).
Proof.
  intros Hall Hnd Hfree Hseq Hids. unfold export_to_csv, import_from_csv.
  cbn [fst snd]. rewrite export_columns.
  now rewrite (restored_rows _ (Store.rows d) target 0 0 export_columns).
Qed.

End Restore.

Lemma export_then_import_restores_witness :
  @import_from_csv ascii_builtins (fst (@export_to_csv ascii_repr (db cafe))) Store.empty
  = ({| Store.rows := renumbered 1 [tea; coffee]; Store.seq := 2 |}, Imported 2 0).
Proof.
  apply (@export_then_import_restores ascii_repr (db cafe) Store.empty).
  - constructor; [|constructor; [|constructor]];
      unfold restorable, sellable, trimmed, reads_back;
      repeat split; try discriminate; try (cbn; lia); try (vm_compute; reflexivity).
    + right. exists 2026%N, 1%N, 15%N.
      repeat split; try reflexivity; vm_compute; discriminate.
    + left. reflexivity.
  - repeat constructor; cbn; intuition discriminate.
  - reflexivity.
  - cbn. lia.
  - constructor.
Defined.

(** ** An edit that changes nothing *)

Lemma substring_whole (n : nat) (s : string) :
  (String.length s <= n)%nat -> substring 0 n s = s.
Proof.
  revert n. induction s as [|a s IH]; intros n H.
  - now destruct n.
  - destruct n as [|n]; cbn in *; [lia|]. rewrite IH; [reflexivity|lia].
Qed.

Lemma line_edit_whole (s : string) : kept_whole s -> line_edit s = s.
Proof.
  unfold kept_whole, line_edit, max_length. intros H. apply substring_whole. lia.
Qed.

(** A line edit never holds more than [max_length] characters. *)
Lemma line_edit_length (s : string) :
  (String.length (line_edit s) <= max_length)%nat.
Proof.
  unfold line_edit. generalize max_length. intros n. revert n.
  induction s as [|a s IH]; intros n.
  - destruct n; cbn; lia.
  - destruct n as [|n]; cbn; [lia|]. specialize (IH n). lia.
Qed.

Lemma value_lower (ds : list N) (acc : N) :
  (acc * 10 ^ N.of_nat (List.length ds)
   <= fold_left (fun a x => 10 * a + x) ds acc)%N.
Proof.
  revert acc. induction ds as [|x ds IH]; intros acc.
  - cbn. lia.
  - cbn [fold_left List.length]. rewrite Nat2N.inj_succ, N.pow_succ_r'.
    specialize (IH (10 * acc + x)%N). nia.
Qed.

(** The decimal digits of a positive number do not start with a zero. *)
Lemma to_uint_head (p : positive) (d : Decimal.uint) :
  Pos.to_uint p <> Decimal.D0 d.
Proof.
  intros E.
  pose proof (Unsigned.to_of (Pos.to_uint p)) as H.
  rewrite Unsigned.of_to in H. cbn [N.to_uint] in H.
  rewrite E, DecimalFacts.unorm_D0 in H.
  unfold Decimal.unorm in H. destruct (Decimal.nzhead d) eqn:En; try discriminate H.
  - injection H as H. subst d. now apply (Unsigned.to_uint_nonzero p).
  - now apply DecimalFacts.nzhead_nonzero in En.
Qed.

(** The text of a quantity is short: at most nineteen digits. *)
Lemma quantity_text_short (q : Z) :
  0 <= q < 2 ^ 63 -> (N.of_nat (String.length (PyStr.str_of_int q)) <= 19)%N.
Proof.
  intros Hq. destruct q as [|p|p]; [cbn; lia| |lia].
  rewrite str_of_int_pos.
  pose proof (value_uint (Pos.to_uint p)) as Hv.
  rewrite Unsigned.of_to in Hv.
  pose proof (to_uint_head p) as Hhead.
  destruct (Pos.to_uint p) as [|d|d|d|d|d|d|d|d|d|d] eqn:E;
    [cbn; lia|now specialize (Hhead d)|..].
  all: cbn [NilEmpty.string_of_uint list_ascii_of_string map] in Hv.
  all: unfold PyConv.value in Hv; cbn [fold_left] in Hv.
  all: match type of Hv with
       | fold_left _ ?ds ?acc = _ =>
           pose proof (value_lower ds acc) as Hlow; rewrite Hv in Hlow;
           rewrite length_map in Hlow
       end.
  all: cbn [NilEmpty.string_of_uint String.length].
  all: match type of Hlow with
       | context [List.length (list_ascii_of_string ?s)] =>
           replace (List.length (list_ascii_of_string s)) with (String.length s) in Hlow
             by (clear; induction s; cbn; congruence)
       end.
  all: match type of Hlow with
       | context [N.of_nat ?n] => set (k := N.of_nat n) in *
       end.
  all: rewrite Nat2N.inj_succ; fold k.
  all: destruct (N.le_gt_cases 19 k) as [Hk|Hk]; [exfalso|lia].
  all: apply (N.pow_le_mono_r 10) in Hk; [|discriminate].
  all: assert ((10 ^ 19 <= N.pos p)%N) as Hbig
      by (vm_compute PyConv.digit_val in Hlow; nia).
  all: assert ((N.pos p < 2 ^ 63)%N) as Hsmall by lia.
  all: revert Hbig Hsmall; generalize (N.pos p); intros n;
    change (10 ^ 19)%N with 10000000000000000000%N;
    change (2 ^ 63)%N with 9223372036854775808%N; lia.
Qed.


Lemma qt_years_checked :
  forallb (date_field_checked 4 (qdate_field 4)) (N_range 1000 (90 * 100)) = true.
Proof. vm_compute. reflexivity. Qed.

Lemma qt_months_checked :
  forallb (date_field_checked 2 (qdate_field 2)) (N_range 1 12) = true.
Proof. vm_compute. reflexivity. Qed.

Lemma qt_days_checked :
  forallb (date_field_checked 2 (qdate_field 2)) (N_range 1 31) = true.
Proof. vm_compute. reflexivity. Qed.

(** A stored date is read by the date editor as the day it writes. *)
Lemma qdate_of_iso (y m d : N) :
  (1000 <= y <= 9999)%N -> (1 <= m <= 12)%N ->
  (1 <= d <= PyConv.days_in_month y m)%N ->
  qdate_from_string (PyConv.iso y m d)
  = Some {| year := Z.of_N y; month := Z.of_N m; day := Z.of_N d |}.
Proof.
  intros Hy Hm Hd.
  pose proof (days_in_month_bound y m) as Hmax.
  pose proof qt_years_checked as HY. rewrite forallb_forall in HY.
  specialize (HY y (in_N_range 1000 (90 * 100) y ltac:(lia))).
  pose proof qt_months_checked as HM. rewrite forallb_forall in HM.
  specialize (HM m (in_N_range 1 12 m ltac:(lia))).
  pose proof qt_days_checked as HD. rewrite forallb_forall in HD.
  specialize (HD d (in_N_range 1 31 d ltac:(lia))).
  apply date_field in HY as (Yd & _ & _ & _ & Yr).
  apply date_field in HM as (Md & _ & _ & _ & Mr).
  apply date_field in HD as (Dd & _ & _ & _ & Dr).
  unfold qdate_from_string, PyConv.iso.
  change (PyConv.pad 4 y ++ "-" ++ PyConv.pad 2 m ++ "-" ++ PyConv.pad 2 d)
    with (PyConv.pad 4 y ++ String "-" (PyConv.pad 2 m ++ String "-" (PyConv.pad 2 d))).
  rewrite (split_on_first "-" _ _ Yd), (split_on_first "-" _ _ Md),
    (split_on_free "-" _ Dd).
  rewrite Yr, Mr, Dr.
  destruct (N.leb_spec 1 y); [|lia]. destruct (N.leb_spec 1 m); [|lia].
  destruct (N.leb_spec m 12); [|lia]. destruct (N.leb_spec 1 d); [|lia].
  destruct (N.leb_spec d (PyConv.days_in_month y m)); [reflexivity|lia].
Qed.

Lemma no_other_holder (old : string) (l : list Store.product) :
  existsb (fun x => negb (String.eqb (Store.barcode x) old)
                    && String.eqb (Store.barcode x) old) l = false.
Proof.
  induction l as [|x l IH]; [reflexivity|].
  cbn. destruct (String.eqb (Store.barcode x) old); cbn; apply IH.
Qed.

Lemma update_in_place (old : string) (b : Store.bindings) (d : Store.database)
    (r : Store.product) :
  NoDup (map Store.barcode (Store.rows d)) ->
  In r (Store.rows d) ->
  Store.barcode r = old ->
  Store.b_barcode b = old ->
  storable b ->
  Store.update old b d
  = Store.Ok {| Store.rows := map (fun x => if String.eqb (Store.barcode x) old
                                            then Store.row_of (Store.id r) b else x)
                                  (Store.rows d);
                Store.seq := Store.seq d |}.
Proof.
  intros Hnd Hin Hr Hb (Hfit & Hp & Hs). unfold Store.update.
  rewrite Hfit, Hp, Hs. cbn [negb andb].
  assert (find (matches old) (Store.rows d) = Some r) as Hfind.
  { rewrite <- Hr. apply find_by_barcode; assumption. }
  fold (matches old). rewrite (unique_filter old _ r Hnd Hfind).
  assert (existsb (fun x => negb (String.eqb (Store.barcode x) old)
                            && String.eqb (Store.barcode x) (Store.b_barcode b))
                  (Store.rows d) = false) as ->.
  { rewrite Hb. apply no_other_holder. }
  do 2 f_equal. apply map_ext_in. intros x Hx. unfold matches.
  destruct (String.eqb_spec (Store.barcode x) old) as [E|E]; [|reflexivity].
  assert (x = r) as ->; [|reflexivity].
  apply find_by_barcode with (l := Store.rows d) in Hx; [|assumption].
  rewrite E, <- Hr in Hx. rewrite <- Hr in Hfind. unfold matches in Hfind.
  congruence.
Qed.

Section UnchangedEdit.

Context {repr : PyRepr}.

(** X22.  An edit that changes nothing keeps the product.  For a product
    that can be sold, whose texts the fields of the dialog hold whole, with
    prices whose printed form reads back, a sale price that is not below
    the purchase price and an expiry date that the dialog shows and the
    form accepts, in a catalog with distinct barcodes: the edit dialog
    opens on its values, and saving it as it opened succeeds and writes the
    same row back under the same id, every other row being untouched.  Two
    things are not kept: an empty expiry date becomes the day the dialog
    opened, and a missing image path becomes the empty text. *)
Theorem unchanged_edit_keeps_the_product (opened today : QDate) (d : Store.database)
    (r : Store.product) :
  NoDup (map Store.barcode (Store.rows d)) ->
  In r (Store.rows d) ->
  sellable r ->
  fits_the_dialog r ->
  reads_back (Store.purchase_price r) ->
  reads_back (Store.sale_price r) ->
  F64.ltb (Store.sale_price r) (Store.purchase_price r) = false ->
  expiry_editable opened today (Store.expiry_date r) ->
  exists f image_path,
    product_dialog opened (edit_product (Store.barcode r) d) = Some (f, image_path)
    /\ @save_product ascii_builtins today image_path f (Some (Store.barcode r)) d
       = ({| Store.rows := map (fun x => if String.eqb (Store.barcode x) (Store.barcode r)
                                         then resaved opened r else x)
                               (Store.rows d);
             Store.seq := Store.seq d |}, Saved).
Proof.
  intros Hnd Hin (Hname & Hbc & Hq & Hp & Hs & Tn & Tb & Tsn & Tsp)
    (Wn & Wb & Wsn & Wsp & Wp & Ws) Rp Rs Hsp He.
  destruct (above_zero_checks _ Hp) as [Hp0 Hpok].
  destruct (above_zero_checks _ Hs) as [Hs0 Hsok].
  unfold edit_product, Store.get. rewrite (find_by_barcode _ r Hnd Hin).
  assert (exists q,
             (if PyStr.truthy (Store.expiry_date r) then
                match qdate_from_string (Store.expiry_date r) with
                | Some q => if date_ltb q editor_minimum then None else Some q
                | None => None
                end
              else Some opened) = Some q
             /\ date_ltb q today = false
             /\ date_to_string q
                = (if PyStr.truthy (Store.expiry_date r) then Store.expiry_date r
                   else date_to_string opened)) as (q & Hshown & Hnow & Hwritten).
  { destruct He as [[-> Hday]|(y & m & dd & Hy & Hm & Hd & -> & Hpast)].
    - exists opened. cbn. now repeat split.
    - exists {| year := Z.of_N y; month := Z.of_N m; day := Z.of_N dd |}.
      assert (PyStr.truthy (PyConv.iso y m dd) = true) as Htruthy.
      { unfold PyConv.iso.
        pose proof qt_years_checked as HY. rewrite forallb_forall in HY.
        specialize (HY y (in_N_range 1000 (90 * 100) y ltac:(lia))).
        apply date_field in HY as (_ & _ & _ & Yne & _).
        now destruct (PyConv.pad 4 y). }
      rewrite Htruthy, qdate_of_iso by lia.
      assert (date_ltb {| year := Z.of_N y; month := Z.of_N m; day := Z.of_N dd |}
                       editor_minimum = false) as ->.
      { unfold date_ltb, editor_minimum. cbn [year month day].
        destruct (Z.ltb_spec (Z.of_N y) 1752); [lia|].
        destruct (Z.eqb_spec (Z.of_N y) 1752); [lia|]. reflexivity. }
      split; [reflexivity|split; [assumption|reflexivity]]. }
  unfold product_dialog. cbv zeta. rewrite Hshown.
  rewrite (line_edit_whole _ Wn), (line_edit_whole _ Wb), (line_edit_whole _ Wsn),
    (line_edit_whole _ Wsp), (line_edit_whole _ Wp), (line_edit_whole _ Ws).
  rewrite (line_edit_whole (PyStr.str_of_int (Store.quantity r)))
    by (unfold kept_whole; pose proof (quantity_text_short _ Hq); lia).
  eexists _, _. split; [reflexivity|].
  unfold trimmed, reads_back in *.
  assert (@read_form ascii_builtins today
            match Store.image_path r with
            | Some p => if PyStr.truthy p then p else ""
            | None => ""
            end
            {| f_name := Store.name r;
               f_qty := PyStr.str_of_int (Store.quantity r);
               f_purchase := py_repr (Store.purchase_price r);
               f_sale := py_repr (Store.sale_price r);
               f_expiry := q; f_barcode := Store.barcode r;
               f_supplier_name := Store.supplier_name r;
               f_supplier_phone := Store.supplier_phone r |} d
          = inr {| Store.b_name := Store.name r;
                   Store.b_quantity := Store.quantity r;
                   Store.b_purchase_price := Store.purchase_price r;
                   Store.b_sale_price := Store.sale_price r;
                   Store.b_expiry_date := date_to_string q;
                   Store.b_barcode := Store.barcode r;
                   Store.b_image_path :=
                     Some match Store.image_path r with
                          | Some p => if PyStr.truthy p then p else ""
                          | None => ""
                          end;
                   Store.b_supplier_name := Store.supplier_name r;
                   Store.b_supplier_phone := Store.supplier_phone r |}) as Hform.
  { unfold read_form.
    cbn [f_name f_qty f_purchase f_sale f_expiry f_barcode f_supplier_name
         f_supplier_phone]. cbv zeta.
    rewrite Tn, Tb, Tsn, Tsp.
    cbn [py_int py_float ascii_builtins].
    rewrite (quantity_reads_back _ (proj1 Hq)), Rp, Rs.
    assert (PyStr.truthy (Store.name r) = true) as -> by now destruct (Store.name r).
    assert (PyStr.truthy (Store.barcode r) = true) as ->
      by now destruct (Store.barcode r).
    assert (PyStr.truthy (PyStr.strip (PyStr.str_of_int (Store.quantity r))) = true) as ->.
    { destruct (PyStr.strip (PyStr.str_of_int (Store.quantity r))) eqn:E; [|reflexivity].
      pose proof (quantity_reads_back _ (proj1 Hq)) as Hr. now rewrite E in Hr. }
    assert (PyStr.truthy (PyStr.strip (py_repr (Store.purchase_price r))) = true) as ->.
    { destruct (PyStr.strip (py_repr (Store.purchase_price r))) eqn:E; [|reflexivity].
      discriminate Rp. }
    assert (PyStr.truthy (PyStr.strip (py_repr (Store.sale_price r))) = true) as ->.
    { destruct (PyStr.strip (py_repr (Store.sale_price r))) eqn:E; [|reflexivity].
      discriminate Rs. }
    cbn [andb negb].
    assert ((Store.quantity r <? 0) = false) as -> by (apply Z.ltb_ge; lia).
    now rewrite Hp0, Hs0, Hsp, Hnow. }
  unfold save_product. rewrite Hform.
  rewrite update_in_place with (r := r);
    [|assumption|assumption|reflexivity|reflexivity|].
  - do 2 f_equal. apply map_ext. intros x.
    destruct (String.eqb (Store.barcode x) (Store.barcode r)); [|reflexivity].
    unfold Store.row_of, resaved. cbn. rewrite Hwritten.
    destruct (Store.image_path r) as [p|]; [|reflexivity].
    now destruct p.
  - unfold storable. cbn. repeat split; trivial.
    unfold Store.fits_int64. apply andb_true_iff.
    split; [apply Z.leb_le|apply Z.ltb_lt]; lia.
Qed.

End UnchangedEdit.

Lemma unchanged_edit_keeps_the_product_witness :
  exists f image_path,
    @product_dialog ascii_repr sample_day (edit_product "A-7" (db cafe))
    = Some (f, image_path)
    /\ @save_product ascii_builtins sample_day image_path f (Some "A-7") (db cafe)
       = ({| Store.rows := [tea; resaved sample_day coffee]; Store.seq := 3 |}, Saved).
Proof.
  destruct (@unchanged_edit_keeps_the_product ascii_repr sample_day sample_day
              (db cafe) coffee)
    as (f & image_path & Hdialog & Hsave).
  - repeat constructor; cbn; intuition discriminate.
  - right. left. reflexivity.
  - unfold sellable, trimmed.
    repeat split; try discriminate; try reflexivity; cbn; lia.
  - unfold fits_the_dialog, kept_whole. repeat split; vm_compute; discriminate.
  - vm_compute. reflexivity.
  - vm_compute. reflexivity.
  - vm_compute. reflexivity.
  - left. split; reflexivity.
  - exists f, image_path. split; [exact Hdialog|exact Hsave].
Defined.
